(** * History reconciliation and run tracking of the pharma search client

    A shallow embedding of [src/frontend/app.js]: the history cache
    ([state.history]), its reconciliation with the server's run list, the
    patch functions, the run poller and the pending indicator.

    JavaScript objects that the code treats as bags of named fields (history
    records, patches, runs, search results) are finite maps from field names
    to values; [{...a, ...b}] is the left-biased union [b ∪ a].  The clock
    ([new Date().toISOString()]) and [cryptoId()] are inputs of the functions
    that read them.  Of the DOM only the timeline's child list is kept, as
    far as the poller and the pending indicator mount and unmount nodes;
    rendering that only redraws from the state ([renderHistory],
    [updateComposerVisibility]) is left out.  An [async] function is split
    at its [await]: one definition up to the request, one from the point
    where the request settles. *)

From stdpp Require Import gmap strings list fin_maps pretty.

Open Scope string_scope.
Open Scope list_scope.
Open Scope nat_scope.

(** ** Values *)

(** The values a field can hold.  Objects and arrays parsed from a response
    are references into an immutable heap that the host provides (see
    [Host]).  [JEmptyObj] is the literal [{}]; the code stores it in [query]
    only and never compares it.  Numbers are the integers; a string is the
    sequence of its code units. *)
Inductive jsval :=
  | JUndef
  | JNull
  | JBool (b : bool)
  | JNum (n : Z)
  | JStr (s : string)
  | JObj (ref : nat)
  | JEmptyObj.

Global Instance jsval_eq_dec : EqDecision jsval.
Proof. solve_decision. Defined.

Global Instance jsval_inhabited : Inhabited jsval := populate JUndef.

Definition jsval_code (v : jsval) : () + () + bool + Z + string + nat + () :=
  match v with
  | JUndef => inl (inl (inl (inl (inl (inl ())))))
  | JNull => inl (inl (inl (inl (inl (inr ())))))
  | JBool b => inl (inl (inl (inl (inr b))))
  | JNum n => inl (inl (inl (inr n)))
  | JStr s => inl (inl (inr s))
  | JObj r => inl (inr r)
  | JEmptyObj => inr ()
  end.

Definition jsval_decode (c : () + () + bool + Z + string + nat + ()) : jsval :=
  match c with
  | inl (inl (inl (inl (inl (inl ()))))) => JUndef
  | inl (inl (inl (inl (inl (inr ()))))) => JNull
  | inl (inl (inl (inl (inr b)))) => JBool b
  | inl (inl (inl (inr n))) => JNum n
  | inl (inl (inr s)) => JStr s
  | inl (inr r) => JObj r
  | inr () => JEmptyObj
  end.

Global Instance jsval_countable : Countable jsval.
Proof.
  apply (inj_countable' jsval_code jsval_decode).
  intros []; reflexivity.
Defined.

(** A JSON object read field by field; [o !!! "f"] is [o.f], [JUndef] when
    the field is absent. *)
Abbreviation obj := (gmap string jsval).

(** JavaScript truthiness. *)
Definition truthy (v : jsval) : bool :=
  match v with
  | JUndef | JNull => false
  | JBool b => b
  | JNum n => negb (Z.eqb n 0)
  | JStr s => negb (String.eqb s "")
  | JObj _ | JEmptyObj => true
  end.

(** [a || b] *)
Definition js_or (a b : jsval) : jsval := if truthy a then a else b.

(** [a === b]: primitives by value, objects by reference.  [Set.has] and
    [Map.get] compare keys the same way on these values. *)
Definition strict_eq (a b : jsval) : bool := bool_decide (a = b).

(** ** The host: parsed-object heap and local storage *)

Class Host := {
  (** [obj_field r f]: field [f] of the parsed object behind reference [r] *)
  obj_field : nat → string → jsval;
  (** [obj_String r]: [String(o)] for the object behind reference [r] *)
  obj_String : nat → string;
  (** [obj_items r]: the elements, when the object behind [r] is an array *)
  obj_items : nat → option (list jsval);
  (** whether [localStorage.setItem] accepts this list (no quota error) *)
  storage_accepts : list obj → bool;
}.

Section App.
Context {host : Host}.

(** [String(v)] *)
Definition js_String (v : jsval) : string :=
  match v with
  | JUndef => "undefined"
  | JNull => "null"
  | JBool true => "true"
  | JBool false => "false"
  | JNum n => pretty n
  | JStr s => s
  | JObj r => obj_String r
  | JEmptyObj => "[object Object]"
  end.

(** [a ?? b] *)
Definition js_nullish (a b : jsval) : jsval :=
  match a with
  | JUndef | JNull => b
  | _ => a
  end.

(** [v?.f] *)
Definition opt_field (v : jsval) (f : string) : jsval :=
  match v with
  | JObj r => obj_field r f
  | _ => JUndef
  end.

(** [String(v).slice(0, 3500)] *)
Definition preview (v : jsval) : jsval :=
  JStr (String.substring 0 3500 (js_String v)).

Definition RUN_POLL_MS : Z := 3500.

(** ** Application state *)

Inductive message :=
  | MNoMatches
  | MCandidates
  | MAnalysisInline
  | MPipeline (run_id : jsval).

Record state := State {
  history : list obj;
  activeHistoryId : jsval;
  pendingRunId : jsval;
  (** handle of the mounted indicator node, [None] for [null] *)
  pendingMessage : option nat;
  pendingSessions : gset jsval;
  runningRunIds : gset jsval;
  runningBySession : gmap jsval jsval;
  (** [localStorage[HISTORY_KEY]]: the list last handed to [setItem] *)
  storage : option (list obj);
  (** children of [dom.timeline], each with its node handle *)
  timeline : list (nat * message);
  (** number of nodes created so far; the next handle *)
  nodes : nat;
  (** run ids of the [/runs/get] requests issued, oldest first *)
  requests : list jsval;
  (** [/runs/get] requests still awaiting their response *)
  inflight : list jsval;
  (** armed [setTimeout(() => pollRun(runId), ms)] callbacks *)
  timers : list (Z * jsval);
}.

Definition set_history (l : list obj) (st : state) : state :=
  State l (activeHistoryId st) (pendingRunId st) (pendingMessage st)
    (pendingSessions st) (runningRunIds st) (runningBySession st)
    (storage st) (timeline st) (nodes st) (requests st) (inflight st)
    (timers st).

Definition set_activeHistoryId (v : jsval) (st : state) : state :=
  State (history st) v (pendingRunId st) (pendingMessage st)
    (pendingSessions st) (runningRunIds st) (runningBySession st)
    (storage st) (timeline st) (nodes st) (requests st) (inflight st)
    (timers st).

Definition set_pending (key : jsval) (node : option nat) (st : state) : state :=
  State (history st) (activeHistoryId st) key node
    (pendingSessions st) (runningRunIds st) (runningBySession st)
    (storage st) (timeline st) (nodes st) (requests st) (inflight st)
    (timers st).

Definition set_running (ids : gset jsval) (by_session : gmap jsval jsval)
    (st : state) : state :=
  State (history st) (activeHistoryId st) (pendingRunId st) (pendingMessage st)
    (pendingSessions st) ids by_session
    (storage st) (timeline st) (nodes st) (requests st) (inflight st)
    (timers st).

Definition set_storage (s : option (list obj)) (st : state) : state :=
  State (history st) (activeHistoryId st) (pendingRunId st) (pendingMessage st)
    (pendingSessions st) (runningRunIds st) (runningBySession st)
    s (timeline st) (nodes st) (requests st) (inflight st) (timers st).

Definition set_timeline (t : list (nat * message)) (n : nat) (st : state) : state :=
  State (history st) (activeHistoryId st) (pendingRunId st) (pendingMessage st)
    (pendingSessions st) (runningRunIds st) (runningBySession st)
    (storage st) t n (requests st) (inflight st) (timers st).

Definition set_polling (reqs fl : list jsval) (tm : list (Z * jsval))
    (st : state) : state :=
  State (history st) (activeHistoryId st) (pendingRunId st) (pendingMessage st)
    (pendingSessions st) (runningRunIds st) (runningBySession st)
    (storage st) (timeline st) (nodes st) reqs fl tm.

(** [mountMessage(createMessage(..))]: appends a node, returns its handle. *)
Definition mountMessage (m : message) (st : state) : nat * state :=
  (nodes st, set_timeline (timeline st ++ [(nodes st, m)]) (S (nodes st)) st).

(** [removeNode(node)] for a node of the timeline. *)
Definition removeNode (node : option nat) (st : state) : state :=
  match node with
  | None => st
  | Some n =>
      set_timeline (filter (λ e, e.1 ≠ n) (timeline st)) (nodes st) st
  end.

(** ** Record store *)

(** [saveHistory]: hands the first 100 records to local storage; a failing
    write is swallowed. *)
Definition saveHistory (st : state) : state :=
  let l := take 100 (history st) in
  if storage_accepts l then set_storage (Some l) st else st.

(** ** Reconciliation *)

(** [mapRunToHistory(run)]; [now] is the clock reading. *)
Definition mapRunToHistory (now : string) (run : obj) : obj :=
  let createdAt := js_or (run !!! "created_at") (JStr now) in
  let updatedAt :=
    js_or (js_or (run !!! "finished_at") (run !!! "created_at")) createdAt in
  list_to_map [
    ("id", run !!! "id");
    ("sessionId", js_or (run !!! "session_id") JNull);
    ("createdAt", createdAt);
    ("updatedAt", updatedAt);
    ("query", js_or (run !!! "query") JEmptyObj);
    ("xlsPath", JNull);
    ("matchesCount", JNull);
    ("referenceOptionsCount", JNull);
    ("selectedReferenceDrug", js_or (run !!! "selected_reference_drug") JNull);
    ("selectionJsonPath", js_or (run !!! "selection_file_path") JNull);
    ("routerOutputPath", js_or (run !!! "router_output_path") JNull);
    ("analysisPreview",
       if truthy (run !!! "router_output_text")
       then preview (run !!! "router_output_text") else JNull);
    ("analysisText", js_or (run !!! "router_output_text") JNull);
    ("selectionRows",
       js_or (opt_field (run !!! "selection_payload") "selected_reference_rows")
             JNull);
    ("runId", run !!! "id");
    ("synopsisRunId", JNull);
    ("synopsisDocxUrl", JNull);
    ("synopsisStatus", JNull)
  ].

(** [runs.map(mapRunToHistory)]; [clock i] is the clock reading of the
    [i]-th call. *)
Definition serverItems (clock : nat → string) (runs : list obj) : list obj :=
  imap (λ i run, mapRunToHistory (clock i) run) runs.

(** [new Set(serverItems.map((h) => h.runId))] *)
Definition serverIds (items : list obj) : gset jsval :=
  list_to_set ((λ h : obj, h !!! "runId") <$> items).

(** [new Set(serverItems.map((h) => h.sessionId).filter(Boolean))] *)
Definition serverSessions (items : list obj) : gset jsval :=
  list_to_set
    (filter (λ v, truthy v = true) ((λ h : obj, h !!! "sessionId") <$> items)).

(** The predicate of the [localOnly] filter. *)
Definition localOnly_keeps (ids sessions : gset jsval) (h : obj) : bool :=
  if truthy (h !!! "runId") && bool_decide (h !!! "runId" ∈ ids) then false
  else if truthy (h !!! "sessionId")
          && bool_decide (h !!! "sessionId" ∈ sessions) then false
  else true.

(** The list [loadHistoryFromServer] assigns to [state.history]:
    [[...serverItems, ...localOnly]]. *)
Definition reconcile (clock : nat → string) (runs local : list obj) : list obj :=
  let items := serverItems clock runs in
  let ids := serverIds items in
  let sessions := serverSessions items in
  items ++ filter (λ h, localOnly_keeps ids sessions h = true) local.

(** [runs.filter((r) => r.status === "running")] *)
Definition running_runs (runs : list obj) : list obj :=
  filter (λ r : obj, strict_eq (r !!! "status") (JStr "running") = true) runs.

(** The [forEach] that fills [runningBySession]. *)
Definition running_by_session (runs : list obj) : gmap jsval jsval :=
  foldl (λ (m : gmap jsval jsval) (r : obj),
           if truthy (r !!! "session_id")
           then <[r !!! "session_id" := r !!! "id"]> m else m)
        ∅ (running_runs runs).

(** Outcome of [GET /runs/list]: the request failed, or it delivered
    [data.runs] ([None] when that is not an array). *)
Inductive list_outcome :=
  | ListFailed
  | ListOk (runs : option (list obj)).

(** [loadHistoryFromServer] from the point where the request settles. *)
Definition loadHistoryFromServer (clock : nat → string) (o : list_outcome)
    (st : state) : state :=
  match o with
  | ListFailed => st
  | ListOk data_runs =>
      let runs := default [] data_runs in
      let st := set_history (reconcile clock runs (history st)) st in
      set_running
        (list_to_set ((λ r : obj, r !!! "id") <$> running_runs runs))
        (running_by_session runs) st
  end.

(** ** Creating records *)

(** [array.findIndex(p)]: the first index whose element satisfies [p],
    with that element. *)
Definition findIndex (p : obj → bool) (l : list obj) : option (nat * obj) :=
  list_find (λ h, p h = true) l.

(** The record [handleSearchResult] builds; [recordId] is the value of
    [cryptoId()], [now1] and [now2] the two clock readings. *)
Definition record_of_search (recordId now1 now2 : string) (result : obj) : obj :=
  list_to_map [
    ("id", JStr recordId);
    ("sessionId", result !!! "session_id");
    ("createdAt", JStr now1);
    ("updatedAt", JStr now2);
    ("query", result !!! "query");
    ("xlsPath", result !!! "xls_path");
    ("matchesCount", result !!! "matches_count");
    ("referenceOptionsCount", result !!! "reference_options_count");
    ("selectedReferenceDrug", JNull);
    ("selectionJsonPath", JNull);
    ("routerOutputPath", JNull);
    ("analysisPreview", JNull);
    ("analysisText", JNull);
    ("selectionRows", JNull);
    ("runId", JNull)
  ].

(** [handleSearchResult(result)] *)
Definition handleSearchResult (recordId now1 now2 : string) (result : obj)
    (st : state) : state :=
  if negb (truthy (result !!! "matches_count")) then
    (mountMessage MNoMatches st).2
  else
    let st :=
      set_history (record_of_search recordId now1 now2 result :: history st) st in
    let st := set_activeHistoryId (JStr recordId) st in
    let st := saveHistory st in
    (mountMessage MCandidates st).2.

(** The record [ensureHistoryFromRun] builds. *)
Definition record_of_run (recordId now_c now_u : string) (run : obj) : obj :=
  list_to_map [
    ("id", JStr recordId);
    ("sessionId", js_or (run !!! "session_id") JNull);
    ("createdAt", js_or (run !!! "created_at") (JStr now_c));
    ("updatedAt",
       js_or (js_or (run !!! "finished_at") (run !!! "created_at"))
             (JStr now_u));
    ("query", js_or (run !!! "query") JEmptyObj);
    ("xlsPath", JNull);
    ("matchesCount", JNull);
    ("referenceOptionsCount", JNull);
    ("selectedReferenceDrug", js_or (run !!! "selected_reference_drug") JNull);
    ("selectionJsonPath", js_or (run !!! "selection_file_path") JNull);
    ("routerOutputPath", js_or (run !!! "router_output_path") JNull);
    ("analysisPreview",
       if truthy (run !!! "router_output_text")
       then preview (run !!! "router_output_text") else JNull);
    ("analysisText", js_or (run !!! "router_output_text") JNull);
    ("selectionRows",
       js_or (opt_field (run !!! "selection_payload") "selected_reference_rows")
             JNull);
    ("runId", run !!! "id")
  ].

(** [ensureHistoryFromRun(run)] *)
Definition ensureHistoryFromRun (recordId now_c now_u : string) (run : obj)
    (st : state) : state :=
  if existsb (λ h : obj, strict_eq (h !!! "runId") (run !!! "id")) (history st)
  then st
  else
    saveHistory
      (set_history (record_of_run recordId now_c now_u run :: history st) st).

(** ** Patching *)

(** [patchHistory(sessionId, patch)] *)
Definition patchHistory (sessionId : jsval) (patch : obj) (st : state) : state :=
  match findIndex (λ h, strict_eq (h !!! "sessionId") sessionId) (history st) with
  | None => st
  | Some (idx, h) =>
      let merged : obj := patch ∪ h in
      let l := <[idx := merged]> (history st) in
      let st := set_history l st in
      let st := set_activeHistoryId (merged !!! "id") st in
      let st :=
        if bool_decide (0 < idx)
        then set_history (merged :: delete idx l) st else st in
      saveHistory st
  end.

(** [patchHistoryByRunId(runId, patch)] *)
Definition patchHistoryByRunId (runId : jsval) (patch : obj) (st : state) : state :=
  match findIndex (λ h, strict_eq (h !!! "runId") runId) (history st) with
  | None => st
  | Some (idx, h) =>
      saveHistory (set_history (<[idx := patch ∪ h]> (history st)) st)
  end.

(** [updateHistoryWithSynopsis(runId, synopsis)]; [None] is a missing
    synopsis. *)
Definition updateHistoryWithSynopsis (runId : jsval) (synopsis : option obj)
    (st : state) : state :=
  match synopsis with
  | None => st
  | Some syn =>
      if negb (truthy runId) then st
      else
        patchHistoryByRunId runId (list_to_map [
          ("synopsisRunId", js_or (syn !!! "id") JNull);
          ("synopsisDocxUrl", js_or (syn !!! "download_url") JNull);
          ("synopsisStatus", js_or (syn !!! "status") JNull)
        ]) st
  end.

(** The patch of [updateHistoryFromChoose(result)]. *)
Definition choose_patch (now : string) (result : obj) : obj :=
  list_to_map [
    ("updatedAt", JStr now);
    ("selectedReferenceDrug", result !!! "selected_reference_drug");
    ("selectionJsonPath", result !!! "saved_json_path");
    ("selectionRows",
       js_or (opt_field (result !!! "selection_payload") "selected_reference_rows")
             JNull);
    ("runId", js_or (result !!! "run_id") JNull)
  ].

Definition updateHistoryFromChoose (now : string) (result : obj)
    (st : state) : state :=
  patchHistory (result !!! "session_id") (choose_patch now result) st.

(** A pipeline result [{selection, router}]; [None] for a part that is
    missing (the code then reads from [{}]). *)
Record pipeline_result := PipelineResult {
  selection : option obj;
  router : option obj;
}.

(** The patch of [updateHistoryFromPipeline(result)]. *)
Definition pipeline_patch (now : string) (result : pipeline_result) : obj :=
  let s : obj := default ∅ (selection result) in
  let r : obj := default ∅ (router result) in
  list_to_map [
    ("updatedAt", JStr now);
    ("selectedReferenceDrug", s !!! "selected_reference_drug");
    ("selectionJsonPath", s !!! "saved_json_path");
    ("routerOutputPath", js_or (r !!! "saved_response_path") JNull);
    ("analysisPreview",
       if truthy (r !!! "analysis_text")
       then preview (r !!! "analysis_text") else JNull);
    ("analysisText",
       if negb (strict_eq (r !!! "analysis_text") JUndef)
       then JStr (js_String (r !!! "analysis_text")) else JNull);
    ("selectionRows",
       js_or (opt_field (s !!! "selection_payload") "selected_reference_rows")
             JNull);
    ("runId", js_or (s !!! "run_id") JNull)
  ].

Definition updateHistoryFromPipeline (now : string) (result : pipeline_result)
    (st : state) : state :=
  let s : obj := default ∅ (selection result) in
  patchHistory (s !!! "session_id") (pipeline_patch now result) st.

(** [buildPipelineResultFromRun(run)] *)
Definition buildPipelineResultFromRun (run : obj) : pipeline_result :=
  PipelineResult
    (Some (list_to_map [
       ("run_id", run !!! "id");
       ("session_id", run !!! "session_id");
       ("saved_json_path", js_or (run !!! "selection_file_path") JNull);
       ("selected_reference_drug",
          js_or (run !!! "selected_reference_drug") JNull);
       ("selected_reference_rows_count",
          js_nullish (run !!! "selection_rows_count") JNull);
       ("selection_payload", js_or (run !!! "selection_payload") JNull)
     ]))
    (Some (list_to_map [
       ("reference_drug", js_or (run !!! "selected_reference_drug") JNull);
       ("saved_response_path", js_or (run !!! "router_output_path") JNull);
       ("analysis_text",
          if negb (strict_eq (run !!! "router_output_text") JUndef)
          then run !!! "router_output_text" else JNull)
     ])).

(** ** Pending tracker *)

(** [getActiveRecord()]; [None] for [null]. *)
Definition getActiveRecord (st : state) : option obj :=
  snd <$> findIndex (λ h, strict_eq (h !!! "id") (activeHistoryId st)) (history st).

(** [isRunRelatedToRecord(run, record)] for a run and a record that are
    present. *)
Definition isRunRelatedToRecord (run record : obj) : bool :=
  if truthy (record !!! "runId") && strict_eq (run !!! "id") (record !!! "runId")
  then true
  else if truthy (record !!! "sessionId") && truthy (run !!! "session_id")
          && strict_eq (record !!! "sessionId") (run !!! "session_id")
  then true
  else false.

(** [getRunningRunIdForRecord(record)] *)
Definition getRunningRunIdForRecord (record : option obj) (st : state) : jsval :=
  match record with
  | None => JNull
  | Some rec =>
      if truthy (rec !!! "runId")
         && bool_decide (rec !!! "runId" ∈ runningRunIds st)
      then rec !!! "runId"
      else if truthy (rec !!! "sessionId")
              && bool_decide (is_Some (runningBySession st !! (rec !!! "sessionId")))
      then js_or (runningBySession st !!! (rec !!! "sessionId")) JNull
      else JNull
  end.

(** The [localPending] flag of [maybeShowRunningForRecord]. *)
Definition localPending (record : option obj) (st : state) : bool :=
  match record with
  | None => false
  | Some rec =>
      truthy (rec !!! "sessionId")
      && bool_decide (rec !!! "sessionId" ∈ pendingSessions st)
  end.

(** The [pendingKey] of [maybeShowRunningForRecord], computed once the early
    return has been passed (the record is then present). *)
Definition pendingKey (runId : jsval) (record : option obj) : jsval :=
  js_or runId
    (JStr ("session:" +:+ js_String (default ∅ record !!! "sessionId"))).

(** ** Run poller *)

(** [pollRun(runId)] up to its [await]: the status request is issued. *)
Definition pollRun (runId : jsval) (st : state) : state :=
  set_polling (requests st ++ [runId]) (inflight st ++ [runId]) (timers st) st.

(** Outcome of [GET /runs/get]: the request failed (transport error,
    timeout, error status), or it delivered [data.run] ([None] when that is
    missing). *)
Inductive run_outcome :=
  | RunFailed
  | RunOk (data_run : option obj).

(** The run of an outcome that passes the [!run || run.status !== "done"]
    test. *)
Definition poll_done (o : run_outcome) : option obj :=
  match o with
  | RunOk (Some run) =>
      if strict_eq (run !!! "status") (JStr "done") then Some run else None
  | _ => None
  end.

Fixpoint remove_first {A} `{EqDecision A} (x : A) (l : list A) : list A :=
  match l with
  | [] => []
  | y :: l' => if decide (x = y) then l' else y :: remove_first x l'
  end.

(** [appendPipeline(result)]: mounts the result message.  The synopsis
    block it also builds fetches [/synopsis/get] on its own; that request and
    its later [updateHistoryWithSynopsis] are a separate event. *)
Definition appendPipeline (result : pipeline_result) (st : state) : state :=
  (mountMessage (MPipeline (default ∅ (selection result) !!! "run_id")) st).2.

(** Whether [buildReferenceTable(rows)] returns.  Its
    [rows.slice(0, 20).forEach(...)] throws unless [rows] is an array, and
    the callback reads fields of every row it visits, which throws for a
    row that is [null]. *)
Definition buildReferenceTable_returns (rows : jsval) : bool :=
  match rows with
  | JObj r =>
      match obj_items r with
      | Some items =>
          forallb (λ row, match row with JUndef | JNull => false | _ => true end)
            (take 20 items)
      | None => false
      end
  | _ => false
  end.

(** Whether [appendPipeline(result)] returns: on a parsed response the
    table of the reference rows, built when
    [s.selection_payload && s.selection_payload.selected_reference_rows], is
    the one part of it that can throw. *)
Definition appendPipeline_returns (result : pipeline_result) : bool :=
  let s : obj := default ∅ (selection result) in
  let rows := opt_field (s !!! "selection_payload") "selected_reference_rows" in
  if truthy (s !!! "selection_payload") && truthy rows
  then buildReferenceTable_returns rows else true.

(** [pollRun(runId)] from the point where its request settles.
    [recordId] and the three clock readings are those of
    [ensureHistoryFromRun] and [updateHistoryFromPipeline].  The [try] of
    [pollRun] encloses the done branch.  The calls before [appendPipeline]
    only read fields of parsed values and write the state, and the write to
    local storage catches its own error; when [appendPipeline] throws, which
    it does after it has created its message and before it mounts it, the
    [catch] arms the retry as it does for a failed request. *)
Definition pollRun_resume (recordId now_c now_u now_p : string)
    (runId : jsval) (o : run_outcome) (st : state) : state :=
  let st := set_polling (requests st) (remove_first runId (inflight st))
              (timers st) st in
  match poll_done o with
  | None =>
      set_polling (requests st) (inflight st)
        (timers st ++ [(RUN_POLL_MS, runId)]) st
  | Some run =>
      let st :=
        if bool_decide (is_Some (pendingMessage st))
           && strict_eq (pendingRunId st) runId
        then removeNode (pendingMessage st) st else st in
      let st := set_pending JNull None st in
      let st := set_running (runningRunIds st ∖ {[runId]})
                  (runningBySession st) st in
      let st :=
        if truthy (run !!! "session_id")
           && strict_eq (runningBySession st !!! (run !!! "session_id")) runId
        then set_running (runningRunIds st)
               (delete (run !!! "session_id") (runningBySession st)) st
        else st in
      let result := buildPipelineResultFromRun run in
      let st := ensureHistoryFromRun recordId now_c now_u run st in
      let st := updateHistoryFromPipeline now_p result st in
      match getActiveRecord st with
      | Some activeRecord =>
          if isRunRelatedToRecord run activeRecord then
            if appendPipeline_returns result then appendPipeline result st
            else
              set_polling (requests st) (inflight st)
                (timers st ++ [(RUN_POLL_MS, runId)])
                (set_timeline (timeline st) (S (nodes st)) st)
          else st
      | None => st
      end
  end.

(** The state in which [pollRun] calls [ensureHistoryFromRun] once it has
    seen [run] done: the request has settled, indicator and running marks
    are cleared. *)
Definition cleared (runId : jsval) (run : obj) (st : state) : state :=
  let st := set_polling (requests st) (remove_first runId (inflight st))
              (timers st) st in
  let st :=
    if bool_decide (is_Some (pendingMessage st))
       && strict_eq (pendingRunId st) runId
    then removeNode (pendingMessage st) st else st in
  let st := set_pending JNull None st in
  let st := set_running (runningRunIds st ∖ {[runId]})
              (runningBySession st) st in
  if truthy (run !!! "session_id")
     && strict_eq (runningBySession st !!! (run !!! "session_id")) runId
  then set_running (runningRunIds st)
         (delete (run !!! "session_id") (runningBySession st)) st
  else st.

(** The state after the two history calls of the done branch. *)
Definition patched_by_run (recordId now_c now_u now_p : string)
    (runId : jsval) (run : obj) (st : state) : state :=
  updateHistoryFromPipeline now_p (buildPipelineResultFromRun run)
    (ensureHistoryFromRun recordId now_c now_u run (cleared runId run st)).


(** Whether the done branch of [pollRun] for [run] runs to its end: it does
    unless it has to show the result and [appendPipeline] throws. *)
Definition done_completes (recordId now_c now_u now_p : string)
    (runId : jsval) (run : obj) (st : state) : bool :=
  match getActiveRecord
          (patched_by_run recordId now_c now_u now_p runId run st) with
  | Some activeRecord =>
      negb (isRunRelatedToRecord run activeRecord)
      || appendPipeline_returns (buildPipelineResultFromRun run)
  | None => true
  end.




(** [maybeShowRunningForRecord(record)] *)
Definition maybeShowRunningForRecord (record : option obj) (st : state) : state :=
  let runId := getRunningRunIdForRecord record st in
  if negb (truthy runId) && negb (localPending record st) then st
  else
    let key := pendingKey runId record in
    if strict_eq (pendingRunId st) key then st
    else
      let st := removeNode (pendingMessage st) st in
      let st := set_pending key (pendingMessage st) st in
      let '(node, st) := mountMessage MAnalysisInline st in
      let st := set_pending (pendingRunId st) (Some node) st in
      if truthy runId then pollRun runId st else st.

(** A search response arriving, with the readings its handler takes. *)
Record search_event := SearchEvent {
  ev_recordId : string;
  ev_now1 : string;
  ev_now2 : string;
  ev_result : obj;
}.

(** A sequence of search responses handled one after the other. *)
Definition handle_searches (evs : list search_event) (st : state) : state :=
  foldl (λ st e,
           handleSearchResult (ev_recordId e) (ev_now1 e) (ev_now2 e)
             (ev_result e) st)
        st evs.

Definition search_records (evs : list search_event) : list obj :=
  (λ e, record_of_search (ev_recordId e) (ev_now1 e) (ev_now2 e) (ev_result e))
    <$> evs.

End App.

(** ** Properties of a store *)

(** The values of field [f] along the store. *)
Definition key_values (f : string) (l : list obj) : list jsval :=
  (λ h : obj, h !!! f) <$> l.

(** No two records share a non-null value of [f] (neither [null] nor
    [undefined]). *)
Definition unique_nonnull (f : string) (l : list obj) : Prop :=
  NoDup (filter (λ v, v ≠ JNull ∧ v ≠ JUndef) (key_values f l)).

(** No two records share a truthy value of [f]. *)
Definition unique_truthy (f : string) (l : list obj) : Prop :=
  NoDup (filter (λ v, truthy v = true) (key_values f l)).

(** The survival test as the specification words it: the record's [runId]
    is not among the server run ids and its [sessionId] is not among the
    non-null server session ids. *)
Definition specified_keeps (items : list obj) (h : obj) : Prop :=
  (h !!! "runId" ∉ key_values "runId" items)
  ∧ (h !!! "sessionId" ∉ filter (λ v, v ≠ JNull) (key_values "sessionId" items)).

Global Instance specified_keeps_dec items h : Decision (specified_keeps items h).
Proof. unfold specified_keeps. apply _. Defined.

(** The poll loops alive in a state: requests in flight and armed retries. *)
Definition active_pollers (st : state) : list jsval :=
  inflight st ++ (snd <$> timers st).

(** Two states agree on everything but the history, the active record and
    the stored copy. *)
Definition same_tracking (s1 s2 : state) : Prop :=
  pendingRunId s1 = pendingRunId s2
  ∧ pendingMessage s1 = pendingMessage s2
  ∧ pendingSessions s1 = pendingSessions s2
  ∧ runningRunIds s1 = runningRunIds s2
  ∧ runningBySession s1 = runningBySession s2
  ∧ timeline s1 = timeline s2
  ∧ nodes s1 = nodes s2
  ∧ requests s1 = requests s2
  ∧ inflight s1 = inflight s2
  ∧ timers s1 = timers s2.

(** ** Sample data *)

(** A host with an empty object heap and unlimited storage. *)
Definition plain_host : Host := {|
  obj_field := λ _ _, JUndef;
  obj_String := λ _, "[object Object]";
  obj_items := λ _, None;
  storage_accepts := λ _, true;
|}.

(** A heap in which object 0 is a selection payload whose
    [selected_reference_rows] is object 1, an array of one row, object 2. *)
Definition one_row_host : Host := {|
  obj_field := λ r f,
    if (r =? 0) && String.eqb f "selected_reference_rows" then JObj 1
    else JUndef;
  obj_String := λ _, "[object Object]";
  obj_items := λ r, if r =? 1 then Some [JObj 2] else None;
  storage_accepts := λ _, true;
|}.

(** The same heap with [null] in the place of the row. *)
Definition null_row_host : Host := {|
  obj_field := λ r f,
    if (r =? 0) && String.eqb f "selected_reference_rows" then JObj 1
    else JUndef;
  obj_String := λ _, "[object Object]";
  obj_items := λ r, if r =? 1 then Some [JNull] else None;
  storage_accepts := λ _, true;
|}.

(** The initial [state] literal. *)
Definition init : state :=
  State [] JNull JNull None ∅ ∅ ∅ None [] 0 [] [] [].

Definition sample_run (id session status : string) : obj :=
  list_to_map [
    ("id", JStr id); ("session_id", JStr session); ("status", JStr status)
  ].

Definition sample_result (session : string) : obj :=
  list_to_map [
    ("session_id", JStr session); ("matches_count", JNum 12);
    ("reference_options_count", JNum 2)
  ].

Definition sample_event (n : nat) : search_event :=
  SearchEvent ("rec" +:+ pretty n) "t1" "t2" (sample_result ("s" +:+ pretty n)).

(** Two runs of one session, as the server lists them after a reference was
    chosen twice in the same session. *)
Definition runs_sharing_session : list obj :=
  [sample_run "r1" "s1" "done"; sample_run "r2" "s1" "done"].

(** A finished run that carries the selection payload, object 0. *)
Definition run_with_rows (id session : string) : obj :=
  list_to_map [
    ("id", JStr id); ("session_id", JStr session); ("status", JStr "done");
    ("selection_payload", JObj 0)
  ].

(** Two runs with ids and sessions of their own. *)
Definition runs_distinct : list obj :=
  [sample_run "r1" "s1" "done"; sample_run "r2" "s2" "running"].

Definition constant_clock : nat → string := λ _, "t0".

(** The record a search leaves in the store: session set, [runId] null. *)
Definition searched_record (n : nat) : obj :=
  record_of_search ("rec" +:+ pretty n) "t1" "t2"
    (sample_result ("s" +:+ pretty n)).

(** The projection of a listed run. *)
Definition listed_record (id session status : string) : obj :=
  mapRunToHistory (host := plain_host) "t0" (sample_run id session status).

(** A store of two records that came from the run list; both runs are
    running. *)
Definition two_runs : state :=
  State [listed_record "r0" "s0" "running"; listed_record "r1" "s1" "running"]
    JNull JNull None ∅
    {[JStr "r0"; JStr "r1"]} ∅ None [] 0 [] [] [].

(** The patch [updateHistoryWithSynopsis] applies for a finished synopsis. *)
Definition synopsis_patch : obj :=
  list_to_map [
    ("synopsisRunId", JStr "syn1");
    ("synopsisDocxUrl", JStr "/files/syn1.docx");
    ("synopsisStatus", JStr "done")
  ].

(** * The page around the store *)

Section Lifecycle.
Context {host : Host}.

(** ** Looking up and removing records *)

(** [getRecordByRunId(runId)]; [None] for [null]. *)
Definition getRecordByRunId (runId : jsval) (st : state) : option obj :=
  if negb (truthy runId) then None
  else snd <$> findIndex (λ h, strict_eq (h !!! "runId") runId) (history st).

(** The statement shared by [removeHistoryByRunId] and [deleteHistoryItem]:
    [if (state.activeHistoryId && state.history.every((h) => h.id !==
    state.activeHistoryId)) state.activeHistoryId = null]. *)
Definition clear_missing_active (st : state) : state :=
  if truthy (activeHistoryId st)
     && forallb (λ h : obj, negb (strict_eq (h !!! "id") (activeHistoryId st)))
          (history st)
  then set_activeHistoryId JNull st else st.

(** [removeHistoryByRunId(runId)] *)
Definition removeHistoryByRunId (runId : jsval) (st : state) : state :=
  match findIndex (λ h, strict_eq (h !!! "runId") runId) (history st) with
  | None => st
  | Some (idx, _) =>
      saveHistory (clear_missing_active (set_history (delete idx (history st)) st))
  end.

(** ** Start-up *)






End Lifecycle.

(** ** Text *)

(** A string as the list of its UTF-16 code units. *)
Abbreviation units := (list N).

(** The code units ["|"], line feed and carriage return. *)
Definition pipe : N := 124%N.
Definition line_feed : N := 10%N.
Definition carriage_return : N := 13%N.

(** The text ["---"]. *)
Definition dashes : units := [45; 45; 45]%N.

(** The code units [String.prototype.trim] strips, white space and line
    terminators: U+0009 to U+000D, U+0020, U+00A0, U+1680, U+2000 to U+200A,
    U+2028, U+2029, U+202F, U+205F, U+3000 and U+FEFF. *)
Definition is_space (n : N) : bool :=
  ((9 <=? n) && (n <=? 13) || (n =? 32) || (n =? 160) || (n =? 5760)
   || (8192 <=? n) && (n <=? 8202) || (n =? 8232) || (n =? 8233)
   || (n =? 8239) || (n =? 8287) || (n =? 12288) || (n =? 65279))%N.

Fixpoint trim_start (l : units) : units :=
  match l with
  | [] => []
  | a :: l' => if is_space a then trim_start l' else l
  end.

Definition trim_end (l : units) : units := reverse (trim_start (reverse l)).

(** [s.trim()] *)
Definition js_trim (l : units) : units := trim_end (trim_start l).

(** [s.split(c)] for a one-unit separator. *)
Fixpoint split_on (c : N) (l : units) : list units :=
  match l with
  | [] => [[]]
  | a :: l' =>
      if decide (a = c) then [] :: split_on c l'
      else match split_on c l' with
           | cell :: cells => (a :: cell) :: cells
           | [] => [[a]]
           end
  end.

(** [s.startsWith(p)] *)
Fixpoint startsWith (p l : units) : bool :=
  match p, l with
  | [], _ => true
  | a :: p', b :: l' => bool_decide (a = b) && startsWith p' l'
  | _ :: _, [] => false
  end.

(** [s.includes(p)] *)
Fixpoint includes (p l : units) : bool :=
  startsWith p l
  || match l with
     | [] => false
     | _ :: l' => includes p l'
     end.

(** [s.replace(/^\|/, "")] *)
Definition drop_leading_pipe (l : units) : units :=
  match l with
  | a :: l' => if decide (a = pipe) then l' else l
  | [] => []
  end.

(** [s.replace(/\|$/, "")] *)
Definition drop_trailing_pipe (l : units) : units :=
  reverse (drop_leading_pipe (reverse l)).

Definition nonempty (l : units) : bool :=
  match l with
  | [] => false
  | _ :: _ => true
  end.

(** [splitRow(line)] *)
Definition splitRow (line : units) : list units :=
  filter (λ c, nonempty c = true)
    (js_trim <$> split_on pipe (drop_trailing_pipe (drop_leading_pipe (js_trim line)))).

(** One separator of [/\r?\n/] ends a piece: a carriage return just before
    the line feed belongs to the separator. *)
Definition drop_cr (l : units) : units :=
  match reverse l with
  | a :: l' => if decide (a = carriage_return) then reverse l' else l
  | [] => []
  end.

(** [s.split(/\r?\n/)] *)
Definition split_lines (l : units) : list units :=
  match reverse (split_on line_feed l) with
  | last :: front => reverse (drop_cr <$> front) ++ [last]
  | [] => []
  end.

(** The test of the first loop of [parseMarkdownTable]. *)
Definition is_header (line next : units) : bool :=
  includes [pipe] line && nonempty next
  && startsWith [pipe] (js_trim next)
  && includes dashes next.

(** The first loop: the least [i < lines.length - 1] whose line and
    successor pass the test, counted from [i]. *)
Fixpoint find_start (i : nat) (lines : list units) : option nat :=
  match lines with
  | line :: rest =>
      match rest with
      | next :: _ =>
          if is_header line next then Some i else find_start (S i) rest
      | [] => None
      end
  | [] => None
  end.

(** The second loop, over the lines from [start + 2] on. *)
Fixpoint table_rows (lines : list units) : list (list units) :=
  match lines with
  | [] => []
  | l :: rest =>
      if negb (nonempty l) || negb (includes [pipe] l) then []
      else
        let r := splitRow l in
        (match r with [] => [] | _ :: _ => [r] end) ++ table_rows rest
  end.

(** [parseMarkdownTable(text)]: [None] for [null], else header and rows.
    The argument is given by the code units of [String(text)], and is [None]
    when [text] is falsy. *)
Definition parseMarkdownTable (text : option units)
    : option (list units * list (list units)) :=
  match text with
  | None => None
  | Some u =>
      let lines := split_lines u in
      match find_start 0 lines with
      | None => None
      | Some start =>
          let header := splitRow (default [] (lines !! start)) in
          let rows := table_rows (drop (start + 2) lines) in
          match header, rows with
          | _ :: _, _ :: _ => Some (header, rows)
          | _, _ => None
          end
      end
  end.

(** ** The query form *)

(** The five inputs of the form, as typed. *)
Record form_inputs := FormInputs {
  in_mnn : units;
  in_routes : units;
  in_base_form : units;
  in_release_type : units;
  in_dosage : units;
}.

(** [getQuery()]: the entries of the object it builds, in order. *)
Definition getQuery (f : form_inputs) : list (string * units) :=
  [("mnn", js_trim (in_mnn f));
   ("routes", js_trim (in_routes f));
   ("base_form", js_trim (in_base_form f));
   ("release_type", js_trim (in_release_type f));
   ("dosage", js_trim (in_dosage f))].

(** [validateQuery(q)]: [Some missing] when it throws; the error message
    lists [missing] joined by [", "]. *)
Definition validateQuery (q : list (string * units)) : option (list string) :=
  let missing := fst <$> filter (λ e, nonempty e.2 = false) q in
  match missing with
  | [] => None
  | _ :: _ => Some missing
  end.

(** A cell as [splitRow] returns it: not empty, free of ["|"], and with no
    white space at either end. *)
Definition cell_ok (c : units) : Prop :=
  c ≠ [] ∧ (pipe ∉ c)
  ∧ (∀ a, head c = Some a → is_space a = false)
  ∧ (∀ a, last c = Some a → is_space a = false).

(** An input that is empty or white space only. *)
Definition blank (l : units) : bool := forallb is_space l.

(** The five inputs with their field names, in the order of [getQuery]. *)
Definition form_fields (f : form_inputs) : list (string * units) :=
  [("mnn", in_mnn f); ("routes", in_routes f); ("base_form", in_base_form f);
   ("release_type", in_release_type f); ("dosage", in_dosage f)].

(** ** Short texts and the base address *)

(** The code units ["…"] and ["/"]. *)
Definition ellipsis : N := 8230%N.
Definition slash : N := 47%N.

(** [trim(text, n)], on the code units [t] of [String(text || "")];
    [t.slice(0, n - 1)] counts from the end when [n] is zero. *)
Definition trim (t : units) (n : nat) : units :=
  if bool_decide (n < List.length t) then
    match n with
    | 0 => take (List.length t - 1) t
    | S m => take m t
    end ++ [ellipsis]
  else t.

(** [s.replace(/\/+$/, "")] on the reversed string. *)
Fixpoint drop_leading_slashes (l : units) : units :=
  match l with
  | a :: l' => if decide (a = slash) then drop_leading_slashes l' else l
  | [] => []
  end.

(** [getApiBase()]; [value] is the address input, [origin] the page's
    origin. *)
Definition getApiBase (value origin : units) : units :=
  reverse (drop_leading_slashes
             (reverse (js_trim (if nonempty value then value else origin)))).

(** ** The page around the history state *)

(** The messages of the timeline that [message] does not list.  A node
    carries the handle it got when it was created, and every handler mounts
    a node right after creating it, so the children of [dom.timeline] are
    the nodes of [timeline] and of [notices] in the order of their
    handles. *)
Inductive notice :=
  | NUserQuery
  | NLoading
  | NError
  | NChooseOnly (run_id : jsval)
  | NHistoryNote
  | NSelectedReference (run_id : jsval).

(** The requests a handler issues itself, other than [/runs/get] and
    [/synopsis/get]. *)
Inductive request :=
  | ReqSearch (q : list (string * units)) (xls_path : option units)
  | ReqChoose (session_id : string) (option_index : Z)
      (save_json_path save_router_output_path : option units)
  | ReqAnalyze (session_id : string) (option_index : Z)
      (save_json_path save_router_output_path : option units)
  | ReqDelete (run_id : string)
  | ReqBuildSynopsis (run_id : string).

(** What [JSON.parse(localStorage.getItem(PREFS_KEY) || "{}")] gives:
    nothing stored, text that does not parse, [null], or a value read field
    by field. *)
Inductive stored_prefs :=
  | PrefsMissing
  | PrefsUnparsable
  | PrefsNull
  | PrefsFields (p : obj).

Record page := Page {
  core : state;
  notices : list (nat * notice);
  searchPending : bool;
  actionPending : bool;
  historyView : bool;
  drawerDesktopOpen : bool;
  drawerMobileOpen : bool;
  (** [localStorage[PREFS_KEY]] *)
  prefs : stored_prefs;
  (** the requests issued, oldest first *)
  sent : list request;
}.

Definition set_core (st : state) (pg : page) : page :=
  Page st (notices pg) (searchPending pg) (actionPending pg) (historyView pg)
    (drawerDesktopOpen pg) (drawerMobileOpen pg) (prefs pg) (sent pg).

Definition set_notices (l : list (nat * notice)) (pg : page) : page :=
  Page (core pg) l (searchPending pg) (actionPending pg) (historyView pg)
    (drawerDesktopOpen pg) (drawerMobileOpen pg) (prefs pg) (sent pg).

Definition set_searchPending (b : bool) (pg : page) : page :=
  Page (core pg) (notices pg) b (actionPending pg) (historyView pg)
    (drawerDesktopOpen pg) (drawerMobileOpen pg) (prefs pg) (sent pg).

Definition set_actionPending (b : bool) (pg : page) : page :=
  Page (core pg) (notices pg) (searchPending pg) b (historyView pg)
    (drawerDesktopOpen pg) (drawerMobileOpen pg) (prefs pg) (sent pg).

Definition set_historyView (b : bool) (pg : page) : page :=
  Page (core pg) (notices pg) (searchPending pg) (actionPending pg) b
    (drawerDesktopOpen pg) (drawerMobileOpen pg) (prefs pg) (sent pg).

Definition set_drawer (desktop mobile : bool) (pg : page) : page :=
  Page (core pg) (notices pg) (searchPending pg) (actionPending pg)
    (historyView pg) desktop mobile (prefs pg) (sent pg).

Definition set_prefs (p : stored_prefs) (pg : page) : page :=
  Page (core pg) (notices pg) (searchPending pg) (actionPending pg)
    (historyView pg) (drawerDesktopOpen pg) (drawerMobileOpen pg) p (sent pg).

Definition send (r : request) (pg : page) : page :=
  Page (core pg) (notices pg) (searchPending pg) (actionPending pg)
    (historyView pg) (drawerDesktopOpen pg) (drawerMobileOpen pg) (prefs pg)
    (sent pg ++ [r]).

Definition set_pendingSessions (s : gset jsval) (st : state) : state :=
  State (history st) (activeHistoryId st) (pendingRunId st) (pendingMessage st)
    s (runningRunIds st) (runningBySession st)
    (storage st) (timeline st) (nodes st) (requests st) (inflight st)
    (timers st).

(** Mounting a message of either kind; the handle counter is shared. *)
Definition mount (m : message) (pg : page) : nat * page :=
  (nodes (core pg), set_core (mountMessage m (core pg)).2 pg).

Definition mount_notice (n : notice) (pg : page) : nat * page :=
  let st := core pg in
  (nodes st,
   set_notices (notices pg ++ [(nodes st, n)])
     (set_core (set_timeline (timeline st) (S (nodes st)) st) pg)).

(** [removeNode(node)] for a node of either kind. *)
Definition unmount (node : nat) (pg : page) : page :=
  set_notices (filter (λ e, e.1 ≠ node) (notices pg))
    (set_core (removeNode (Some node) (core pg)) pg).

(** [dom.timeline.innerHTML = ""] *)
Definition clear_timeline (pg : page) : page :=
  set_notices []
    (set_core (set_timeline [] (nodes (core pg)) (core pg)) pg).

(** The handles of the children of the timeline. *)
Definition mounted (pg : page) : list nat :=
  (fst <$> timeline (core pg)) ++ (fst <$> notices pg).

(** ** Drawer preferences *)

(** [savePrefs()]; [accepted] tells whether [setItem] succeeds. *)
Definition savePrefs (accepted : bool) (pg : page) : page :=
  if accepted then
    set_prefs (PrefsFields (list_to_map [
      ("drawerDesktopOpen", JBool (drawerDesktopOpen pg));
      ("drawerMobileOpen", JBool (drawerMobileOpen pg))
    ])) pg
  else pg.

(** [loadPrefs()] *)
Definition loadPrefs (pg : page) : page :=
  match prefs pg with
  | PrefsMissing => pg
  | PrefsUnparsable | PrefsNull => pg
  | PrefsFields p =>
      let pg :=
        match p !!! "drawerDesktopOpen" with
        | JBool b => set_drawer b (drawerMobileOpen pg) pg
        | _ => pg
        end in
      match p !!! "drawerMobileOpen" with
      | JBool b => set_drawer (drawerDesktopOpen pg) b pg
      | _ => pg
      end
  end.

(** [toggleDrawer()]; [mobile] is [isMobile()]. *)
Definition toggleDrawer (mobile accepted : bool) (pg : page) : page :=
  let pg :=
    if mobile
    then set_drawer (drawerDesktopOpen pg) (negb (drawerMobileOpen pg)) pg
    else set_drawer (negb (drawerDesktopOpen pg)) (drawerMobileOpen pg) pg in
  savePrefs accepted pg.

(** [closeDrawerMobile()] *)
Definition closeDrawerMobile (mobile accepted : bool) (pg : page) : page :=
  let pg :=
    if mobile
    then set_drawer (drawerDesktopOpen pg) false pg
    else set_drawer false (drawerMobileOpen pg) pg in
  savePrefs accepted pg.

(** ** New chat and history items *)

(** [newChat()] *)
Definition newChat (mobile accepted : bool) (pg : page) : page :=
  let pg := set_core (set_activeHistoryId JNull (core pg)) pg in
  let pg := set_historyView false pg in
  let pg := clear_timeline pg in
  let pg :=
    match pendingMessage (core pg) with
    | Some node => unmount node pg
    | None => pg
    end in
  let pg := set_core (set_pending JNull None (core pg)) pg in
  closeDrawerMobile mobile accepted pg.

Section Page.
Context {host : Host}.



(** The data attributes [renderHistory] puts on the item of record [h]:
    [data-history-id], and [data-run-id] of the delete button, which exists
    when [h.runId] is truthy. *)
Definition item_historyId (h : obj) : string := js_String (h !!! "id").

Definition item_runId (h : obj) : option string :=
  if truthy (h !!! "runId") then Some (js_String (h !!! "runId")) else None.

(** ** Deleting *)

(** Outcome of [POST /runs/delete]. *)
Inductive delete_outcome :=
  | DeleteFailed
  | DeleteOk.

(** [deleteRun(btn)] up to its [await]; [runId] is the button's
    [data-run-id], empty when the attribute is missing.  [true] when the
    request was issued. *)
Definition deleteRun (runId : string) (pg : page) : bool * page :=
  if String.eqb runId "" then (false, pg)
  else (true, send (ReqDelete runId) pg).

(** [deleteRun(btn)] from the point where the request settles; [msg] is the
    message the button sits in. *)
Definition deleteRun_resume (runId : string) (msg : option nat)
    (o : delete_outcome) (pg : page) : page :=
  match o with
  | DeleteOk =>
      let pg := match msg with Some node => unmount node pg | None => pg end in
      set_core (removeHistoryByRunId (JStr runId) (core pg)) pg
  | DeleteFailed => (mount_notice NError pg).2
  end.

(** [deleteHistoryItem(btn)] up to its [await]. *)
Definition deleteHistoryItem (runId : string) (pg : page) : bool * page :=
  if String.eqb runId "" then (false, pg)
  else (true, send (ReqDelete runId) pg).

(** [deleteHistoryItem(btn)] from the point where the request settles;
    [historyId] is the button's [data-history-id], empty when the attribute
    is missing. *)
Definition deleteHistoryItem_resume (runId historyId : string)
    (o : delete_outcome) (pg : page) : page :=
  match o with
  | DeleteOk =>
      if negb (String.eqb historyId "") then
        let st := core pg in
        let st :=
          match findIndex (λ h, strict_eq (h !!! "id") (JStr historyId))
                  (history st) with
          | Some (idx, _) => set_history (delete idx (history st)) st
          | None => st
          end in
        set_core (saveHistory (clear_missing_active st)) pg
      else
        set_core (removeHistoryByRunId (JStr runId) (core pg)) pg
  | DeleteFailed => (mount_notice NError pg).2
  end.

(** ** Choosing a reference *)

(** [btn.dataset.mode]: ["pipeline"] or anything else. *)
Inductive pick_mode :=
  | Pipeline
  | ChooseOnly.

(** An optional field of a request body: [if (x.trim()) body.f = x.trim()]. *)
Definition trimmed (l : units) : option units :=
  if nonempty (js_trim l) then Some (js_trim l) else None.

(** [chooseReference(btn)] up to its [await]; [sessionId] and [optionIndex]
    are the button's data attributes, [saveJson] and [saveRouter] the two
    path inputs.  The handle returned is the one of the [loading] node,
    [None] when the click was ignored. *)
Definition chooseReference (mode : pick_mode) (sessionId : string)
    (optionIndex : Z) (saveJson saveRouter : units) (pg : page)
    : option nat * page :=
  if actionPending pg then (None, pg)
  else
    let '(loading, pg) :=
      match mode with
      | Pipeline => mount MAnalysisInline pg
      | ChooseOnly => mount_notice NLoading pg
      end in
    let pg := set_actionPending true pg in
    let pg :=
      match mode with
      | Pipeline =>
          if negb (String.eqb sessionId "")
          then set_core (set_pendingSessions
                          ({[JStr sessionId]} ∪ pendingSessions (core pg))
                          (core pg)) pg
          else pg
      | ChooseOnly => pg
      end in
    let pg :=
      send (match mode with
            | Pipeline =>
                ReqAnalyze sessionId optionIndex (trimmed saveJson)
                  (trimmed saveRouter)
            | ChooseOnly =>
                ReqChoose sessionId optionIndex (trimmed saveJson)
                  (trimmed saveRouter)
            end) pg in
    (Some loading, pg).

(** Outcome of the request: it failed, or it delivered a response, given
    here both read field by field and with its [selection] and [router]
    members. *)
Inductive pick_outcome :=
  | PickFailed
  | PickOk (result : obj) (parts : pipeline_result).

(** The test [activeRecord && activeRecord.sessionId === sessionId]. *)
Definition active_in_session (sessionId : string) (pg : page) : bool :=
  match getActiveRecord (core pg) with
  | Some activeRecord => strict_eq (activeRecord !!! "sessionId") (JStr sessionId)
  | None => false
  end.

(** [state.pendingSessions.delete(sessionId)] behind its guard. *)
Definition forget_session (sessionId : string) (pg : page) : page :=
  if negb (String.eqb sessionId "")
  then set_core (set_pendingSessions (pendingSessions (core pg) ∖ {[JStr sessionId]})
                  (core pg)) pg
  else pg.

(** [chooseReference(btn)] from the point where the request settles; [now]
    is the clock reading of the history update. *)
Definition chooseReference_resume (mode : pick_mode) (sessionId : string)
    (loading : nat) (now : string) (o : pick_outcome) (pg : page) : page :=
  let pg := unmount loading pg in
  let pg :=
    match o, mode with
    | PickOk _ parts, Pipeline =>
        let pg := set_core (updateHistoryFromPipeline now parts (core pg)) pg in
        let pg := forget_session sessionId pg in
        if active_in_session sessionId pg then
          let pg :=
            match pendingMessage (core pg) with
            | Some node => unmount node pg
            | None => pg
            end in
          let pg := set_core (set_pending JNull None (core pg)) pg in
          set_core (appendPipeline parts (core pg)) pg
        else pg
    | PickOk result _, ChooseOnly =>
        let pg := set_core (updateHistoryFromChoose now result (core pg)) pg in
        if active_in_session sessionId pg
        then (mount_notice (NChooseOnly (result !!! "run_id")) pg).2
        else pg
    | PickFailed, _ =>
        let pg :=
          match mode with
          | Pipeline => forget_session sessionId pg
          | ChooseOnly => pg
          end in
        if active_in_session sessionId pg
        then (mount_notice NError pg).2 else pg
    end in
  set_actionPending false pg.

(** ** Searching *)

(** [onSearch(e)] up to its [await]; [f] holds the five inputs and [xls]
    the path input.  The handle returned is the one of the [loading] node,
    [None] when no request was issued. *)
Definition onSearch (f : form_inputs) (xls : units) (mobile accepted : bool)
    (pg : page) : option nat * page :=
  if searchPending pg then (None, pg)
  else
    let q := getQuery f in
    match validateQuery q with
    | Some _ => (None, (mount_notice NError pg).2)
    | None =>
        let pg := closeDrawerMobile mobile accepted pg in
        let pg := set_core (set_activeHistoryId JNull (core pg)) pg in
        let pg := set_historyView false pg in
        let pg := (mount_notice NUserQuery pg).2 in
        let '(loading, pg) := mount_notice NLoading pg in
        let pg := set_searchPending true pg in
        (Some loading, send (ReqSearch q (trimmed xls)) pg)
    end.

(** Outcome of [POST /reference/search]. *)
Inductive search_outcome :=
  | SearchFailed
  | SearchOk (result : obj).

(** [onSearch(e)] from the point where the request settles. *)
Definition onSearch_resume (loading : nat) (recordId now1 now2 : string)
    (o : search_outcome) (pg : page) : page :=
  let pg := unmount loading pg in
  let pg :=
    match o with
    | SearchOk result =>
        set_core (handleSearchResult recordId now1 now2 result (core pg)) pg
    | SearchFailed => (mount_notice NError pg).2
    end in
  set_searchPending false pg.

(** ** Synopsis *)

(** Outcome of [GET /synopsis/get]: the request failed, or it delivered
    [data.synopsis] ([None] when that is falsy). *)
Inductive synopsis_outcome :=
  | SynopsisFailed
  | SynopsisOk (synopsis : option obj).

(** [hydrateSynopsisSection(wrapper, runId)] for a wrapper that is present:
    the state once its request has settled; there is no request when [runId]
    is falsy. *)
Definition hydrateSynopsisSection (runId : jsval) (o : synopsis_outcome)
    (st : state) : state :=
  if negb (truthy runId) then st
  else
    match o with
    | SynopsisOk synopsis => updateHistoryWithSynopsis runId synopsis st
    | SynopsisFailed => st
    end.

(** Outcome of [POST /synopsis/build]. *)
Inductive build_outcome :=
  | BuildFailed
  | BuildOk (result : obj).

(** The synopsis [buildSynopsis] records for a result. *)
Definition built_synopsis (result : obj) : obj :=
  list_to_map [
    ("id", js_or (result !!! "synopsis_run_id") JNull);
    ("status", JStr "done");
    ("download_url", js_or (result !!! "download_url") JNull)
  ].

(** [buildSynopsis(btn)] up to its [await]; [runId] is the button's
    [data-run-id], empty when the attribute is missing. *)
Definition buildSynopsis (runId : string) (pg : page) : bool * page :=
  if String.eqb runId "" then (false, pg)
  else (true, send (ReqBuildSynopsis runId) pg).

(** [buildSynopsis(btn)] from the point where the request settles. *)
Definition buildSynopsis_resume (runId : string) (o : build_outcome)
    (pg : page) : page :=
  match o with
  | BuildOk result =>
      set_core (updateHistoryWithSynopsis (JStr runId)
                 (Some (built_synopsis result)) (core pg)) pg
  | BuildFailed => (mount_notice NError pg).2
  end.

End Page.

(** The page as the script leaves it before [init()]. *)
Definition first_page : page :=
  Page init [] false false false true false PrefsMissing [].

(** ** Sample pages and texts *)

(** The store [two_runs] with its second record active. *)
Definition second_active : state := set_activeHistoryId (JStr "r1") two_runs.

(** A page that shows the store [two_runs]. *)
Definition sample_page : page :=
  Page two_runs [] false false false true false PrefsMissing [].

(** Texts, each given by its code units. *)

(** A no-break space, the word «Ибупрофен» in Cyrillic letters, a space. *)
Definition text_ibuprofen_padded : units :=
  [160; 1048; 1073; 1091; 1087; 1088; 1086; 1092; 1077; 1085; 32]%N.

(** The word «Ибупрофен». *)
Definition text_ibuprofen : units :=
  [1048; 1073; 1091; 1087; 1088; 1086; 1092; 1077; 1085]%N.

(** The word «Нурофен». *)
Definition text_nurofen : units :=
  [1053; 1091; 1088; 1086; 1092; 1077; 1085]%N.

(** ["oral"] *)
Definition text_oral : units := [111; 114; 97; 108]%N.

(** ["tablet"] *)
Definition text_tablet : units := [116; 97; 98; 108; 101; 116]%N.

(** ["plain"] *)
Definition text_plain : units := [112; 108; 97; 105; 110]%N.

(** ["500 mg"] *)
Definition text_dose : units := [53; 48; 48; 32; 109; 103]%N.

(** Two spaces. *)
Definition text_spaces : units := [32; 32]%N.

(** [" http://host:8000 "] *)
Definition text_address_padded : units :=
  [32; 104; 116; 116; 112; 58; 47; 47; 104; 111; 115; 116; 58; 56; 48; 48;
   48; 32]%N.

(** ["http://host:8000"] *)
Definition text_address : units :=
  [104; 116; 116; 112; 58; 47; 47; 104; 111; 115; 116; 58; 56; 48; 48; 48]%N.

(** ["no table here"] *)
Definition text_no_table : units :=
  [110; 111; 32; 116; 97; 98; 108; 101; 32; 104; 101; 114; 101]%N.

(** ["drug"] *)
Definition text_drug : units := [100; 114; 117; 103]%N.

(** ["dose"] *)
Definition text_dose_header : units := [100; 111; 115; 101]%N.

(** ["Found:"] *)
Definition line_found : units := [70; 111; 117; 110; 100; 58]%N.

(** ["| drug | dose |"] *)
Definition line_header : units :=
  [124; 32; 100; 114; 117; 103; 32; 124; 32; 100; 111; 115; 101; 32; 124]%N.

(** ["|---|---|"] *)
Definition line_separator : units :=
  [124; 45; 45; 45; 124; 45; 45; 45; 124]%N.

(** A table row naming «Нурофен» and ["500 mg"]. *)
Definition line_row : units :=
  [124; 32; 1053; 1091; 1088; 1086; 1092; 1077; 1085; 32; 124; 32; 53; 48;
   48; 32; 109; 103; 32; 124]%N.

(** ["done"] *)
Definition line_done : units := [100; 111; 110; 101]%N.

(** The form filled in, and the form with two fields left blank. *)
Definition filled_form : form_inputs :=
  FormInputs text_ibuprofen_padded text_oral text_tablet text_plain text_dose.

Definition blank_form : form_inputs :=
  FormInputs text_ibuprofen text_spaces [] text_plain text_dose.

(** An answer that holds a table of one row; its lines end in a carriage
    return and a line feed. *)
Definition sample_table : units :=
  line_found ++ [carriage_return; line_feed]
  ++ line_header ++ [carriage_return; line_feed]
  ++ line_separator ++ [carriage_return; line_feed]
  ++ line_row ++ [carriage_return; line_feed]
  ++ line_done.

(** A synopsis as [/synopsis/get] delivers it, and a result of
    [/synopsis/build]. *)
Definition sample_synopsis : obj :=
  list_to_map [
    ("id", JStr "syn1"); ("status", JStr "done");
    ("download_url", JStr "/files/syn1.docx")
  ].

Definition sample_build : obj :=
  list_to_map [
    ("synopsis_run_id", JStr "syn1"); ("download_url", JStr "/files/syn1.docx")
  ].

(** A store whose only record carries a synopsis. *)
Definition synopsis_known : state :=
  set_history [synopsis_patch ∪ listed_record "r1" "s1" "done"] init.


(** * Proofs *)

(** Closed, decidable goals are settled by evaluation. *)
Ltac by_evaluation :=
  match goal with
  | |- ?P => apply (bool_decide_unpack P); vm_compute; exact I
  end.

Section AppProofs.
Context {host : Host}.

(** ** Saving, finding and merging *)

Lemma history_saveHistory st : history (saveHistory st) = history st.
Proof. unfold saveHistory. by destruct (storage_accepts _). Qed.

Lemma activeHistoryId_saveHistory st :
  activeHistoryId (saveHistory st) = activeHistoryId st.
Proof. unfold saveHistory. by destruct (storage_accepts _). Qed.

Lemma saveHistory_idemp st : saveHistory (saveHistory st) = saveHistory st.
Proof.
  unfold saveHistory. destruct (storage_accepts (take 100 (history st))) eqn:E.
  - cbn. rewrite E. by destruct st.
  - by rewrite E.
Qed.

Lemma storage_saveHistory st :
  storage_accepts (take 100 (history st)) = true →
  storage (saveHistory st) = Some (take 100 (history st)).
Proof. unfold saveHistory. by intros ->. Qed.

Lemma strict_eq_true a b : strict_eq a b = true ↔ a = b.
Proof. unfold strict_eq. by rewrite bool_decide_eq_true. Qed.

Lemma findIndex_Some p (l : list obj) idx h :
  findIndex p l = Some (idx, h) →
  l !! idx = Some h ∧ p h = true
  ∧ ∀ j y, l !! j = Some y → j < idx → p y = false.
Proof.
  unfold findIndex. rewrite list_find_Some. intros (Hl & Hp & Hlt).
  repeat split; [done..|]. intros j y Hj Hji.
  specialize (Hlt j y Hj Hji). by destruct (p y).
Qed.

Lemma findIndex_None p (l : list obj) :
  (∀ h, h ∈ l → p h = false) → findIndex p l = None.
Proof.
  intros H. unfold findIndex. apply list_find_None, Forall_forall.
  intros h Hh. rewrite (H h Hh). done.
Qed.

Lemma findIndex_head p (h : obj) l :
  p h = true → findIndex p (h :: l) = Some (0, h).
Proof.
  intros Hp. unfold findIndex. apply list_find_Some.
  repeat split; [done..|]. intros; lia.
Qed.

Lemma list_delete_insert_same {A} (l : list A) i x :
  delete i (<[i:=x]> l) = delete i l.
Proof.
  revert i; induction l as [|y l IH]; intros [|i]; cbn; try done.
  f_equal. apply IH.
Qed.

(** The state [patchHistory] leaves when its key is found at [idx]. *)
Lemma patchHistory_found st sid p idx h :
  findIndex (λ h, strict_eq (h !!! "sessionId") sid) (history st) = Some (idx, h) →
  patchHistory sid p st =
    saveHistory (set_activeHistoryId ((p ∪ h) !!! "id")
                   (set_history ((p ∪ h) :: delete idx (history st)) st)).
Proof.
  intros Hf. unfold patchHistory. rewrite Hf.
  apply findIndex_Some in Hf as (Hl & _ & _).
  destruct idx as [|idx].
  - rewrite bool_decide_eq_false_2 by lia.
    destruct (history st) as [|h0 t] eqn:E; [done|].
    cbn in Hl. simplify_eq. cbn. done.
  - rewrite bool_decide_eq_true_2 by lia.
    rewrite list_delete_insert_same. done.
Qed.

Lemma patchHistoryByRunId_found st rid p idx h :
  findIndex (λ h, strict_eq (h !!! "runId") rid) (history st) = Some (idx, h) →
  patchHistoryByRunId rid p st =
    saveHistory (set_history (<[idx := p ∪ h]> (history st)) st).
Proof. intros Hf. unfold patchHistoryByRunId. by rewrite Hf. Qed.

Lemma union_lookup_unnamed (p h : obj) b :
  p !! b = None → (p ∪ h) !! b = h !! b.
Proof. intros Hp. by rewrite lookup_union_r. Qed.

Lemma union_lookup_named (p h : obj) a v :
  p !! a = Some v → (p ∪ h) !! a = Some v.
Proof. intros Hp. by apply lookup_union_Some_l. Qed.

(** C9. A patch whose key matches no record is a silent no-op: when no
    record has the given [sessionId], [patchHistory] returns the state as it
    was, and when no record has the given [runId], so does
    [patchHistoryByRunId]; nothing is created and both are total. *)
Theorem patch_unmatched_noop st key patch :
  (Forall (λ h : obj, h !!! "sessionId" ≠ key) (history st) →
     patchHistory key patch st = st)
  ∧ (Forall (λ h : obj, h !!! "runId" ≠ key) (history st) →
     patchHistoryByRunId key patch st = st).
Proof.
  split; intros Hno; rewrite Forall_forall in Hno.
  - unfold patchHistory. rewrite findIndex_None; [done|].
    intros h Hh. apply bool_decide_eq_false_2. by apply Hno.
  - unfold patchHistoryByRunId. rewrite findIndex_None; [done|].
    intros h Hh. apply bool_decide_eq_false_2. by apply Hno.
Qed.

(** C5. A field [b] the patch does not name is left as it was on the
    patched record, by session (the record is then at the front) and by run
    (the record stays at its index); the fields the patch names take the
    patch's values. *)
Theorem patch_keeps_unnamed_fields st key patch idx h b :
  patch !! b = None →
  (findIndex (λ h, strict_eq (h !!! "sessionId") key) (history st) = Some (idx, h) →
     ∃ h', history (patchHistory key patch st) !! 0 = Some h'
           ∧ h' !! b = h !! b
           ∧ ∀ a v, patch !! a = Some v → h' !! a = Some v)
  ∧ (findIndex (λ h, strict_eq (h !!! "runId") key) (history st) = Some (idx, h) →
     ∃ h', history (patchHistoryByRunId key patch st) !! idx = Some h'
           ∧ h' !! b = h !! b
           ∧ ∀ a v, patch !! a = Some v → h' !! a = Some v).
Proof.
  intros Hb. split; intros Hf; exists (patch ∪ h).
  - rewrite (patchHistory_found _ _ _ _ _ Hf), history_saveHistory. cbn.
    split; [done|]. split; [by apply union_lookup_unnamed|].
    intros a v. apply union_lookup_named.
  - rewrite (patchHistoryByRunId_found _ _ _ _ _ Hf), history_saveHistory. cbn.
    apply findIndex_Some in Hf as (Hl & _ & _).
    split; [apply list_lookup_insert_eq; by eapply lookup_lt_Some|].
    split; [by apply union_lookup_unnamed|].
    intros a v. apply union_lookup_named.
Qed.

Lemma history_ensure_frame recordId now_c now_u run st1 st2 :
  history st1 = history st2 →
  history (ensureHistoryFromRun recordId now_c now_u run st1)
  = history (ensureHistoryFromRun recordId now_c now_u run st2).
Proof.
  intros E. unfold ensureHistoryFromRun. rewrite E.
  destruct (existsb _ _); [done|]. by rewrite !history_saveHistory.
Qed.

Lemma history_patchHistory_frame sid p st1 st2 :
  history st1 = history st2 →
  history (patchHistory sid p st1) = history (patchHistory sid p st2).
Proof.
  intros E. unfold patchHistory. rewrite E.
  destruct (findIndex _ _) as [[idx h]|]; [|done].
  rewrite !history_saveHistory. by destruct (bool_decide _).
Qed.

Lemma activeHistoryId_patchHistory st sid p idx h :
  findIndex (λ h, strict_eq (h !!! "sessionId") sid) (history st) = Some (idx, h) →
  activeHistoryId (patchHistory sid p st) = (p ∪ h) !!! "id".
Proof.
  intros Hf. by rewrite (patchHistory_found _ _ _ _ _ Hf), activeHistoryId_saveHistory.
Qed.

Lemma lookup_total_union_unnamed (p h : obj) f :
  p !! f = None → (p ∪ h) !!! f = h !!! f.
Proof.
  intros Hp. by rewrite !lookup_total_alt, union_lookup_unnamed.
Qed.

Lemma lookup_total_union_named (p h : obj) f v :
  p !! f = Some v → (p ∪ h) !!! f = v.
Proof.
  intros Hp. by rewrite lookup_total_alt, (union_lookup_named _ _ _ _ Hp).
Qed.

Lemma pollRun_resume_done recordId now_c now_u now_p runId o run st :
  poll_done o = Some run →
  pollRun_resume recordId now_c now_u now_p runId o st =
    let st' := patched_by_run recordId now_c now_u now_p runId run st in
    match getActiveRecord st' with
    | Some activeRecord =>
        if isRunRelatedToRecord run activeRecord then
          if appendPipeline_returns (buildPipelineResultFromRun run)
          then appendPipeline (buildPipelineResultFromRun run) st'
          else
            set_polling (requests st') (inflight st')
              (timers st' ++ [(RUN_POLL_MS, runId)])
              (set_timeline (timeline st') (S (nodes st')) st')
        else st'
    | None => st'
    end.
Proof. intros Hd. unfold pollRun_resume. rewrite Hd. reflexivity. Qed.

Lemma history_cleared runId run st : history (cleared runId run st) = history st.
Proof.
  unfold cleared. cbn.
  repeat (match goal with |- context [if ?b then _ else _] => destruct b end; cbn);
    try done; by destruct (pendingMessage st).
Qed.

(** ** Active record and repeated patches *)

Lemma pipeline_patch_unnamed_id now result : pipeline_patch now result !! "id" = None.
Proof. reflexivity. Qed.

Lemma activeHistoryId_appendPipeline result st :
  activeHistoryId (appendPipeline result st) = activeHistoryId st.
Proof. reflexivity. Qed.

Lemma history_appendPipeline result st :
  history (appendPipeline result st) = history st.
Proof. reflexivity. Qed.

Lemma activeHistoryId_patchHistoryByRunId rid p st :
  activeHistoryId (patchHistoryByRunId rid p st) = activeHistoryId st.
Proof.
  unfold patchHistoryByRunId. destruct (findIndex _ _) as [[idx h]|]; [|done].
  by rewrite activeHistoryId_saveHistory.
Qed.

Lemma findIndex_frame p st1 st2 :
  history st1 = history st2 →
  findIndex p (history st1) = findIndex p (history st2).
Proof. by intros ->. Qed.

(** C10. When [patchHistory] finds a record it sets [activeHistoryId] to the
    merged record's [id] (the record's own [id] when the patch does not name
    [id]); this also happens when the patch comes from a poller that saw its
    run done, whatever record was active before; [patchHistoryByRunId]
    leaves [activeHistoryId] as it was. *)
Theorem patchBySession_sets_active :
  (∀ st sid p idx h,
     findIndex (λ h, strict_eq (h !!! "sessionId") sid) (history st) = Some (idx, h) →
     activeHistoryId (patchHistory sid p st) = (p ∪ h) !!! "id"
     ∧ (p !! "id" = None → activeHistoryId (patchHistory sid p st) = h !!! "id"))
  ∧ (∀ recordId now_c now_u now_p runId o run st idx h,
       poll_done o = Some run →
       findIndex (λ h, strict_eq (h !!! "sessionId") (run !!! "session_id"))
         (history (ensureHistoryFromRun recordId now_c now_u run st)) = Some (idx, h) →
       activeHistoryId (pollRun_resume recordId now_c now_u now_p runId o st)
       = h !!! "id")
  ∧ (∀ st rid p,
       activeHistoryId (patchHistoryByRunId rid p st) = activeHistoryId st).
Proof.
  split; [|split].
  - intros st sid p idx h Hf.
    rewrite (activeHistoryId_patchHistory _ _ _ _ _ Hf). split; [done|].
    intros Hp. by apply lookup_total_union_unnamed.
  - intros recordId now_c now_u now_p runId o run st idx h Hd Hf.
    rewrite (pollRun_resume_done _ _ _ _ _ _ _ _ Hd). cbn zeta.
    assert (activeHistoryId (patched_by_run recordId now_c now_u now_p runId run st)
            = h !!! "id") as Hact.
    { unfold patched_by_run, updateHistoryFromPipeline.
      erewrite activeHistoryId_patchHistory.
      - apply lookup_total_union_unnamed, pipeline_patch_unnamed_id.
      - rewrite <- Hf. cbn.
        rewrite (history_ensure_frame _ _ _ _ _ st (history_cleared _ _ _)).
        f_equal. }
    destruct (getActiveRecord _) as [a|]; [|done].
    destruct (isRunRelatedToRecord run a); [|done].
    by destruct (appendPipeline_returns _).
  - intros. apply activeHistoryId_patchHistoryByRunId.
Qed.

Lemma patch_union_idemp (p h : obj) : p ∪ (p ∪ h) = p ∪ h.
Proof. by rewrite (assoc_L (∪)), (idemp_L (∪)). Qed.

Lemma set_same_saveHistory st l v :
  history st = l → activeHistoryId st = v →
  set_activeHistoryId v (set_history l (saveHistory st)) = saveHistory st.
Proof.
  intros <- <-. unfold saveHistory.
  destruct (storage_accepts _); by destruct st.
Qed.

Lemma delete_patch_over (p p' h : obj) f :
  delete f p' = delete f p → delete f (p' ∪ (p ∪ h)) = delete f (p ∪ h).
Proof.
  intros E. by rewrite !delete_union, E, patch_union_idemp.
Qed.

(** C6. Applying a patch by session twice gives the state that applying it
    once gives, for every patch that leaves the key in place (it does not
    name [sessionId], or names it with the key itself): the whole state is
    the same when the two patches are the same, and when they differ in
    [updatedAt] only, as two calls of one update at two clock readings do,
    the records are the same apart from [updatedAt] and so is the active
    record.  The patches the code builds, those of
    [updateHistoryFromChoose] and [updateHistoryFromPipeline], never name
    [sessionId] and depend on the clock in [updatedAt] only. *)
Theorem patchHistory_twice st sid patch :
  (patch !! "sessionId" = None ∨ patch !! "sessionId" = Some sid →
     patchHistory sid patch (patchHistory sid patch st) = patchHistory sid patch st
     ∧ ∀ patch',
         delete "updatedAt" patch' = delete "updatedAt" patch →
         delete "updatedAt"
           <$> history (patchHistory sid patch' (patchHistory sid patch st))
         = delete "updatedAt" <$> history (patchHistory sid patch st)
         ∧ activeHistoryId (patchHistory sid patch' (patchHistory sid patch st))
           = activeHistoryId (patchHistory sid patch st))
  ∧ (∀ now now' result,
       choose_patch now result !! "sessionId" = None
       ∧ delete "updatedAt" (choose_patch now' result)
         = delete "updatedAt" (choose_patch now result))
  ∧ (∀ now now' result,
       pipeline_patch now result !! "sessionId" = None
       ∧ delete "updatedAt" (pipeline_patch now' result)
         = delete "updatedAt" (pipeline_patch now result)).
Proof.
  split; [|split].
  - intros Hp.
    destruct (findIndex (λ h, strict_eq (h !!! "sessionId") sid) (history st))
      as [[idx h]|] eqn:Hf.
    + rewrite (patchHistory_found _ _ _ _ _ Hf).
      set (s1 := set_activeHistoryId _ _).
      assert (findIndex (λ h, strict_eq (h !!! "sessionId") sid)
                (history (saveHistory s1)) = Some (0, patch ∪ h)) as Hf2.
      { rewrite history_saveHistory.
        change (history s1) with ((patch ∪ h) :: delete idx (history st)).
        apply findIndex_head.
        apply strict_eq_true. apply findIndex_Some in Hf as (_ & Hs & _).
        apply strict_eq_true in Hs. destruct Hp as [Hp|Hp].
        - by rewrite lookup_total_union_unnamed.
        - by apply lookup_total_union_named. }
      split.
      * rewrite (patchHistory_found _ _ _ _ _ Hf2), patch_union_idemp.
        rewrite history_saveHistory.
        cbn [history s1 set_activeHistoryId set_history delete].
        rewrite set_same_saveHistory; [apply saveHistory_idemp|done..].
      * intros patch' E.
        rewrite (patchHistory_found _ _ _ _ _ Hf2).
        rewrite !history_saveHistory, !activeHistoryId_saveHistory.
        cbn [history activeHistoryId s1 set_activeHistoryId set_history delete
             fmap list_fmap].
        split.
        -- f_equal. by apply delete_patch_over.
        -- apply (f_equal (λ m : obj, m !!! "id")) in E as E'.
           pose proof (delete_patch_over patch patch' h "updatedAt" E) as E2.
           apply (f_equal (λ m : obj, m !! "id")) in E2.
           rewrite !lookup_delete_ne in E2 by done.
           by rewrite !lookup_total_alt, E2.
    + split; [unfold patchHistory; by rewrite !Hf|].
      intros patch' _. unfold patchHistory. by rewrite !Hf.
  - intros now now' result. split; [reflexivity|].
    unfold choose_patch. cbn [list_to_map foldr uncurry fst snd curry].
    by rewrite !delete_insert_eq.
  - intros now now' result. split; [reflexivity|].
    unfold pipeline_patch. cbn [list_to_map foldr uncurry fst snd curry].
    by rewrite !delete_insert_eq.
Qed.

(** C4 (amended). [patchHistory], when a record matches, merges the patch
    over it, moves it to the front, sets the active record and calls
    [saveHistory]; [updatedAt] is the current time because the patches of
    [updateHistoryFromChoose] and [updateHistoryFromPipeline] name it.
    [patchHistoryByRunId], when a record matches, merges in place and calls
    [saveHistory]: the record keeps its index, and [updatedAt] is unchanged
    unless the patch names it.  An accepted write stores the first 100
    records. *)
Theorem patch_found_effect st key patch idx h :
  (findIndex (λ h, strict_eq (h !!! "sessionId") key) (history st) = Some (idx, h) →
     let st' := patchHistory key patch st in
     st' = saveHistory
             (set_activeHistoryId ((patch ∪ h) !!! "id")
                (set_history ((patch ∪ h) :: delete idx (history st)) st))
     ∧ history st' = (patch ∪ h) :: delete idx (history st)
     ∧ (storage_accepts (take 100 (history st')) = true →
        storage st' = Some (take 100 (history st')))
     ∧ (∀ now, patch !! "updatedAt" = Some (JStr now) →
        (patch ∪ h) !!! "updatedAt" = JStr now))
  ∧ (findIndex (λ h, strict_eq (h !!! "runId") key) (history st) = Some (idx, h) →
     let st' := patchHistoryByRunId key patch st in
     st' = saveHistory (set_history (<[idx := patch ∪ h]> (history st)) st)
     ∧ history st' = <[idx := patch ∪ h]> (history st)
     ∧ (storage_accepts (take 100 (history st')) = true →
        storage st' = Some (take 100 (history st')))
     ∧ (patch !! "updatedAt" = None →
        (patch ∪ h) !!! "updatedAt" = h !!! "updatedAt"))
  ∧ (∀ now result, choose_patch now result !! "updatedAt" = Some (JStr now))
  ∧ (∀ now result, pipeline_patch now result !! "updatedAt" = Some (JStr now)).
Proof.
  split; [|split; [|split; reflexivity]]; intros Hf st'; subst st'.
  - rewrite (patchHistory_found _ _ _ _ _ Hf).
    set (s := set_activeHistoryId _ _).
    rewrite history_saveHistory.
    split; [done|]. split; [done|]. split.
    + apply storage_saveHistory.
    + intros now. apply lookup_total_union_named.
  - rewrite (patchHistoryByRunId_found _ _ _ _ _ Hf).
    set (s := set_history _ _).
    rewrite history_saveHistory.
    split; [done|]. split; [done|]. split.
    + apply storage_saveHistory.
    + apply lookup_total_union_unnamed.
Qed.

(** ** Reconciliation *)

Lemma key_values_imap (f : string) (g : obj → jsval) clock (R : list obj) :
  (∀ now run, mapRunToHistory now run !!! f = g run) →
  key_values f (serverItems clock R) = g <$> R.
Proof.
  intros Hg. unfold key_values, serverItems. revert clock.
  induction R as [|run R IH]; intros clock; [done|].
  rewrite imap_cons, !fmap_cons, Hg. f_equal. apply (IH (clock ∘ S)).
Qed.

Lemma runIds_serverItems clock R :
  key_values "runId" (serverItems clock R) = (λ run : obj, run !!! "id") <$> R.
Proof. by apply key_values_imap. Qed.

Lemma sessionIds_serverItems clock R :
  key_values "sessionId" (serverItems clock R)
  = (λ run : obj, js_or (run !!! "session_id") JNull) <$> R.
Proof. by apply key_values_imap. Qed.

Lemma js_or_null_truthy v : truthy (js_or v JNull) = truthy v.
Proof. unfold js_or. by destruct (truthy v) eqn:E. Qed.

Lemma js_or_truthy v w : truthy v = true → js_or v w = v.
Proof. unfold js_or. by intros ->. Qed.

Lemma truthy_sessions (R : list obj) :
  filter (λ v, truthy v = true)
    ((λ run : obj, js_or (run !!! "session_id") JNull) <$> R)
  = filter (λ v, truthy v = true) ((λ run : obj, run !!! "session_id") <$> R).
Proof.
  induction R as [|run R IH]; [done|].
  rewrite !fmap_cons, !filter_cons, js_or_null_truthy, IH.
  destruct (decide (truthy (run !!! "session_id") = true)) as [Ht|Ht]; [|done].
  by rewrite js_or_truthy.
Qed.

Lemma elem_of_serverIds clock R v :
  v ∈ serverIds (serverItems clock R) ↔ ∃ run, run ∈ R ∧ run !!! "id" = v.
Proof.
  unfold serverIds. rewrite elem_of_list_to_set.
  change ((λ h : obj, h !!! "runId") <$> serverItems clock R)
    with (key_values "runId" (serverItems clock R)).
  rewrite runIds_serverItems, list_elem_of_fmap. split.
  - intros (run & -> & Hrun). by exists run.
  - intros (run & Hrun & <-). by exists run.
Qed.

Lemma elem_of_serverSessions clock R v :
  v ∈ serverSessions (serverItems clock R)
  ↔ ∃ run, run ∈ R ∧ truthy (run !!! "session_id") = true
           ∧ run !!! "session_id" = v.
Proof.
  unfold serverSessions. rewrite elem_of_list_to_set.
  change ((λ h : obj, h !!! "sessionId") <$> serverItems clock R)
    with (key_values "sessionId" (serverItems clock R)).
  rewrite sessionIds_serverItems, truthy_sessions.
  rewrite list_elem_of_filter, list_elem_of_fmap. split.
  - intros (Ht & run & -> & Hrun). by exists run.
  - intros (run & Hrun & Ht & <-). split; [done|]. by exists run.
Qed.

(** What the [localOnly] filter tests, read on the runs themselves. *)
Lemma localOnly_keeps_runs clock R (h : obj) :
  localOnly_keeps (serverIds (serverItems clock R))
    (serverSessions (serverItems clock R)) h = true
  ↔ (truthy (h !!! "runId") = false
     ∨ Forall (λ run : obj, run !!! "id" ≠ h !!! "runId") R)
    ∧ Forall (λ run : obj, truthy (run !!! "session_id") = true →
                           run !!! "session_id" ≠ h !!! "sessionId") R.
Proof.
  unfold localOnly_keeps. rewrite !Forall_forall.
  assert (truthy (h !!! "sessionId") = false →
          ∀ run : obj, run ∈ R → truthy (run !!! "session_id") = true →
                       run !!! "session_id" ≠ h !!! "sessionId") as Hfalsy.
  { intros Hs run _ Ht Heq. rewrite Heq in Ht. congruence. }
  destruct (truthy (h !!! "runId")) eqn:Hr; cbn.
  - case_bool_decide as Hin; cbn.
    + apply elem_of_serverIds in Hin as (run & Hrun & Hid).
      split; [done|]. intros [[?|Hno] _]; [done|].
      exfalso. by apply (Hno run).
    + rewrite elem_of_serverIds in Hin.
      assert (∀ run : obj, run ∈ R → run !!! "id" ≠ h !!! "runId") as Hids.
      { intros run Hrun Hid. apply Hin. by exists run. }
      destruct (truthy (h !!! "sessionId")) eqn:Hs; cbn.
      * case_bool_decide as Hin2; cbn.
        -- apply elem_of_serverSessions in Hin2 as (run & Hrun & Ht & Hid).
           split; [done|]. intros [_ Hno]. exfalso. by apply (Hno run).
        -- rewrite elem_of_serverSessions in Hin2. split; [|done]. intros _.
           split; [by right|]. intros run Hrun Ht Hid. apply Hin2. by exists run.
      * split; [|done]. intros _. split; [by right|]. by apply Hfalsy.
  - destruct (truthy (h !!! "sessionId")) eqn:Hs; cbn.
    + case_bool_decide as Hin2; cbn.
      * apply elem_of_serverSessions in Hin2 as (run & Hrun & Ht & Hid).
        split; [done|]. intros [_ Hno]. exfalso. by apply (Hno run).
      * rewrite elem_of_serverSessions in Hin2. split; [|done]. intros _.
        split; [by left|]. intros run Hrun Ht Hid. apply Hin2. by exists run.
    + split; [|done]. intros _. split; [by left|]. by apply Hfalsy.
Qed.

Lemma nonnull_sessions clock R v :
  v ∈ filter (λ v, v ≠ JNull) (key_values "sessionId" (serverItems clock R))
  ↔ v ∈ serverSessions (serverItems clock R).
Proof.
  rewrite elem_of_serverSessions, sessionIds_serverItems.
  rewrite list_elem_of_filter, list_elem_of_fmap. split.
  - intros (Hnn & run & -> & Hrun). exists run. split; [done|].
    unfold js_or in *. destruct (truthy (run !!! "session_id")); done.
  - intros (run & Hrun & Ht & <-). split.
    + intros Hn. rewrite Hn in Ht. done.
    + exists run. by rewrite js_or_truthy.
Qed.

(** C2. For a run list whose runs all have an id (a truthy one),
    reconciliation keeps a local record exactly when its [runId] is absent
    from the server run ids and its [sessionId] is absent from the non-null
    server session ids, and the result is the projections of the server runs
    in server order followed by the surviving local records in their prior
    order.  For any run list the filter is the one of the second part, which
    looks a [runId] up only when it is truthy.  The result is what
    [loadHistoryFromServer] makes the history when the run list arrives;
    when the request fails the state stays as it was. *)
Theorem reconcile_result clock R L :
  (Forall (λ run : obj, truthy (run !!! "id") = true) R →
   reconcile clock R L =
     (serverItems clock R
      ++ filter (specified_keeps (serverItems clock R)) L)%list)
  ∧ reconcile clock R L =
      (imap (λ i run, mapRunToHistory (clock i) run) R
       ++ filter (λ h : obj,
            (truthy (h !!! "runId") = false
             ∨ Forall (λ run : obj, run !!! "id" ≠ h !!! "runId") R)
            ∧ Forall (λ run : obj, truthy (run !!! "session_id") = true →
                                   run !!! "session_id" ≠ h !!! "sessionId") R)
            L)%list
  ∧ (∀ st,
       history st = L →
       history (loadHistoryFromServer clock (ListOk (Some R)) st)
       = reconcile clock R L
       ∧ loadHistoryFromServer clock ListFailed st = st).
Proof.
  unfold reconcile. split; [|split].
  - intros Hids. f_equal. apply list_filter_iff. intros h.
    rewrite localOnly_keeps_runs. unfold specified_keeps.
    rewrite nonnull_sessions, elem_of_serverSessions, runIds_serverItems.
    rewrite list_elem_of_fmap, !Forall_forall. rewrite Forall_forall in Hids.
    split.
    + intros [Hrun Hs]. split.
      * intros (run & Heq & Hin). destruct Hrun as [Hf|Hno].
        -- specialize (Hids run Hin). cbn in Hids. congruence.
        -- by apply (Hno run).
      * intros (run & Hin & Ht & Heq). by apply (Hs run).
    + intros [Hno Hs]. split.
      * right. intros run Hin Heq. apply Hno. by exists run.
      * intros run Hin Ht Heq. apply Hs. by exists run.
  - f_equal. apply list_filter_iff. intros h. apply localOnly_keeps_runs.
  - by intros st <-.
Qed.

(** ** Distinct keys *)

Lemma key_values_app f (l1 l2 : list obj) :
  key_values f (l1 ++ l2) = (key_values f l1 ++ key_values f l2)%list.
Proof. apply fmap_app. Qed.

Lemma truthy_keys_sublist f (l1 l2 : list obj) :
  l1 `sublist_of` l2 →
  filter (λ v, truthy v = true) (key_values f l1)
  `sublist_of` filter (λ v, truthy v = true) (key_values f l2).
Proof.
  unfold key_values. induction 1 as [|x l1' l2' Hs IH|x l1' l2' Hs IH].
  - done.
  - rewrite !fmap_cons, !filter_cons.
    destruct (decide _); [by apply sublist_skip|done].
  - rewrite fmap_cons, filter_cons.
    destruct (decide _); [by apply sublist_cons|done].
Qed.

Lemma unique_truthy_sublist f (l1 l2 : list obj) :
  l1 `sublist_of` l2 → unique_truthy f l2 → unique_truthy f l1.
Proof.
  unfold unique_truthy. intros Hs Hn.
  eapply sublist_NoDup; [exact Hn|]. by apply truthy_keys_sublist.
Qed.

Lemma unique_truthy_Permutation f (l1 l2 : list obj) :
  key_values f l1 ≡ₚ key_values f l2 → unique_truthy f l2 → unique_truthy f l1.
Proof. unfold unique_truthy. by intros ->. Qed.

Lemma unique_truthy_cons f (h : obj) l :
  unique_truthy f (h :: l) ↔
  (truthy (h !!! f) = true → h !!! f ∉ key_values f l) ∧ unique_truthy f l.
Proof.
  unfold unique_truthy, key_values. rewrite fmap_cons, filter_cons.
  destruct (decide (truthy (h !!! f) = true)) as [Ht|Ht].
  - rewrite NoDup_cons, list_elem_of_filter. split.
    + intros [Hn Hd]. split; [|done]. intros _ Hin. by apply Hn.
    + intros [Hn Hd]. split; [|done]. intros [_ Hin]. by apply Hn.
  - split; [|by intros [_ ?]]. intros Hd. split; [|done]. by intros Ht'.
Qed.

(** Reconciliation keeps the keys distinct when both inputs have them
    distinct. *)
Lemma reconcile_unique clock R L :
  NoDup (filter (λ v, truthy v = true) ((λ run : obj, run !!! "id") <$> R)) →
  NoDup (filter (λ v, truthy v = true) ((λ run : obj, run !!! "session_id") <$> R)) →
  unique_truthy "runId" L → unique_truthy "sessionId" L →
  unique_truthy "runId" (reconcile clock R L)
  ∧ unique_truthy "sessionId" (reconcile clock R L).
Proof.
  intros HR HS HLr HLs. unfold reconcile.
  set (keep := filter _ L).
  assert (keep `sublist_of` L) as Hsub by apply sublist_filter.
  assert (∀ h, h ∈ keep →
            localOnly_keeps (serverIds (serverItems clock R))
              (serverSessions (serverItems clock R)) h = true) as Hkeep.
  { intros h Hh. by apply list_elem_of_filter in Hh as [? _]. }
  split; unfold unique_truthy; rewrite key_values_app, filter_app;
    apply NoDup_app.
  - split; [by rewrite runIds_serverItems|]. split.
    + intros v Hv Hv2.
      apply list_elem_of_filter in Hv as [Ht Hv].
      apply list_elem_of_filter in Hv2 as [_ Hv2].
      apply list_elem_of_fmap in Hv2 as (h & -> & Hh).
      specialize (Hkeep h Hh). unfold localOnly_keeps in Hkeep.
      rewrite Ht in Hkeep. cbn in Hkeep.
      rewrite bool_decide_eq_true_2 in Hkeep; [done|].
      unfold serverIds. by apply elem_of_list_to_set.
    + by apply (unique_truthy_sublist _ _ _ Hsub).
  - split; [by rewrite sessionIds_serverItems, truthy_sessions|]. split.
    + intros v Hv Hv2.
      assert (v ∈ serverSessions (serverItems clock R)) as Hin.
      { unfold serverSessions. by apply elem_of_list_to_set. }
      apply list_elem_of_filter in Hv2 as [Ht Hv2].
      apply list_elem_of_fmap in Hv2 as (h & -> & Hh).
      specialize (Hkeep h Hh). unfold localOnly_keeps in Hkeep.
      rewrite Ht in Hkeep.
      rewrite (bool_decide_eq_true_2 _ Hin) in Hkeep.
      by destruct (_ && _) in Hkeep.
    + by apply (unique_truthy_sublist _ _ _ Hsub).
Qed.

Lemma existsb_false_Forall (p : obj → bool) (l : list obj) :
  existsb p l = false → Forall (λ h, p h = false) l.
Proof.
  induction l as [|h l IH]; cbn; [by constructor|].
  intros [Hh Hl]%orb_false_iff. constructor; auto.
Qed.

Lemma ensureHistoryFromRun_unique recordId now_c now_u run st :
  unique_truthy "runId" (history st) →
  unique_truthy "runId"
    (history (ensureHistoryFromRun recordId now_c now_u run st)).
Proof.
  intros Hu. unfold ensureHistoryFromRun.
  destruct (existsb _ _) eqn:E; [done|].
  rewrite history_saveHistory. cbn.
  apply unique_truthy_cons. split; [|done].
  intros _ Hin. apply list_elem_of_fmap in Hin as (h & Heq & Hh).
  apply existsb_false_Forall in E. rewrite Forall_forall in E.
  specialize (E h Hh). cbn in E.
  apply bool_decide_eq_false in E. apply E. by rewrite <- Heq.
Qed.

Lemma key_values_patchHistory f key patch st :
  patch !! f = None →
  key_values f (history (patchHistory key patch st)) ≡ₚ key_values f (history st).
Proof.
  intros Hp.
  destruct (findIndex (λ h, strict_eq (h !!! "sessionId") key) (history st))
    as [[idx h]|] eqn:Hf.
  - rewrite (patchHistory_found _ _ _ _ _ Hf), history_saveHistory. cbn.
    apply findIndex_Some in Hf as (Hl & _ & _).
    rewrite (lookup_total_union_unnamed _ _ _ Hp).
    unfold key_values. rewrite list_fmap_delete.
    symmetry. apply delete_Permutation.
    by rewrite list_lookup_fmap, Hl.
  - unfold patchHistory. by rewrite Hf.
Qed.

Lemma key_values_patchHistoryByRunId f key patch st :
  patch !! f = None →
  key_values f (history (patchHistoryByRunId key patch st)) = key_values f (history st).
Proof.
  intros Hp.
  destruct (findIndex (λ h, strict_eq (h !!! "runId") key) (history st))
    as [[idx h]|] eqn:Hf.
  - rewrite (patchHistoryByRunId_found _ _ _ _ _ Hf), history_saveHistory. cbn.
    apply findIndex_Some in Hf as (Hl & _ & _).
    unfold key_values. rewrite list_fmap_insert.
    rewrite (lookup_total_union_unnamed _ _ _ Hp).
    apply list_insert_id. by rewrite list_lookup_fmap, Hl.
  - unfold patchHistoryByRunId. by rewrite Hf.
Qed.

Lemma history_handleSearchResult recordId now1 now2 result st :
  history (handleSearchResult recordId now1 now2 result st)
  = if truthy (result !!! "matches_count")
    then record_of_search recordId now1 now2 result :: history st
    else history st.
Proof.
  unfold handleSearchResult.
  destruct (truthy (result !!! "matches_count")); cbn; [|done].
  by rewrite history_saveHistory.
Qed.

(** C1 (amended). Reconciliation yields a store in which no two records
    share a truthy [runId] or a truthy [sessionId], provided the run list has
    no two runs with the same truthy id or the same truthy session id and the
    local list has no such pair either.  Afterwards [ensureHistoryFromRun]
    keeps [runId]s distinct, a patch (by session or by run) keeps the values
    of a key field it does not name distinct, and a search insertion keeps
    [runId]s distinct, and [sessionId]s when the new session id is not yet in
    the store. *)
Theorem store_keys_stay_unique :
  (∀ clock R L,
     NoDup (filter (λ v, truthy v = true) ((λ run : obj, run !!! "id") <$> R)) →
     NoDup (filter (λ v, truthy v = true)
              ((λ run : obj, run !!! "session_id") <$> R)) →
     unique_truthy "runId" L → unique_truthy "sessionId" L →
     unique_truthy "runId" (reconcile clock R L)
     ∧ unique_truthy "sessionId" (reconcile clock R L))
  ∧ (∀ recordId now_c now_u run st,
       unique_truthy "runId" (history st) →
       unique_truthy "runId"
         (history (ensureHistoryFromRun recordId now_c now_u run st)))
  ∧ (∀ f key patch st,
       patch !! f = None → unique_truthy f (history st) →
       unique_truthy f (history (patchHistory key patch st))
       ∧ unique_truthy f (history (patchHistoryByRunId key patch st)))
  ∧ (∀ recordId now1 now2 result st,
       unique_truthy "runId" (history st) →
       unique_truthy "runId"
         (history (handleSearchResult recordId now1 now2 result st))
       ∧ (unique_truthy "sessionId" (history st) →
          result !!! "session_id" ∉ key_values "sessionId" (history st) →
          unique_truthy "sessionId"
            (history (handleSearchResult recordId now1 now2 result st)))).
Proof.
  split; [|split; [|split]].
  - apply reconcile_unique.
  - apply ensureHistoryFromRun_unique.
  - intros f key patch st Hp Hu. split.
    + eapply unique_truthy_Permutation; [|exact Hu].
      by apply key_values_patchHistory.
    + unfold unique_truthy. by rewrite key_values_patchHistoryByRunId.
  - intros recordId now1 now2 result st Hu.
    rewrite history_handleSearchResult.
    destruct (truthy (result !!! "matches_count")); [|done].
    split.
    + apply unique_truthy_cons. split; [|done]. intros Ht. done.
    + intros Hs Hfresh. apply unique_truthy_cons. split; [|done].
      intros _. exact Hfresh.
Qed.

(** ** The cap *)

Lemma handle_searches_snoc evs e st :
  handle_searches (evs ++ [e]) st =
  handleSearchResult (ev_recordId e) (ev_now1 e) (ev_now2 e) (ev_result e)
    (handle_searches evs st).
Proof. unfold handle_searches. by rewrite foldl_snoc. Qed.

Lemma storage_handleSearchResult recordId now1 now2 result st :
  truthy (result !!! "matches_count") = true →
  storage (handleSearchResult recordId now1 now2 result st)
  = storage (saveHistory
      (set_activeHistoryId (JStr recordId)
         (set_history (record_of_search recordId now1 now2 result :: history st) st))).
Proof. intros Ht. unfold handleSearchResult. by rewrite Ht. Qed.

Lemma storage_saveHistory_bound st :
  (∀ l, storage st = Some l → List.length l ≤ 100) →
  ∀ l, storage (saveHistory st) = Some l → List.length l ≤ 100.
Proof.
  intros Hb l. unfold saveHistory. destruct (storage_accepts _); [|apply Hb].
  cbn. intros [= <-]. rewrite length_take. lia.
Qed.

Lemma history_handle_searches evs st :
  Forall (λ e, truthy (ev_result e !!! "matches_count") = true) evs →
  history (handle_searches evs st) = (rev (search_records evs) ++ history st)%list.
Proof.
  induction evs as [|e evs IH] using rev_ind; intros Hall; [done|].
  rewrite Forall_app, Forall_singleton in Hall. destruct Hall as [Hall He].
  rewrite handle_searches_snoc, history_handleSearchResult, He, (IH Hall).
  unfold search_records. by rewrite fmap_app, rev_app_distr.
Qed.

(** C3 (amended). After a sequence of search insertions the in-memory list
    holds every new record in front of the earlier ones, most recent first
    (nothing is evicted in memory); the stored copy never exceeds 100
    records, an accepted write stores the first 100 records of the list, and
    from 100 insertions on these are the 100 most recently inserted. *)
Theorem persisted_store_capped evs st :
  Forall (λ e, truthy (ev_result e !!! "matches_count") = true) evs →
  let st' := handle_searches evs st in
  history st' = (rev (search_records evs) ++ history st)%list
  ∧ ((∀ l, storage st = Some l → List.length l ≤ 100) →
     ∀ l, storage st' = Some l → List.length l ≤ 100)
  ∧ (evs ≠ [] → storage_accepts (take 100 (history st')) = true →
     storage st' = Some (take 100 (history st')))
  ∧ (100 ≤ List.length evs →
     take 100 (history st') = take 100 (rev (search_records evs))).
Proof.
  intros Hall st'. subst st'. split; [by apply history_handle_searches|].
  split; [|split].
  - clear Hall. induction evs as [|e evs IH] using rev_ind; [done|].
    intros Hb. rewrite handle_searches_snoc. specialize (IH Hb).
    unfold handleSearchResult.
    destruct (truthy (ev_result e !!! "matches_count")); cbn; [|exact IH].
    by apply storage_saveHistory_bound.
  - destruct evs as [|e evs _] using rev_ind; [done|]. intros _.
    rewrite Forall_app, Forall_singleton in Hall. destruct Hall as [Hall He].
    rewrite handle_searches_snoc, history_handleSearchResult, He.
    rewrite (storage_handleSearchResult _ _ _ _ _ He).
    set (s1 := set_activeHistoryId _ _). exact (storage_saveHistory s1).
  - intros Hlen. rewrite (history_handle_searches _ _ Hall).
    apply take_app_le. unfold search_records.
    by rewrite length_rev, length_fmap.
Qed.

(** ** The poller *)

Lemma same_tracking_refl st : same_tracking st st.
Proof. by repeat split. Qed.

Lemma same_tracking_trans s1 s2 s3 :
  same_tracking s1 s2 → same_tracking s2 s3 → same_tracking s1 s3.
Proof.
  unfold same_tracking. intros H1 H2. destruct_and!.
  repeat split; etrans; eauto.
Qed.

Lemma same_tracking_saveHistory st : same_tracking (saveHistory st) st.
Proof.
  unfold saveHistory. destruct (storage_accepts _); by repeat split.
Qed.

Lemma same_tracking_ensure recordId now_c now_u run st :
  same_tracking (ensureHistoryFromRun recordId now_c now_u run st) st.
Proof.
  unfold ensureHistoryFromRun. destruct (existsb _ _).
  - apply same_tracking_refl.
  - eapply same_tracking_trans; [apply same_tracking_saveHistory|].
    by repeat split.
Qed.

Lemma same_tracking_patchHistory sid p st :
  same_tracking (patchHistory sid p st) st.
Proof.
  unfold patchHistory. destruct (findIndex _ _) as [[idx h]|].
  - eapply same_tracking_trans; [apply same_tracking_saveHistory|].
    destruct (bool_decide _); by repeat split.
  - apply same_tracking_refl.
Qed.

Lemma same_tracking_patched recordId now_c now_u now_p runId run st :
  same_tracking (patched_by_run recordId now_c now_u now_p runId run st)
    (cleared runId run st).
Proof.
  unfold patched_by_run, updateHistoryFromPipeline.
  eapply same_tracking_trans; [apply same_tracking_patchHistory|].
  apply same_tracking_ensure.
Qed.

Lemma history_patched recordId now_c now_u now_p runId run st :
  history (patched_by_run recordId now_c now_u now_p runId run st)
  = history (updateHistoryFromPipeline now_p (buildPipelineResultFromRun run)
               (ensureHistoryFromRun recordId now_c now_u run st)).
Proof.
  unfold patched_by_run, updateHistoryFromPipeline.
  apply history_patchHistory_frame, history_ensure_frame, history_cleared.
Qed.

Lemma cleared_polling runId run st :
  requests (cleared runId run st) = requests st
  ∧ inflight (cleared runId run st) = remove_first runId (inflight st)
  ∧ timers (cleared runId run st) = timers st
  ∧ nodes (cleared runId run st) = nodes st.
Proof.
  unfold cleared. cbn.
  repeat (match goal with |- context [if ?b then _ else _] => destruct b end; cbn);
    try done; by destruct (pendingMessage st).
Qed.

Lemma cleared_pending runId run st :
  pendingRunId (cleared runId run st) = JNull
  ∧ pendingMessage (cleared runId run st) = None.
Proof.
  unfold cleared. cbn.
  by repeat (match goal with |- context [if ?b then _ else _] => destruct b end; cbn).
Qed.

Lemma cleared_running runId run st :
  (runId ∉ runningRunIds (cleared runId run st))
  ∧ (truthy (run !!! "session_id") = true →
     runningBySession (cleared runId run st) !! (run !!! "session_id")
     ≠ Some runId).
Proof.
  assert (∀ X : gset jsval, runId ∉ X ∖ {[runId]}) as Hnot.
  { intros X. rewrite elem_of_difference, elem_of_singleton. by intros [_ ?]. }
  unfold cleared. cbn.
  destruct (truthy (run !!! "session_id")) eqn:Ht; cbn.
  - destruct (strict_eq _ runId) eqn:Heq; cbn.
    + split; [apply Hnot|]. intros _. by rewrite lookup_delete_eq.
    + split; [apply Hnot|]. intros _ Hl.
      apply bool_decide_eq_false in Heq. apply Heq.
      by rewrite lookup_total_alt, Hl.
  - split; [apply Hnot|done].
Qed.

Lemma cleared_timeline runId run st n :
  pendingRunId st = runId → pendingMessage st = Some n →
  timeline (cleared runId run st) = filter (λ e, e.1 ≠ n) (timeline st).
Proof.
  intros Hk Hm. unfold cleared. cbn. rewrite Hk, Hm. cbn.
  rewrite (proj2 (strict_eq_true runId runId) eq_refl). cbn.
  by destruct (_ && _).
Qed.



Lemma poll_done_status run status :
  run !!! "status" = JStr status →
  poll_done (RunOk (Some run)) = if decide (status = "done") then Some run else None.
Proof.
  intros Hs. unfold poll_done, strict_eq. rewrite Hs.
  destruct (decide (status = "done")) as [->|Hn].
  - by rewrite bool_decide_eq_true_2.
  - rewrite bool_decide_eq_false_2; [done|]. by intros [= ?].
Qed.


Lemma done_step recordId now_c now_u now_p runId o run st :
  poll_done o = Some run →
  let st' := pollRun_resume recordId now_c now_u now_p runId o st in
  requests st' = requests st
  ∧ inflight st' = remove_first runId (inflight st)
  ∧ pendingRunId st' = JNull ∧ pendingMessage st' = None
  ∧ (runId ∉ runningRunIds st')
  ∧ (truthy (run !!! "session_id") = true →
     runningBySession st' !! (run !!! "session_id") ≠ Some runId)
  ∧ (∀ n, pendingRunId st = runId → pendingMessage st = Some n →
          n < nodes st → n ∉ (fst <$> timeline st'))
  ∧ history st'
    = history (updateHistoryFromPipeline now_p (buildPipelineResultFromRun run)
                 (ensureHistoryFromRun recordId now_c now_u run st))
  ∧ timers st'
    = (if done_completes recordId now_c now_u now_p runId run st
       then timers st else timers st ++ [(RUN_POLL_MS, runId)])
  ∧ (done_completes recordId now_c now_u now_p runId run st = false →
     timeline st' = timeline (cleared runId run st)).
Proof.
  intros Hd st'. subst st'. rewrite (pollRun_resume_done _ _ _ _ _ _ _ _ Hd).
  cbn zeta. unfold done_completes.
  pose proof (same_tracking_patched recordId now_c now_u now_p runId run st)
    as (Hk & Hm & _ & Hrr & Hrb & Htl & Hn & Hrq & Hfl & Htm).
  pose proof (history_patched recordId now_c now_u now_p runId run st) as Hh.
  pose proof (cleared_polling runId run st) as (Crq & Cfl & Ctm & Cn).
  pose proof (cleared_pending runId run st) as (Ck & Cm).
  pose proof (cleared_running runId run st) as (Crr & Crb).
  set (s := patched_by_run _ _ _ _ _ _ _) in *.
  assert (∀ n, pendingRunId st = runId → pendingMessage st = Some n →
               n ∉ (fst <$> timeline s)) as Hgone.
  { intros n Hkn Hmn. rewrite Htl, (cleared_timeline _ _ _ _ Hkn Hmn).
    intros (e & -> & He)%list_elem_of_fmap.
    by apply list_elem_of_filter in He as [Hne _]. }
  assert (timers s = timers st ∧ requests s = requests st
          ∧ inflight s = remove_first runId (inflight st)
          ∧ pendingRunId s = JNull ∧ pendingMessage s = None
          ∧ (runId ∉ runningRunIds s)
          ∧ (truthy (run !!! "session_id") = true →
             runningBySession s !! (run !!! "session_id") ≠ Some runId)) as Hs.
  { rewrite Htm, Hrq, Hfl, Hk, Hm, Hrr, Hrb. by repeat split. }
  destruct Hs as (Hs1 & Hs2 & Hs3 & Hs4 & Hs5 & Hs6 & Hs7).
  destruct (getActiveRecord s) as [a|];
    [destruct (isRunRelatedToRecord run a);
     [destruct (appendPipeline_returns (buildPipelineResultFromRun run))|]|];
    cbn [negb orb].
  - unfold appendPipeline. cbn.
    split; [done|]. split; [done|]. split; [done|]. split; [done|].
    split; [done|]. split; [done|]. split; [|by repeat split].
    intros n Hkn Hmn Hlt. rewrite fmap_app. cbn.
    rewrite elem_of_app, list_elem_of_singleton. intros [Hin|Heq].
    + by apply (Hgone n).
    + rewrite Hn, Cn in Heq. lia.
  - cbn.
    split; [done|]. split; [done|]. split; [done|]. split; [done|].
    split; [done|]. split; [done|].
    split; [intros n Hkn Hmn _; by apply Hgone|].
    split; [done|]. split; [by rewrite Hs1|]. by intros _.
  - split; [done|]. split; [done|]. split; [done|]. split; [done|].
    split; [done|]. split; [done|].
    split; [intros n Hkn Hmn _; by apply Hgone|]. by repeat split.
  - split; [done|]. split; [done|]. split; [done|]. split; [done|].
    split; [done|]. split; [done|].
    split; [intros n Hkn Hmn _; by apply Hgone|]. by repeat split.
Qed.






(** ** The pending indicator *)

(** C8 (amended). [maybeShowRunningForRecord] is a no-op when the pending
    key it computes equals [pendingRunId], and when the record has neither a
    running run nor a pending session.  Otherwise it tracks the new key,
    unmounts the tracked indicator and mounts one new indicator, and, when
    the key is a running run id, issues one status request for it; requests
    in flight and timers of earlier pollers stay in place. *)
Theorem maybeShowRunning_behaviour record st :
  let runId := getRunningRunIdForRecord record st in
  let key := pendingKey runId record in
  (pendingRunId st = key → maybeShowRunningForRecord record st = st)
  ∧ (truthy runId = false → localPending record st = false →
     maybeShowRunningForRecord record st = st)
  ∧ (truthy runId = true ∨ localPending record st = true →
     pendingRunId st ≠ key →
     let st' := maybeShowRunningForRecord record st in
     pendingRunId st' = key
     ∧ pendingMessage st' = Some (nodes st)
     ∧ timeline st'
       = timeline (removeNode (pendingMessage st) st)
         ++ [(nodes st, MAnalysisInline)]
     ∧ requests st' = requests st ++ (if truthy runId then [runId] else [])
     ∧ inflight st' = inflight st ++ (if truthy runId then [runId] else [])
     ∧ timers st' = timers st
     ∧ history st' = history st).
Proof.
  intros runId key. unfold maybeShowRunningForRecord.
  fold runId. fold key. split; [|split].
  - intros Hk. destruct (_ && _); [done|].
    by rewrite (proj2 (strict_eq_true _ _) Hk).
  - intros Hr Hl. by rewrite Hr, Hl.
  - intros Hsome Hne. cbn zeta.
    assert (negb (truthy runId) && negb (localPending record st) = false) as ->.
    { destruct Hsome as [->| ->]; [done|]. by rewrite andb_false_r. }
    assert (strict_eq (pendingRunId st) key = false) as ->.
    { by apply bool_decide_eq_false_2. }
    destruct (pendingMessage st) as [n|]; cbn;
      destruct (truthy runId); cbn; repeat split; by rewrite ?app_nil_r.
Qed.

End AppProofs.

(** ** Inputs on which the specified behaviour fails *)

(** C1, as stated, fails: two listed runs of one session give two records
    with the same non-null [sessionId]. *)
Lemma reconcile_shares_session :
  ¬ unique_nonnull "sessionId"
      (reconcile (host := plain_host) constant_clock runs_sharing_session []).
Proof. unfold unique_nonnull. by_evaluation. Qed.

(** C3, as stated, fails: after 101 search insertions the store holds 101
    records. *)
Lemma memory_store_exceeds_cap :
  ¬ (List.length
       (history (handle_searches (host := plain_host)
                   (sample_event <$> seq 0 101) init)) ≤ 100).
Proof. vm_compute. lia. Qed.

(** C4, as stated, fails: a patch by run on the second record leaves it
    second, and leaves every [updatedAt] as it was. *)
Lemma patchByRun_stays_in_place :
  findIndex (λ h, strict_eq (h !!! "runId") (JStr "r1")) (history two_runs)
  = Some (1, listed_record "r1" "s1" "running")
  ∧ head (history (patchHistoryByRunId (host := plain_host) (JStr "r1")
                     synopsis_patch two_runs))
    ≠ Some (synopsis_patch ∪ listed_record "r1" "s1" "running")
  ∧ key_values "updatedAt"
      (history (patchHistoryByRunId (host := plain_host) (JStr "r1")
                  synopsis_patch two_runs))
    = key_values "updatedAt" (history two_runs).
Proof.
  split; [by vm_compute|]. split; [|by vm_compute].
  intros H. apply (f_equal (fmap (λ h : obj, h !!! "runId"))) in H.
  vm_compute in H. discriminate.
Qed.

(** C8, as stated, fails: showing two records with running runs one after
    the other leaves two pollers active. *)
Lemma two_pollers_active :
  ¬ (List.length
       (active_pollers
          (maybeShowRunningForRecord (host := plain_host)
             (Some (listed_record "r1" "s1" "running"))
             (maybeShowRunningForRecord (host := plain_host)
                (Some (listed_record "r0" "s0" "running")) two_runs))) ≤ 1).
Proof. vm_compute. lia. Qed.

(** ** The theorems at concrete inputs *)

Lemma store_keys_stay_unique_witness :
  (unique_truthy "runId"
     (reconcile (host := plain_host) constant_clock runs_distinct
        [searched_record 1])
   ∧ unique_truthy "sessionId"
       (reconcile (host := plain_host) constant_clock runs_distinct
          [searched_record 1]))
  ∧ unique_truthy "runId"
      (history (ensureHistoryFromRun (host := plain_host) "u1" "t1" "t2"
                  (sample_run "r9" "s9" "done") two_runs))
  ∧ (unique_truthy "sessionId"
       (history (patchHistory (host := plain_host) (JStr "s1") synopsis_patch
                   two_runs))
     ∧ unique_truthy "sessionId"
         (history (patchHistoryByRunId (host := plain_host) (JStr "r1")
                     synopsis_patch two_runs)))
  ∧ (unique_truthy "runId"
       (history (handleSearchResult (host := plain_host) "u2" "t1" "t2"
                   (sample_result "s7") two_runs))
     ∧ unique_truthy "sessionId"
         (history (handleSearchResult (host := plain_host) "u2" "t1" "t2"
                     (sample_result "s7") two_runs))).
Proof.
  destruct (store_keys_stay_unique (host := plain_host)) as (H1 & H2 & H3 & H4).
  split; [|split; [|split]].
  - apply H1; unfold unique_truthy; by_evaluation.
  - apply H2. unfold unique_truthy. by_evaluation.
  - assert (unique_truthy "sessionId" (history two_runs)) as Hu.
    { unfold unique_truthy. by_evaluation. }
    split.
    + apply (H3 "sessionId" (JStr "s1") synopsis_patch two_runs eq_refl Hu).
    + apply (H3 "sessionId" (JStr "r1") synopsis_patch two_runs eq_refl Hu).
  - destruct (H4 "u2" "t1" "t2" (sample_result "s7") two_runs) as [H5 H6].
    + unfold unique_truthy. by_evaluation.
    + split; [exact H5|]. apply H6; [unfold unique_truthy|]; by_evaluation.
Defined.

Lemma reconcile_result_witness :
  reconcile (host := plain_host) constant_clock runs_distinct
    [searched_record 1; listed_record "r1" "s1" "done"]
  = serverItems (host := plain_host) constant_clock runs_distinct
    ++ filter
         (specified_keeps
            (serverItems (host := plain_host) constant_clock runs_distinct))
         [searched_record 1; listed_record "r1" "s1" "done"].
Proof.
  apply (proj1 (reconcile_result (host := plain_host) constant_clock
                  runs_distinct
                  [searched_record 1; listed_record "r1" "s1" "done"])).
  by_evaluation.
Defined.

Lemma persisted_store_capped_witness :
  let st' :=
    handle_searches (host := plain_host) (sample_event <$> seq 0 100) init in
  history st' = rev (search_records (sample_event <$> seq 0 100)) ++ history init
  ∧ (∀ l, storage st' = Some l → List.length l ≤ 100)
  ∧ storage st' = Some (take 100 (history st'))
  ∧ take 100 (history st')
    = take 100 (rev (search_records (sample_event <$> seq 0 100))).
Proof.
  assert (Forall (λ e, truthy (ev_result e !!! "matches_count") = true)
            (sample_event <$> seq 0 100)) as Hall by by_evaluation.
  destruct (persisted_store_capped (host := plain_host) _ init Hall)
    as (Hh & Hb & Hs & Ht).
  split; [exact Hh|]. split; [|split].
  - apply Hb. intros l Hl. vm_compute in Hl. discriminate.
  - apply Hs; [by_evaluation|reflexivity].
  - apply Ht. vm_compute. lia.
Defined.

Lemma patch_found_effect_witness :
  history (patchHistory (host := plain_host) (JStr "s1") synopsis_patch two_runs)
  = (synopsis_patch ∪ listed_record "r1" "s1" "running")
    :: delete 1 (history two_runs)
  ∧ history (patchHistoryByRunId (host := plain_host) (JStr "r1")
               synopsis_patch two_runs)
    = <[1 := synopsis_patch ∪ listed_record "r1" "s1" "running"]>
        (history two_runs).
Proof.
  split.
  - apply (proj1 (patch_found_effect (host := plain_host) two_runs (JStr "s1")
                    synopsis_patch 1 (listed_record "r1" "s1" "running"))).
    vm_compute. reflexivity.
  - apply (proj1 (proj2 (patch_found_effect (host := plain_host) two_runs
                           (JStr "r1") synopsis_patch 1
                           (listed_record "r1" "s1" "running")))).
    vm_compute. reflexivity.
Defined.

Lemma patch_keeps_unnamed_fields_witness :
  (∃ h', history (patchHistory (host := plain_host) (JStr "s1") synopsis_patch
                    two_runs) !! 0 = Some h'
         ∧ h' !! "analysisText" = listed_record "r1" "s1" "running" !! "analysisText"
         ∧ ∀ a v, synopsis_patch !! a = Some v → h' !! a = Some v)
  ∧ (∃ h', history (patchHistoryByRunId (host := plain_host) (JStr "r1")
                      synopsis_patch two_runs) !! 1 = Some h'
           ∧ h' !! "analysisText"
             = listed_record "r1" "s1" "running" !! "analysisText"
           ∧ ∀ a v, synopsis_patch !! a = Some v → h' !! a = Some v).
Proof.
  split.
  - apply (proj1 (patch_keeps_unnamed_fields (host := plain_host) two_runs
                    (JStr "s1") synopsis_patch 1
                    (listed_record "r1" "s1" "running") "analysisText"
                    eq_refl)).
    vm_compute. reflexivity.
  - apply (proj2 (patch_keeps_unnamed_fields (host := plain_host) two_runs
                    (JStr "r1") synopsis_patch 1
                    (listed_record "r1" "s1" "running") "analysisText"
                    eq_refl)).
    vm_compute. reflexivity.
Defined.

Lemma patchHistory_twice_witness :
  patchHistory (host := plain_host) (JStr "s1") synopsis_patch
    (patchHistory (host := plain_host) (JStr "s1") synopsis_patch two_runs)
  = patchHistory (host := plain_host) (JStr "s1") synopsis_patch two_runs
  ∧ delete "updatedAt"
      <$> history (updateHistoryFromChoose (host := plain_host) "t9"
                     (sample_result "s1")
                     (updateHistoryFromChoose (host := plain_host) "t8"
                        (sample_result "s1") two_runs))
    = delete "updatedAt"
      <$> history (updateHistoryFromChoose (host := plain_host) "t8"
                     (sample_result "s1") two_runs).
Proof.
  split.
  - apply (proj1 (proj1 (patchHistory_twice (host := plain_host) two_runs
                           (JStr "s1") synopsis_patch) (or_introl eq_refl))).
  - apply (proj1 (proj2 (proj1 (patchHistory_twice (host := plain_host) two_runs
                                  (JStr "s1")
                                  (choose_patch (host := plain_host) "t8"
                                     (sample_result "s1")))
                                (or_introl eq_refl))
                    (choose_patch (host := plain_host) "t9" (sample_result "s1"))
                    eq_refl)).
Defined.


Lemma maybeShowRunning_behaviour_witness :
  maybeShowRunningForRecord (host := plain_host)
    (Some (listed_record "r0" "s0" "running"))
    (set_pending (JStr "r0") (Some 0) two_runs)
  = set_pending (JStr "r0") (Some 0) two_runs
  ∧ maybeShowRunningForRecord (host := plain_host) (Some (searched_record 1))
      two_runs = two_runs
  ∧ inflight
      (maybeShowRunningForRecord (host := plain_host)
         (Some (listed_record "r0" "s0" "running")) two_runs)
    = [JStr "r0"].
Proof.
  split; [|split].
  - apply (proj1 (maybeShowRunning_behaviour (host := plain_host) _ _)).
    reflexivity.
  - apply (proj1 (proj2 (maybeShowRunning_behaviour (host := plain_host) _ _)));
      reflexivity.
  - destruct (proj2 (proj2 (maybeShowRunning_behaviour (host := plain_host)
                (Some (listed_record "r0" "s0" "running")) two_runs)))
      as (_ & _ & _ & _ & Hi & _).
    + left. reflexivity.
    + vm_compute. discriminate.
    + exact Hi.
Defined.

Lemma patch_unmatched_noop_witness :
  patchHistory (host := plain_host) (JStr "s9") synopsis_patch two_runs = two_runs
  ∧ patchHistoryByRunId (host := plain_host) (JStr "r9") synopsis_patch two_runs
    = two_runs.
Proof.
  split.
  - apply (proj1 (patch_unmatched_noop (host := plain_host) two_runs (JStr "s9")
                    synopsis_patch)).
    by_evaluation.
  - apply (proj2 (patch_unmatched_noop (host := plain_host) two_runs (JStr "r9")
                    synopsis_patch)).
    by_evaluation.
Defined.

Lemma patchBySession_sets_active_witness :
  activeHistoryId
    (patchHistory (host := plain_host) (JStr "s1") synopsis_patch two_runs)
  = JStr "r1"
  ∧ activeHistoryId
      (pollRun_resume (host := plain_host) "u1" "t1" "t2" "t3" (JStr "r1")
         (RunOk (Some (sample_run "r1" "s1" "done"))) two_runs)
    = JStr "r1"
  ∧ activeHistoryId
      (patchHistoryByRunId (host := plain_host) (JStr "r1") synopsis_patch
         two_runs)
    = JNull.
Proof.
  destruct (patchBySession_sets_active (host := plain_host)) as (H1 & H2 & H3).
  split; [|split].
  - apply (proj2 (H1 two_runs (JStr "s1") synopsis_patch 1
                    (listed_record "r1" "s1" "running") eq_refl)).
    reflexivity.
  - apply (H2 "u1" "t1" "t2" "t3" (JStr "r1") _ (sample_run "r1" "s1" "done")
             two_runs 1 (listed_record "r1" "s1" "running")); reflexivity.
  - apply H3.
Defined.

(** * Further properties of the code *)

Section StoreProofs.
Context {host : Host}.

(** ** Removal *)

Lemma findIndex_None_iff p (l : list obj) :
  findIndex p l = None ↔ Forall (λ h, p h = false) l.
Proof.
  unfold findIndex. rewrite list_find_None. apply Forall_proper; [|done].
  intros h. by destruct (p h).
Qed.

Lemma findIndex_is_Some p (l : list obj) h :
  h ∈ l → p h = true → is_Some (findIndex p l).
Proof. intros Hin Hp. unfold findIndex. by eapply list_find_elem_of. Qed.

Lemma forallb_Forall (p : obj → bool) (l : list obj) :
  forallb p l = true ↔ Forall (λ h, p h = true) l.
Proof.
  induction l as [|h l IH]; cbn; [by split; [constructor|]|].
  rewrite andb_true_iff, IH, Forall_cons. done.
Qed.

Lemma history_clear_missing_active st :
  history (clear_missing_active st) = history st.
Proof. unfold clear_missing_active. by destruct (_ && _). Qed.

Lemma removeHistoryByRunId_found runId st idx h :
  findIndex (λ h, strict_eq (h !!! "runId") runId) (history st) = Some (idx, h) →
  removeHistoryByRunId runId st
  = saveHistory (clear_missing_active (set_history (delete idx (history st)) st)).
Proof. intros Hf. unfold removeHistoryByRunId. by rewrite Hf. Qed.

Lemma history_removeHistoryByRunId runId st idx h :
  findIndex (λ h, strict_eq (h !!! "runId") runId) (history st) = Some (idx, h) →
  history (removeHistoryByRunId runId st) = delete idx (history st).
Proof.
  intros Hf. rewrite (removeHistoryByRunId_found _ _ _ _ Hf).
  by rewrite history_saveHistory, history_clear_missing_active.
Qed.

Lemma key_values_delete f (l : list obj) idx :
  key_values f (delete idx l) = delete idx (key_values f l).
Proof. apply list_fmap_delete. Qed.

(** The record at the first index of a value that occurs once is the only
    carrier of that value. *)
Lemma NoDup_filter_delete_absent (P : jsval → Prop) `{∀ v, Decision (P v)}
    (l : list jsval) idx v :
  NoDup (filter P l) → l !! idx = Some v → P v → v ∉ delete idx l.
Proof.
  revert idx. induction l as [|x l IH]; intros idx Hn Hl Hv; [done|].
  rewrite filter_cons in Hn. destruct idx as [|idx]; cbn in *.
  - simplify_eq. rewrite decide_True in Hn by done.
    apply NoDup_cons in Hn as [Hx _]. intros Hin. apply Hx.
    by apply list_elem_of_filter.
  - destruct (decide (P x)) as [Hx|Hx].
    + apply NoDup_cons in Hn as [Hnx Hn]. apply not_elem_of_cons. split.
      * intros ->. apply Hnx. apply list_elem_of_filter. split; [done|].
        by eapply list_elem_of_lookup_2.
      * by apply IH.
    + apply not_elem_of_cons. split; [by intros ->|]. by apply IH.
Qed.

(** X1. [removeHistoryByRunId] is a no-op when no record carries the run
    id.  Otherwise it removes exactly the first record with that [runId]: the
    history loses that one entry and keeps the order of the others, the
    first 100 remaining records are stored when the write is accepted, and,
    when the run id is truthy and no two records shared a truthy [runId],
    [getRecordByRunId] no longer finds the run. *)
Theorem removeHistoryByRunId_effect runId st :
  (Forall (λ h : obj, h !!! "runId" ≠ runId) (history st) →
     removeHistoryByRunId runId st = st)
  ∧ (∀ idx h,
       findIndex (λ h, strict_eq (h !!! "runId") runId) (history st)
       = Some (idx, h) →
       let st' := removeHistoryByRunId runId st in
       history st' = delete idx (history st)
       ∧ S (List.length (history st')) = List.length (history st)
       ∧ history st' `sublist_of` history st
       ∧ (storage_accepts (take 100 (history st')) = true →
          storage st' = Some (take 100 (history st')))
       ∧ (truthy runId = true → unique_truthy "runId" (history st) →
          getRecordByRunId runId st' = None)).
Proof.
  split.
  - intros Hno. unfold removeHistoryByRunId.
    assert (findIndex (λ h, strict_eq (h !!! "runId") runId) (history st) = None)
      as ->; [|done].
    apply findIndex_None_iff. eapply Forall_impl; [exact Hno|].
    intros h Hh. by apply bool_decide_eq_false_2.
  - intros idx h Hf st'. subst st'.
    pose proof (history_removeHistoryByRunId _ _ _ _ Hf) as Hh.
    pose proof Hf as (Hl & Hp & _)%findIndex_Some.
    apply strict_eq_true in Hp.
    rewrite Hh. split; [done|]. split; [|split; [|split]].
    + rewrite length_delete by eauto.
      apply lookup_lt_Some in Hl. lia.
    + apply sublist_delete.
    + rewrite <- Hh, (removeHistoryByRunId_found _ _ _ _ Hf).
      set (s := clear_missing_active _). rewrite history_saveHistory.
      apply storage_saveHistory.
    + intros Ht Hu. unfold getRecordByRunId. rewrite Ht. cbn.
      rewrite Hh.
      assert (findIndex (λ h, strict_eq (h !!! "runId") runId)
                (delete idx (history st)) = None) as ->; [|done].
      apply findIndex_None_iff, Forall_forall. intros h' Hin.
      apply bool_decide_eq_false_2. intros Heq.
      apply (NoDup_filter_delete_absent (λ v, truthy v = true)
               (key_values "runId" (history st)) idx runId Hu).
      * unfold key_values. by rewrite list_lookup_fmap, Hl, <- Hp.
      * done.
      * rewrite <- key_values_delete, <- Heq. unfold key_values.
        by apply list_elem_of_fmap_2.
Qed.

Lemma activeHistoryId_clear_missing_active st :
  activeHistoryId (clear_missing_active st)
  = if truthy (activeHistoryId st)
       && forallb (λ h : obj, negb (strict_eq (h !!! "id") (activeHistoryId st)))
            (history st)
    then JNull else activeHistoryId st.
Proof. unfold clear_missing_active. by destruct (_ && _). Qed.

Lemma getActiveRecord_clear_missing_active st :
  truthy (activeHistoryId (clear_missing_active st)) = true →
  is_Some (getActiveRecord (clear_missing_active st)).
Proof.
  unfold clear_missing_active.
  destruct (truthy (activeHistoryId st)) eqn:Ht; cbn; [|congruence].
  destruct (forallb _ _) eqn:Hall; cbn; [done|]. intros _.
  unfold getActiveRecord. apply fmap_is_Some.
  destruct (findIndex _ _) eqn:Hf; [done|]. exfalso.
  apply findIndex_None_iff in Hf.
  assert (forallb (λ h : obj, negb (strict_eq (h !!! "id") (activeHistoryId st)))
            (history st) = true); [|congruence].
  apply forallb_Forall. eapply Forall_impl; [exact Hf|].
  intros h Hh. cbn in Hh. by rewrite Hh.
Qed.

Lemma getActiveRecord_frame st1 st2 :
  history st1 = history st2 → activeHistoryId st1 = activeHistoryId st2 →
  getActiveRecord st1 = getActiveRecord st2.
Proof. unfold getActiveRecord. by intros -> ->. Qed.

(** X2. After [removeHistoryByRunId] has removed a record, a truthy
    [activeHistoryId] designates a record of the history: the pointer is
    unchanged when a remaining record carries its value, and it is reset to
    [null] when it was truthy and no remaining record carries it. *)
Theorem removal_keeps_active_valid runId st idx h :
  findIndex (λ h, strict_eq (h !!! "runId") runId) (history st) = Some (idx, h) →
  let st' := removeHistoryByRunId runId st in
  (truthy (activeHistoryId st') = true → is_Some (getActiveRecord st'))
  ∧ (Exists (λ h' : obj, h' !!! "id" = activeHistoryId st)
       (delete idx (history st)) →
     activeHistoryId st' = activeHistoryId st)
  ∧ (truthy (activeHistoryId st) = true →
     Forall (λ h' : obj, h' !!! "id" ≠ activeHistoryId st)
       (delete idx (history st)) →
     activeHistoryId st' = JNull).
Proof.
  intros Hf st'. subst st'. rewrite (removeHistoryByRunId_found _ _ _ _ Hf).
  set (s := set_history _ st). split; [|split].
  - rewrite activeHistoryId_saveHistory. intros Ht.
    rewrite (getActiveRecord_frame _ (clear_missing_active s)).
    + by apply getActiveRecord_clear_missing_active.
    + apply history_saveHistory.
    + apply activeHistoryId_saveHistory.
  - intros Hex. rewrite activeHistoryId_saveHistory,
      activeHistoryId_clear_missing_active.
    destruct (forallb _ _) eqn:Hall; [|by rewrite andb_false_r].
    exfalso. apply forallb_Forall in Hall. apply Exists_exists in Hex
      as (h' & Hin & Heq). rewrite Forall_forall in Hall.
    specialize (Hall h' Hin). cbn in Hall.
    apply negb_true_iff, bool_decide_eq_false in Hall. by apply Hall.
  - intros Ht Hall. rewrite activeHistoryId_saveHistory,
      activeHistoryId_clear_missing_active.
    change (activeHistoryId s) with (activeHistoryId st).
    change (history s) with (delete idx (history st)).
    rewrite Ht. cbn.
    assert (forallb (λ h0 : obj, negb (strict_eq (h0 !!! "id") (activeHistoryId st)))
              (delete idx (history st)) = true) as ->; [|done].
    apply forallb_Forall. eapply Forall_impl; [exact Hall|].
    intros h' Hne. cbn. apply negb_true_iff. by apply bool_decide_eq_false_2.
Qed.

(** X3. [removeHistoryByRunId] keeps the values of any field distinct: if
    no two records share a truthy value of [f] before, none do after. *)
Theorem removeHistoryByRunId_unique f runId st :
  unique_truthy f (history st) →
  unique_truthy f (history (removeHistoryByRunId runId st)).
Proof.
  intros Hu.
  destruct (findIndex (λ h, strict_eq (h !!! "runId") runId) (history st))
    as [[idx h]|] eqn:Hf.
  - rewrite (history_removeHistoryByRunId _ _ _ _ Hf).
    eapply unique_truthy_sublist; [apply sublist_delete|done].
  - unfold removeHistoryByRunId. by rewrite Hf.
Qed.

(** ** Materialising a run *)

Lemma existsb_Exists (p : obj → bool) (l : list obj) :
  existsb p l = true ↔ Exists (λ h, p h = true) l.
Proof.
  induction l as [|h l IH]; cbn; [by rewrite Exists_nil|].
  by rewrite orb_true_iff, IH, Exists_cons.
Qed.

Lemma has_run_Exists (v : jsval) (l : list obj) :
  existsb (λ h : obj, strict_eq (h !!! "runId") v) l = true
  ↔ Exists (λ h : obj, h !!! "runId" = v) l.
Proof.
  rewrite existsb_Exists. apply Exists_proper; [|done].
  intros h. apply strict_eq_true.
Qed.

Lemma has_run_not_Forall (v : jsval) (l : list obj) :
  existsb (λ h : obj, strict_eq (h !!! "runId") v) l = false
  ↔ Forall (λ h : obj, h !!! "runId" ≠ v) l.
Proof.
  rewrite <- not_true_iff_false, has_run_Exists, <- Forall_Exists_neg. done.
Qed.

Lemma record_of_run_runId recordId now_c now_u run :
  record_of_run recordId now_c now_u run !!! "runId" = run !!! "id".
Proof. reflexivity. Qed.

Lemma ensureHistoryFromRun_has recordId now_c now_u run st :
  Exists (λ h : obj, h !!! "runId" = run !!! "id")
    (history (ensureHistoryFromRun recordId now_c now_u run st)).
Proof.
  unfold ensureHistoryFromRun.
  destruct (existsb _ _) eqn:E.
  - by apply has_run_Exists.
  - rewrite history_saveHistory. apply Exists_cons_hd, record_of_run_runId.
Qed.

(** X4. [ensureHistoryFromRun] creates a record for a run at most once.
    When no record has the run's id as [runId] it puts exactly one new record
    in front of the history; when one has, the state is unchanged.  Either
    way a record with that [runId] exists afterwards, so a second call for a
    run with the same id changes nothing, whatever its other arguments. *)
Theorem ensureHistoryFromRun_once recordId now_c now_u run st :
  (Forall (λ h : obj, h !!! "runId" ≠ run !!! "id") (history st) →
     history (ensureHistoryFromRun recordId now_c now_u run st)
     = record_of_run recordId now_c now_u run :: history st)
  ∧ (Exists (λ h : obj, h !!! "runId" = run !!! "id") (history st) →
     ensureHistoryFromRun recordId now_c now_u run st = st)
  ∧ Exists (λ h : obj, h !!! "runId" = run !!! "id")
      (history (ensureHistoryFromRun recordId now_c now_u run st))
  ∧ (∀ recordId' now_c' now_u' run',
       run' !!! "id" = run !!! "id" →
       ensureHistoryFromRun recordId' now_c' now_u' run'
         (ensureHistoryFromRun recordId now_c now_u run st)
       = ensureHistoryFromRun recordId now_c now_u run st).
Proof.
  split; [|split; [|split]].
  - intros Hno. unfold ensureHistoryFromRun.
    rewrite (proj2 (has_run_not_Forall _ _) Hno).
    by rewrite history_saveHistory.
  - intros Hex. unfold ensureHistoryFromRun.
    by rewrite (proj2 (has_run_Exists _ _) Hex).
  - apply ensureHistoryFromRun_has.
  - intros recordId' now_c' now_u' run' Hid.
    pose proof (ensureHistoryFromRun_has recordId now_c now_u run st) as Hex.
    unfold ensureHistoryFromRun at 1. rewrite Hid.
    by rewrite (proj2 (has_run_Exists _ _) Hex).
Qed.

(** ** Patching keeps the records *)

Lemma length_patchHistory key patch st :
  List.length (history (patchHistory key patch st)) = List.length (history st).
Proof.
  destruct (findIndex (λ h, strict_eq (h !!! "sessionId") key) (history st))
    as [[idx h]|] eqn:Hf.
  - rewrite (patchHistory_found _ _ _ _ _ Hf), history_saveHistory. cbn.
    apply findIndex_Some in Hf as (Hl & _ & _).
    rewrite length_delete by eauto. apply lookup_lt_Some in Hl. lia.
  - unfold patchHistory. by rewrite Hf.
Qed.

Lemma length_patchHistoryByRunId key patch st :
  List.length (history (patchHistoryByRunId key patch st))
  = List.length (history st).
Proof.
  unfold patchHistoryByRunId. destruct (findIndex _ _) as [[idx h]|]; [|done].
  rewrite history_saveHistory. cbn [history set_history]. apply length_insert.
Qed.

(** X5. A patch never creates or removes a record: [patchHistory],
    [patchHistoryByRunId] and the three updates built on them leave the
    number of records unchanged, and a patch that does not name [id] leaves
    the record ids unchanged ([patchHistory] up to the order, since it moves
    the record to the front). *)
Theorem patch_keeps_records key patch st :
  List.length (history (patchHistory key patch st)) = List.length (history st)
  ∧ List.length (history (patchHistoryByRunId key patch st))
    = List.length (history st)
  ∧ (patch !! "id" = None →
     key_values "id" (history (patchHistory key patch st))
     ≡ₚ key_values "id" (history st)
     ∧ key_values "id" (history (patchHistoryByRunId key patch st))
       = key_values "id" (history st))
  ∧ (∀ now result,
       List.length (history (updateHistoryFromChoose now result st))
       = List.length (history st))
  ∧ (∀ now result,
       List.length (history (updateHistoryFromPipeline now result st))
       = List.length (history st))
  ∧ (∀ runId synopsis,
       List.length (history (updateHistoryWithSynopsis runId synopsis st))
       = List.length (history st)).
Proof.
  split; [apply length_patchHistory|]. split; [apply length_patchHistoryByRunId|].
  split; [|split; [|split]].
  - intros Hp. split.
    + by apply key_values_patchHistory.
    + by apply key_values_patchHistoryByRunId.
  - intros. apply length_patchHistory.
  - intros. apply length_patchHistory.
  - intros runId synopsis. unfold updateHistoryWithSynopsis.
    destruct synopsis; [|done]. destruct (negb _); [done|].
    apply length_patchHistoryByRunId.
Qed.

(** ** Reconciliation and relatedness *)

Lemma isRunRelatedToRecord_false run (h : obj) :
  isRunRelatedToRecord run h = false
  ↔ (truthy (h !!! "runId") = false ∨ run !!! "id" ≠ h !!! "runId")
    ∧ (truthy (run !!! "session_id") = true →
       run !!! "session_id" ≠ h !!! "sessionId").
Proof.
  unfold isRunRelatedToRecord, strict_eq.
  destruct (truthy (h !!! "runId")) eqn:Hr; cbn.
  - case_bool_decide as Hid; cbn.
    + split; [done|]. intros [[?|?] _]; done.
    + destruct (truthy (h !!! "sessionId")) eqn:Hs; cbn.
      * destruct (truthy (run !!! "session_id")) eqn:Ht; cbn.
        -- case_bool_decide as Hse; cbn.
           ++ split; [done|]. intros [_ Hn]. exfalso. by apply Hn.
           ++ split; [|done]. intros _. split; [by right|]. by intros _ ?.
        -- split; [|done]. intros _. split; [by right|done].
      * split; [|done]. intros _. split; [by right|].
        intros Ht Heq. rewrite Heq in Ht. congruence.
  - destruct (truthy (h !!! "sessionId")) eqn:Hs; cbn.
    + destruct (truthy (run !!! "session_id")) eqn:Ht; cbn.
      * case_bool_decide as Hse; cbn.
        -- split; [done|]. intros [_ Hn]. exfalso. by apply Hn.
        -- split; [|done]. intros _. split; [by left|]. by intros _ ?.
      * split; [|done]. intros _. split; [by left|done].
    + split; [|done]. intros _. split; [by left|].
      intros Ht Heq. rewrite Heq in Ht. congruence.
Qed.

(** X6. The list [loadHistoryFromServer] assigns keeps, after the
    projections of the listed runs, exactly the local records that
    [isRunRelatedToRecord] relates to none of the listed runs: the filter of
    the reconciliation and the relation the poller uses agree. *)
Theorem reconcile_drops_related clock R L :
  reconcile clock R L
  = serverItems clock R
    ++ filter (λ h, Forall (λ run, isRunRelatedToRecord run h = false) R) L.
Proof.
  unfold reconcile. f_equal. apply list_filter_iff. intros h.
  rewrite localOnly_keeps_runs, !Forall_forall. split.
  - intros [Hr Hs] run Hin. apply isRunRelatedToRecord_false. split.
    + destruct Hr as [?|Hr]; [by left|]. right. by apply Hr.
    + by apply Hs.
  - intros Hall. split.
    + destruct (truthy (h !!! "runId")) eqn:Ht; [|by left]. right.
      intros run Hin.
      apply Hall, isRunRelatedToRecord_false in Hin as [[?|?] _];
        [congruence|done].
    + intros run Hin. by apply Hall, isRunRelatedToRecord_false in Hin as [_ ?].
Qed.

Lemma filter_nil_Forall {A} (P : A → Prop) `{∀ x, Decision (P x)} (l : list A) :
  Forall (λ x, ¬ P x) l → filter P l = [].
Proof.
  induction 1 as [|x l Hx Hl IH]; [done|].
  by rewrite filter_cons, decide_False.
Qed.

Lemma serverIds_clock clock clock' R :
  serverIds (serverItems clock' R) = serverIds (serverItems clock R).
Proof.
  unfold serverIds.
  change ((λ h : obj, h !!! "runId") <$> serverItems clock' R)
    with (key_values "runId" (serverItems clock' R)).
  change ((λ h : obj, h !!! "runId") <$> serverItems clock R)
    with (key_values "runId" (serverItems clock R)).
  by rewrite !runIds_serverItems.
Qed.

Lemma serverSessions_clock clock clock' R :
  serverSessions (serverItems clock' R) = serverSessions (serverItems clock R).
Proof.
  unfold serverSessions.
  change ((λ h : obj, h !!! "sessionId") <$> serverItems clock' R)
    with (key_values "sessionId" (serverItems clock' R)).
  change ((λ h : obj, h !!! "sessionId") <$> serverItems clock R)
    with (key_values "sessionId" (serverItems clock R)).
  by rewrite !sessionIds_serverItems.
Qed.

Lemma mapRunToHistory_clock now now' (run : obj) :
  truthy (run !!! "created_at") = true →
  mapRunToHistory now' run = mapRunToHistory now run.
Proof.
  intros Ht. unfold mapRunToHistory. cbn zeta.
  by rewrite !(js_or_truthy (run !!! "created_at") _ Ht).
Qed.

Lemma serverItems_clock clock clock' R :
  Forall (λ run : obj, truthy (run !!! "created_at") = true) R →
  serverItems clock' R = serverItems clock R.
Proof.
  unfold serverItems. intros Hall. revert clock clock'.
  induction Hall as [|run R Ht Hall IH]; intros clock clock'; [done|].
  rewrite !imap_cons. f_equal; [by apply mapRunToHistory_clock|].
  apply (IH (clock ∘ S) (clock' ∘ S)).
Qed.

(** X7. When every listed run has a truthy id, a second refresh against
    the same run list, whatever its clock readings, gives the history that
    a single refresh with those readings gives: the local records that
    survive are the same and no projection is kept twice.  When every listed
    run also has a creation time the projections do not depend on the clock,
    and the second refresh gives the history of the first again. *)
Theorem reconcile_again clock clock' R L :
  Forall (λ run : obj, truthy (run !!! "id") = true) R →
  reconcile clock' R (reconcile clock R L) = reconcile clock' R L
  ∧ (Forall (λ run : obj, truthy (run !!! "created_at") = true) R →
     reconcile clock' R (reconcile clock R L) = reconcile clock R L).
Proof.
  intros Hids.
  assert (reconcile clock' R (reconcile clock R L) = reconcile clock' R L) as E.
  { unfold reconcile.
    rewrite (serverIds_clock clock clock'), (serverSessions_clock clock clock').
    set (items := serverItems clock R).
    set (keep := λ h, localOnly_keeps (serverIds items) (serverSessions items) h
                      = true).
    rewrite filter_app, list_filter_filter_l by done.
    rewrite (filter_nil_Forall keep items); [done|].
    apply Forall_forall. intros h Hin. unfold keep, localOnly_keeps.
    assert (h !!! "runId" ∈ serverIds items) as Hmem.
    { unfold serverIds. apply elem_of_list_to_set. by apply list_elem_of_fmap_2. }
    assert (truthy (h !!! "runId") = true) as Ht.
    { assert (h !!! "runId" ∈ key_values "runId" items) as Hk
        by by apply list_elem_of_fmap_2.
      unfold items in Hk. rewrite runIds_serverItems in Hk.
      apply list_elem_of_fmap in Hk as (run & -> & Hrun).
      rewrite Forall_forall in Hids. by apply Hids. }
    rewrite Ht, (bool_decide_eq_true_2 _ Hmem). cbn. done. }
  split; [exact E|]. intros Hc. rewrite E. unfold reconcile.
  by rewrite (serverItems_clock clock clock' R Hc).
Qed.

(** ** Running runs after a refresh *)

Lemma elem_of_running_runs (R : list obj) run :
  run ∈ running_runs R ↔ run ∈ R ∧ run !!! "status" = JStr "running".
Proof.
  unfold running_runs. rewrite list_elem_of_filter, strict_eq_true. tauto.
Qed.

Lemma running_by_session_fold (l : list obj) (m : gmap jsval jsval) s v :
  foldl (λ (m : gmap jsval jsval) (r : obj),
           if truthy (r !!! "session_id")
           then <[r !!! "session_id" := r !!! "id"]> m else m) m l !! s = Some v →
  m !! s = Some v
  ∨ ∃ run, run ∈ l ∧ truthy (run !!! "session_id") = true
           ∧ run !!! "session_id" = s ∧ run !!! "id" = v.
Proof.
  revert m. induction l as [|r l IH]; intros m; cbn; [by left|].
  intros [Hm|(run & Hin & Hrest)]%IH.
  - destruct (truthy (r !!! "session_id")) eqn:Ht; [|by left].
    destruct (decide (r !!! "session_id" = s)) as [Heq|Hne].
    + rewrite Heq, lookup_insert_eq in Hm. simplify_eq.
      right. exists r. split; [apply list_elem_of_here|done].
    + rewrite lookup_insert_ne in Hm by done. by left.
  - right. exists run. split; [by apply list_elem_of_further|done].
Qed.

Lemma running_by_session_Some R s v :
  running_by_session R !! s = Some v →
  truthy s = true
  ∧ ∃ run, run ∈ R ∧ run !!! "status" = JStr "running"
           ∧ run !!! "session_id" = s ∧ run !!! "id" = v.
Proof.
  unfold running_by_session.
  intros [Hm|(run & Hin & Ht & Hs & Hv)]%running_by_session_fold; [done|].
  apply elem_of_running_runs in Hin as [Hin Hst].
  split; [by rewrite <- Hs|]. by exists run.
Qed.

Lemma runningRunIds_load clock R st v :
  v ∈ runningRunIds (loadHistoryFromServer clock (ListOk (Some R)) st)
  ↔ ∃ run, run ∈ R ∧ run !!! "status" = JStr "running" ∧ run !!! "id" = v.
Proof.
  cbn. rewrite elem_of_list_to_set, list_elem_of_fmap. split.
  - intros (run & -> & [Hin Hst]%elem_of_running_runs). by exists run.
  - intros (run & Hin & Hst & <-). exists run. split; [done|].
    by apply elem_of_running_runs.
Qed.

(** X8. After a refresh from a run list, [runningRunIds] holds exactly the
    ids of the listed runs whose status is [running]; [getRunningRunIdForRecord]
    answers [null] or the truthy id of such a run; and for the projection of
    a listed running run with a truthy id it answers that run's id. *)
Theorem running_after_load clock R st :
  let st' := loadHistoryFromServer clock (ListOk (Some R)) st in
  (∀ v, v ∈ runningRunIds st'
        ↔ ∃ run, run ∈ R ∧ run !!! "status" = JStr "running"
                 ∧ run !!! "id" = v)
  ∧ (∀ record,
       getRunningRunIdForRecord record st' = JNull
       ∨ (truthy (getRunningRunIdForRecord record st') = true
          ∧ ∃ run, run ∈ R ∧ run !!! "status" = JStr "running"
                   ∧ run !!! "id" = getRunningRunIdForRecord record st'))
  ∧ (∀ now run,
       run ∈ R → run !!! "status" = JStr "running" →
       truthy (run !!! "id") = true →
       getRunningRunIdForRecord (Some (mapRunToHistory now run)) st'
       = run !!! "id").
Proof.
  intros st'. split; [intros v; apply runningRunIds_load|]. split.
  - intros [rec|]; [|by left]. unfold getRunningRunIdForRecord.
    destruct (truthy (rec !!! "runId")) eqn:Hr; cbn.
    + case_bool_decide as Hin.
      * right. split; [done|]. by apply (runningRunIds_load clock R st).
      * destruct (truthy (rec !!! "sessionId")) eqn:Hs; cbn; [|by left].
        case_bool_decide as Hsome; [|by left].
        destruct Hsome as [v Hv]. rewrite lookup_total_alt, Hv. cbn.
        unfold js_or. destruct (truthy v) eqn:Hv'; [|by left]. right.
        split; [done|].
        apply running_by_session_Some in Hv as (_ & run & ? & ? & _ & ?).
        by exists run.
    + destruct (truthy (rec !!! "sessionId")) eqn:Hs; cbn; [|by left].
      case_bool_decide as Hsome; [|by left].
      destruct Hsome as [v Hv]. rewrite lookup_total_alt, Hv. cbn.
      unfold js_or. destruct (truthy v) eqn:Hv'; [|by left]. right.
      split; [done|].
      apply running_by_session_Some in Hv as (_ & run & ? & ? & _ & ?).
      by exists run.
  - intros now run Hin Hst Ht. unfold getRunningRunIdForRecord.
    change (mapRunToHistory now run !!! "runId") with (run !!! "id").
    rewrite Ht. cbn. rewrite bool_decide_eq_true_2; [done|].
    apply (runningRunIds_load clock R st). by exists run.
Qed.

(** ** Start-up *)





(** ** A run seen done *)

Lemma Exists_patchHistory (P : obj → Prop) sid p st :
  (∀ h, P (p ∪ h)) →
  Exists P (history st) → Exists P (history (patchHistory sid p st)).
Proof.
  intros HP Hex.
  destruct (findIndex (λ h, strict_eq (h !!! "sessionId") sid) (history st))
    as [[idx h]|] eqn:Hf.
  - rewrite (patchHistory_found _ _ _ _ _ Hf), history_saveHistory. cbn.
    apply Exists_cons_hd, HP.
  - unfold patchHistory. by rewrite Hf.
Qed.

Lemma pipeline_patch_runId now run :
  pipeline_patch now (buildPipelineResultFromRun run) !! "runId"
  = Some (js_or (run !!! "id") JNull).
Proof. reflexivity. Qed.

Lemma length_ensureHistoryFromRun recordId now_c now_u run st :
  List.length (history st)
  ≤ List.length (history (ensureHistoryFromRun recordId now_c now_u run st))
  ≤ S (List.length (history st)).
Proof.
  unfold ensureHistoryFromRun. destruct (existsb _ _); [lia|].
  rewrite history_saveHistory. cbn. lia.
Qed.

Lemma history_done_step recordId now_c now_u now_p runId run st :
  run !!! "status" = JStr "done" →
  history (pollRun_resume recordId now_c now_u now_p runId (RunOk (Some run)) st)
  = history (patchHistory (run !!! "session_id")
               (pipeline_patch now_p (buildPipelineResultFromRun run))
               (ensureHistoryFromRun recordId now_c now_u run st)).
Proof.
  intros Hs.
  assert (poll_done (RunOk (Some run)) = Some run) as Hd.
  { by rewrite (poll_done_status _ _ Hs), decide_True. }
  by destruct (done_step recordId now_c now_u now_p runId _ run st Hd)
    as (_ & _ & _ & _ & _ & _ & _ & -> & _).
Qed.

Lemma done_step_has_run recordId now_c now_u now_p runId run st :
  run !!! "status" = JStr "done" →
  truthy (run !!! "id") = true →
  Exists (λ h : obj, h !!! "runId" = run !!! "id")
    (history (pollRun_resume recordId now_c now_u now_p runId
                (RunOk (Some run)) st)).
Proof.
  intros Hs Ht. rewrite (history_done_step _ _ _ _ _ _ _ Hs).
  apply Exists_patchHistory; [|apply ensureHistoryFromRun_has].
  intros h. erewrite lookup_total_union_named; [|apply pipeline_patch_runId].
  by apply js_or_truthy.
Qed.

(** X10. After a poll step that sees a run with a truthy id done, the
    history holds a record whose [runId] is the run's id; the step adds at
    most one record, and none when such a record existed. *)
Theorem done_step_materialises recordId now_c now_u now_p runId run st :
  run !!! "status" = JStr "done" →
  truthy (run !!! "id") = true →
  let st' :=
    pollRun_resume recordId now_c now_u now_p runId (RunOk (Some run)) st in
  Exists (λ h : obj, h !!! "runId" = run !!! "id") (history st')
  ∧ List.length (history st) ≤ List.length (history st')
    ≤ S (List.length (history st))
  ∧ (Exists (λ h : obj, h !!! "runId" = run !!! "id") (history st) →
     List.length (history st') = List.length (history st)).
Proof.
  intros Hs Ht st'. subst st'.
  split; [by apply done_step_has_run|].
  rewrite (history_done_step _ _ _ _ _ _ _ Hs).
  split.
  - rewrite length_patchHistory. apply length_ensureHistoryFromRun.
  - intros Hex. rewrite length_patchHistory.
    unfold ensureHistoryFromRun. by rewrite (proj2 (has_run_Exists _ _) Hex).
Qed.

Lemma union_absorb (p p' h : obj) :
  dom p = dom p' → p' ∪ (p ∪ h) = p' ∪ h.
Proof.
  intros Hd. apply map_eq. intros k. rewrite !lookup_union.
  destruct (p' !! k) as [v'|] eqn:E'; [by destruct (p !! k), (h !! k)|].
  assert (p !! k = None) as ->; [|by destruct (h !! k)].
  apply not_elem_of_dom. rewrite Hd. by apply not_elem_of_dom.
Qed.

Lemma dom_pipeline_patch now now' result result' :
  dom (pipeline_patch now result) = dom (pipeline_patch now' result').
Proof. reflexivity. Qed.

(** Patching again by the same session, with a patch of the same fields
    that does not name [sessionId], gives the history of the second patch
    alone. *)
Lemma history_patchHistory_over sid (p p' : obj) st :
  dom p = dom p' → p !! "sessionId" = None →
  history (patchHistory sid p' (patchHistory sid p st))
  = history (patchHistory sid p' st).
Proof.
  intros Hd Hp.
  destruct (findIndex (λ h, strict_eq (h !!! "sessionId") sid) (history st))
    as [[idx h]|] eqn:Hf.
  - rewrite (patchHistory_found _ _ p _ _ Hf), (patchHistory_found _ _ p' _ _ Hf).
    set (s1 := set_activeHistoryId _ (set_history ((p ∪ h) :: _) st)).
    assert (findIndex (λ h, strict_eq (h !!! "sessionId") sid)
              (history (saveHistory s1)) = Some (0, p ∪ h)) as Hf2.
    { rewrite history_saveHistory.
      change (history s1) with ((p ∪ h) :: delete idx (history st)).
      apply findIndex_head, strict_eq_true.
      apply findIndex_Some in Hf as (_ & Hs & _). apply strict_eq_true in Hs.
      by rewrite lookup_total_union_unnamed. }
    rewrite (patchHistory_found _ _ _ _ _ Hf2), !history_saveHistory.
    change (history s1) with ((p ∪ h) :: delete idx (history st)). cbn.
    by rewrite union_absorb.
  - unfold patchHistory. by rewrite !Hf.
Qed.

(** X11. A second poller that sees the same run done changes the history
    only by its clock reading: two done steps for the same run leave the
    history that a single done step leaves with the later reading of the
    patch clock; no second record is created. *)
Theorem done_step_again recordId now_c now_u now_p recordId' now_c' now_u' now_p'
    runId runId' run st :
  run !!! "status" = JStr "done" →
  truthy (run !!! "id") = true →
  history
    (pollRun_resume recordId' now_c' now_u' now_p' runId' (RunOk (Some run))
       (pollRun_resume recordId now_c now_u now_p runId (RunOk (Some run)) st))
  = history
      (pollRun_resume recordId now_c now_u now_p' runId (RunOk (Some run)) st).
Proof.
  intros Hs Ht.
  pose proof (done_step_has_run recordId now_c now_u now_p runId run st Hs Ht)
    as Hex.
  rewrite (history_done_step recordId' _ _ _ _ _ _ Hs).
  set (s1 := pollRun_resume recordId now_c now_u now_p runId _ st) in *.
  assert (ensureHistoryFromRun recordId' now_c' now_u' run s1 = s1) as ->.
  { unfold ensureHistoryFromRun. by rewrite (proj2 (has_run_Exists _ _) Hex). }
  rewrite (history_patchHistory_frame _ _ s1
             (patchHistory (run !!! "session_id")
                (pipeline_patch now_p (buildPipelineResultFromRun run))
                (ensureHistoryFromRun recordId now_c now_u run st))).
  - rewrite history_patchHistory_over; [|apply dom_pipeline_patch|reflexivity].
    by rewrite (history_done_step recordId _ _ now_p' _ _ _ Hs).
  - unfold s1. apply (history_done_step _ _ _ _ _ _ _ Hs).
Qed.

(** ** Showing the indicator twice *)

Lemma maybeShow_tracking record st :
  let st' := maybeShowRunningForRecord record st in
  runningRunIds st' = runningRunIds st
  ∧ runningBySession st' = runningBySession st
  ∧ pendingSessions st' = pendingSessions st
  ∧ history st' = history st
  ∧ activeHistoryId st' = activeHistoryId st
  ∧ storage st' = storage st.
Proof.
  unfold maybeShowRunningForRecord.
  destruct (_ && _); [done|]. destruct (strict_eq _ _); [done|].
  destruct (pendingMessage st); cbn; by destruct (truthy _).
Qed.

Lemma getRunningRunIdForRecord_frame record st1 st2 :
  runningRunIds st1 = runningRunIds st2 →
  runningBySession st1 = runningBySession st2 →
  getRunningRunIdForRecord record st1 = getRunningRunIdForRecord record st2.
Proof. unfold getRunningRunIdForRecord. by intros -> ->. Qed.

Lemma localPending_frame record st1 st2 :
  pendingSessions st1 = pendingSessions st2 →
  localPending record st1 = localPending record st2.
Proof. unfold localPending. by intros ->. Qed.

Lemma maybeShow_sets_key record st :
  maybeShowRunningForRecord record st = st
  ∨ pendingRunId (maybeShowRunningForRecord record st)
    = pendingKey (getRunningRunIdForRecord record st) record.
Proof.
  unfold maybeShowRunningForRecord.
  set (rid := getRunningRunIdForRecord record st).
  set (key := pendingKey rid record).
  destruct (_ && _); [by left|]. destruct (strict_eq _ _); [by left|]. right.
  destruct (pendingMessage st), (truthy rid); reflexivity.
Qed.

(** X12. [maybeShowRunningForRecord] is idempotent: asking again for
    the same record right away changes nothing, so no second indicator is
    mounted and no second request issued. *)
Theorem maybeShowRunningForRecord_again record st :
  maybeShowRunningForRecord record (maybeShowRunningForRecord record st)
  = maybeShowRunningForRecord record st.
Proof.
  destruct (maybeShow_sets_key record st) as [He|Hk]; [by rewrite !He|].
  destruct (maybeShow_tracking record st) as (Hr & Hb & Hp & _).
  set (st1 := maybeShowRunningForRecord record st) in *.
  unfold maybeShowRunningForRecord at 1.
  rewrite (getRunningRunIdForRecord_frame _ st1 st Hr Hb).
  rewrite (localPending_frame _ st1 st Hp), Hk.
  destruct (_ && _); [done|].
  by rewrite (proj2 (strict_eq_true _ _) eq_refl).
Qed.

(** ** A search result *)

(** X13. A search result without matches leaves history, active record
    and stored copy unchanged.  A result with matches puts one new record in
    front, which is then the active record; its [runId] and
    [selectedReferenceDrug] are [null], its session and counts are the
    result's, and the first 100 records are stored when the write is
    accepted. *)
Theorem search_result_effect recordId now1 now2 result st :
  let st' := handleSearchResult recordId now1 now2 result st in
  let rec := record_of_search recordId now1 now2 result in
  (truthy (result !!! "matches_count") = false →
     history st' = history st ∧ activeHistoryId st' = activeHistoryId st
     ∧ storage st' = storage st)
  ∧ (truthy (result !!! "matches_count") = true →
     history st' = rec :: history st
     ∧ getActiveRecord st' = Some rec
     ∧ rec !!! "runId" = JNull ∧ rec !!! "selectedReferenceDrug" = JNull
     ∧ rec !!! "sessionId" = result !!! "session_id"
     ∧ rec !!! "matchesCount" = result !!! "matches_count"
     ∧ rec !!! "referenceOptionsCount" = result !!! "reference_options_count"
     ∧ (storage_accepts (take 100 (history st')) = true →
        storage st' = Some (take 100 (history st')))).
Proof.
  intros st' rec. subst st'. unfold handleSearchResult. split; intros Hm; rewrite Hm.
  - done.
  - cbn [negb]. cbn zeta.
    set (s1 := set_activeHistoryId _ (set_history _ st)).
    change (history (mountMessage MCandidates (saveHistory s1)).2)
      with (history (saveHistory s1)).
    rewrite history_saveHistory. split; [done|]. split.
    + unfold getActiveRecord.
      change (history (mountMessage MCandidates (saveHistory s1)).2)
        with (history (saveHistory s1)).
      change (activeHistoryId (mountMessage MCandidates (saveHistory s1)).2)
        with (activeHistoryId (saveHistory s1)).
      rewrite history_saveHistory, activeHistoryId_saveHistory.
      change (history s1) with (rec :: history st).
      rewrite findIndex_head; [done|]. by apply strict_eq_true.
    + repeat split; try reflexivity.
      change (storage (mountMessage MCandidates (saveHistory s1)).2)
        with (storage (saveHistory s1)).
      apply storage_saveHistory.
Qed.

(** ** The view after a finished run *)

Lemma related_to_patched now run (h : obj) :
  truthy (run !!! "session_id") = true →
  h !!! "sessionId" = run !!! "session_id" →
  isRunRelatedToRecord run
    (pipeline_patch now (buildPipelineResultFromRun run) ∪ h) = true.
Proof.
  intros Hs Hh. unfold isRunRelatedToRecord.
  rewrite (lookup_total_union_named _ _ "runId" _ (pipeline_patch_runId now run)).
  rewrite (lookup_total_union_unnamed _ h "sessionId") by reflexivity.
  rewrite Hh, Hs. unfold js_or.
  rewrite !(proj2 (strict_eq_true (run !!! "session_id") _) eq_refl).
  destruct (truthy (run !!! "id")) eqn:Hi.
  - by rewrite Hi, (proj2 (strict_eq_true (run !!! "id") _) eq_refl).
  - done.
Qed.

(** X14. A finished run takes over the view.  When a poll step sees a run
    of a truthy session done, and the history holds a record of that session
    or none of that run, then, whatever record was active before, the record
    patched from the run is first in the history and is the active record,
    and it carries the run's session and id.  When the result can be shown,
    its message is appended to the timeline the clearing of the indicator
    left, and no timer is armed; when showing it throws, no message is
    mounted and the retry is armed. *)
Theorem done_step_activates recordId now_c now_u now_p runId run st :
  run !!! "status" = JStr "done" →
  truthy (run !!! "session_id") = true →
  (Forall (λ h : obj, h !!! "runId" ≠ run !!! "id") (history st)
   ∨ Exists (λ h : obj, h !!! "sessionId" = run !!! "session_id") (history st)) →
  let st' :=
    pollRun_resume recordId now_c now_u now_p runId (RunOk (Some run)) st in
  ∃ r,
    head (history st') = Some r
    ∧ getActiveRecord st' = Some r
    ∧ r !!! "sessionId" = run !!! "session_id"
    ∧ r !!! "runId" = js_or (run !!! "id") JNull
    ∧ (appendPipeline_returns (buildPipelineResultFromRun run) = true →
       timeline st'
       = timeline (cleared runId run st)
         ++ [(nodes st, MPipeline (run !!! "id"))]
       ∧ timers st' = timers st)
    ∧ (appendPipeline_returns (buildPipelineResultFromRun run) = false →
       timeline st' = timeline (cleared runId run st)
       ∧ timers st' = timers st ++ [(RUN_POLL_MS, runId)]).
Proof.
  intros Hst Hs Hcase st'. subst st'.
  assert (poll_done (RunOk (Some run)) = Some run) as Hd.
  { by rewrite (poll_done_status _ _ Hst), decide_True. }
  rewrite (pollRun_resume_done _ _ _ _ _ _ _ _ Hd). cbn zeta.
  pose proof (same_tracking_patched recordId now_c now_u now_p runId run st)
    as (_ & _ & _ & _ & _ & Htl & Hn & _ & _ & Htm).
  pose proof (cleared_polling runId run st) as (_ & _ & Ctm & Cn).
  rewrite Ctm in Htm. rewrite Cn in Hn.
  revert Htl Hn Htm.
  unfold patched_by_run, updateHistoryFromPipeline.
  change (default ∅ (selection (buildPipelineResultFromRun run)) !!! "session_id")
    with (run !!! "session_id").
  set (st_e := ensureHistoryFromRun recordId now_c now_u run (cleared runId run st)).
  set (patch := pipeline_patch now_p (buildPipelineResultFromRun run)).
  assert (Exists (λ h : obj, h !!! "sessionId" = run !!! "session_id")
            (history st_e)) as Hex.
  { subst st_e. unfold ensureHistoryFromRun.
    destruct (existsb _ _) eqn:Hb.
    - rewrite history_cleared in Hb |- *. destruct Hcase as [Hall|Hex]; [|done].
      apply has_run_not_Forall in Hall. congruence.
    - rewrite history_saveHistory. apply Exists_cons_hd. cbn.
      change (js_or (run !!! "session_id") JNull = run !!! "session_id").
      unfold js_or. by rewrite Hs. }
  assert (is_Some (findIndex (λ h, strict_eq (h !!! "sessionId") (run !!! "session_id"))
                     (history st_e))) as [[idx h] Hf].
  { apply Exists_exists in Hex as (h & Hin & Hh).
    apply (findIndex_is_Some _ _ h Hin). by apply strict_eq_true. }
  pose proof (findIndex_Some _ _ _ _ Hf) as (_ & Hp & _).
  apply strict_eq_true in Hp.
  rewrite (patchHistory_found _ _ _ _ _ Hf).
  set (merged := patch ∪ h).
  set (st2 := saveHistory _).
  intros Htl Hn Htm.
  assert (history st2 = merged :: delete idx (history st_e)) as Hh2
    by apply history_saveHistory.
  assert (activeHistoryId st2 = merged !!! "id") as Ha2
    by apply activeHistoryId_saveHistory.
  assert (getActiveRecord st2 = Some merged) as Hact.
  { unfold getActiveRecord. rewrite Hh2, Ha2.
    rewrite findIndex_head; [done|]. by apply strict_eq_true. }
  rewrite Hact.
  pose proof (related_to_patched now_p run h Hs Hp) as Hrel.
  fold patch in Hrel. fold merged in Hrel. rewrite Hrel.
  exists merged.
  assert (merged !!! "sessionId" = run !!! "session_id") as Hms.
  { subst merged patch. by rewrite lookup_total_union_unnamed. }
  assert (merged !!! "runId" = js_or (run !!! "id") JNull) as Hmr.
  { subst merged patch.
    by rewrite (lookup_total_union_named _ _ "runId" _
                  (pipeline_patch_runId now_p run)). }
  destruct (appendPipeline_returns (buildPipelineResultFromRun run)).
  - split; [by rewrite history_appendPipeline, Hh2|].
    split; [erewrite getActiveRecord_frame; [exact Hact|done..]|].
    split; [done|]. split; [done|]. split; [|done].
    intros _. unfold appendPipeline, mountMessage. cbn.
    by rewrite Htl, Hn, Htm.
  - split; [by cbn; rewrite Hh2|].
    split; [erewrite getActiveRecord_frame; [exact Hact|done..]|].
    split; [done|]. split; [done|]. split; [done|].
    intros _. cbn. by rewrite Htl, Htm.
Qed.

End StoreProofs.

(** ** Text *)

(** ** Trimming and splitting *)

Lemma trim_start_head l a t : trim_start l = a :: t → is_space a = false.
Proof.
  induction l as [|b l IH]; cbn; [done|].
  destruct (is_space b) eqn:Hb; [done|]. by intros [= <- _].
Qed.

Lemma trim_start_suffix l : trim_start l `suffix_of` l.
Proof.
  induction l as [|b l IH]; cbn; [done|].
  destruct (is_space b); [by apply suffix_cons_r|done].
Qed.

Lemma trim_start_nil l : trim_start l = [] ↔ blank l = true.
Proof.
  unfold blank. induction l as [|b l IH]; cbn; [done|].
  destruct (is_space b); cbn; [done|]. by split.
Qed.

Lemma trim_start_app_keep l k :
  trim_start l ≠ [] → trim_start (l ++ k) = trim_start l ++ k.
Proof.
  induction l as [|b l IH]; cbn; [done|].
  destruct (is_space b); [done|]. done.
Qed.

Lemma trim_start_app_blank l k :
  trim_start l = [] → trim_start (l ++ k) = trim_start k.
Proof.
  induction l as [|b l IH]; cbn; [done|].
  destruct (is_space b); [done|]. done.
Qed.

Lemma trim_start_Forall (P : N → Prop) l :
  Forall P l → Forall P (trim_start l).
Proof.
  induction 1 as [|b l Hb Hl IH]; cbn; [done|].
  destruct (is_space b); [done|]. by constructor.
Qed.

Lemma trim_end_Forall (P : N → Prop) l :
  Forall P l → Forall P (trim_end l).
Proof.
  intros H. unfold trim_end. apply Forall_reverse, trim_start_Forall.
  by apply Forall_reverse.
Qed.

Lemma js_trim_Forall (P : N → Prop) l :
  Forall P l → Forall P (js_trim l).
Proof.
  intros H. unfold js_trim. by apply trim_end_Forall, trim_start_Forall.
Qed.

Lemma trim_end_last l a : last (trim_end l) = Some a → is_space a = false.
Proof.
  unfold trim_end. rewrite last_reverse.
  destruct (trim_start (reverse l)) eqn:E; [done|].
  cbn. intros [= <-]. by eapply trim_start_head.
Qed.

(** Trimming the end keeps a first unit that is not white space. *)
Lemma trim_end_head a t : is_space a = false → head (trim_end (a :: t)) = Some a.
Proof.
  intros Ha. unfold trim_end. rewrite reverse_cons.
  destruct (trim_start (reverse t)) as [|b t'] eqn:E.
  - rewrite trim_start_app_blank by done. cbn. by rewrite Ha.
  - rewrite trim_start_app_keep by by rewrite E.
    by rewrite E, reverse_snoc.
Qed.

Lemma js_trim_head l a : head (js_trim l) = Some a → is_space a = false.
Proof.
  unfold js_trim. destruct (trim_start l) as [|b t] eqn:E; [done|].
  pose proof (trim_start_head _ _ _ E) as Hb.
  rewrite (trim_end_head _ _ Hb). by intros [= <-].
Qed.

Lemma js_trim_last l a : last (js_trim l) = Some a → is_space a = false.
Proof. apply trim_end_last. Qed.

Lemma js_trim_nil l : js_trim l = [] ↔ blank l = true.
Proof.
  unfold js_trim. split.
  - destruct (trim_start l) as [|b t] eqn:E; [intros _; by apply trim_start_nil|].
    intros Hn. pose proof (trim_end_head b t (trim_start_head _ _ _ E)) as Hh.
    by rewrite Hn in Hh.
  - intros Hb. apply trim_start_nil in Hb. by rewrite Hb.
Qed.

Lemma split_on_cons c l : ∃ cell cells, split_on c l = cell :: cells.
Proof.
  induction l as [|a l (cell & cells & IH)]; cbn; [by eauto|].
  destruct (decide (a = c)); [by eauto|]. rewrite IH. by eauto.
Qed.

Lemma split_on_free c l : Forall (λ cell, c ∉ cell) (split_on c l).
Proof.
  induction l as [|a l IH]; cbn.
  - constructor; [apply not_elem_of_nil|constructor].
  - destruct (decide (a = c)) as [->|Hne].
    + constructor; [apply not_elem_of_nil|done].
    + destruct (split_on c l) as [|cell cells]; [|inversion_clear IH].
      * constructor; [|constructor]. apply not_elem_of_cons.
        split; [congruence|apply not_elem_of_nil].
      * constructor; [|done]. apply not_elem_of_cons. split; [congruence|done].
Qed.

Lemma cell_ok_splitRow line : Forall cell_ok (splitRow line).
Proof.
  unfold splitRow. apply Forall_forall. intros c [Hne Hin]%list_elem_of_filter.
  apply list_elem_of_fmap in Hin as (raw & -> & Hraw).
  repeat split.
  - by destruct (js_trim raw).
  - assert (Forall (λ a, a ≠ pipe) raw) as Hfree.
    { pose proof (split_on_free pipe
        (drop_trailing_pipe (drop_leading_pipe (js_trim line)))) as Hf.
      rewrite Forall_forall in Hf. specialize (Hf raw Hraw).
      apply Forall_forall. intros a Ha ->. by apply Hf. }
    apply (js_trim_Forall _ _) in Hfree. rewrite Forall_forall in Hfree.
    intros Hp. by apply (Hfree pipe Hp).
  - apply js_trim_head.
  - apply js_trim_last.
Qed.

Lemma includes_pipe l : includes [pipe] l = true ↔ pipe ∈ l.
Proof.
  induction l as [|a l IH]; cbn.
  - split; [done|]. by intros ?%elem_of_nil.
  - rewrite andb_true_r, orb_true_iff, IH, bool_decide_eq_true, elem_of_cons.
    split; intros [?|?]; auto.
Qed.

(** X15. Every cell [splitRow] returns is non-empty, free of ["|"] and
    has no white space at either end; a line without ["|"] gives the trimmed
    line as its only cell, or no cell when it is blank. *)
Theorem splitRow_cells line :
  Forall cell_ok (splitRow line)
  ∧ (pipe ∉ line →
     splitRow line = if blank line then [] else [js_trim line]).
Proof.
  split; [apply cell_ok_splitRow|].
  intros Hp. unfold splitRow.
  assert (Forall (λ a, a ≠ pipe) (js_trim line)) as Hfree.
  { apply js_trim_Forall, Forall_forall. by intros a Ha ->. }
  assert (∀ l, Forall (λ a, a ≠ pipe) l → drop_leading_pipe l = l) as Hlead.
  { intros [|a l] Hl; [done|]. cbn. inversion_clear Hl.
    by rewrite decide_False. }
  assert (∀ l, Forall (λ a, a ≠ pipe) l → split_on pipe l = [l]) as Hsplit.
  { induction l as [|a l IH]; [done|]. intros Hl. inversion_clear Hl. cbn.
    rewrite decide_False by done. by rewrite IH. }
  rewrite (Hlead _ Hfree). unfold drop_trailing_pipe.
  rewrite (Hlead (reverse (js_trim line))) by by apply Forall_reverse.
  rewrite reverse_involutive, (Hsplit _ Hfree).
  change (js_trim <$> [js_trim line]) with [js_trim (js_trim line)].
  assert (js_trim (js_trim line) = js_trim line) as ->.
  { unfold js_trim at 1. destruct (js_trim line) as [|a t] eqn:E; [done|].
    assert (is_space a = false) as Ha by (apply (js_trim_head line); by rewrite E).
    cbn [trim_start]. rewrite Ha. unfold trim_end.
    destruct (reverse (a :: t)) as [|b t'] eqn:Er.
    { apply (f_equal reverse) in Er. by rewrite reverse_involutive in Er. }
    assert (is_space b = false) as Hb.
    { apply (js_trim_last line). rewrite E, <- (reverse_involutive (a :: t)), Er.
      by rewrite last_reverse. }
    cbn [trim_start]. rewrite Hb. rewrite <- Er. apply reverse_involutive. }
  rewrite filter_cons, filter_nil.
  destruct (blank line) eqn:Hb.
  - apply js_trim_nil in Hb. by rewrite Hb.
  - destruct (js_trim line) eqn:E; [|done].
    apply js_trim_nil in E. congruence.
Qed.

(** ** The table parser *)

Lemma split_on_sub c l cell : cell ∈ split_on c l → cell ⊆ l.
Proof.
  revert cell. induction l as [|a l IH]; cbn; intros cell.
  - by intros ->%list_elem_of_singleton.
  - destruct (decide (a = c)).
    + intros [->|Hin]%elem_of_cons; [by intros x ?%elem_of_nil|].
      intros x Hx. by apply list_elem_of_further, (IH cell).
    + destruct (split_on c l) as [|cell0 cells].
      * intros ->%list_elem_of_singleton x ->%list_elem_of_singleton.
        apply list_elem_of_here.
      * intros [->|Hin]%elem_of_cons.
        -- intros x [->|Hx]%elem_of_cons; [apply list_elem_of_here|].
           apply list_elem_of_further, (IH cell0); [apply list_elem_of_here|done].
        -- intros x Hx. apply list_elem_of_further, (IH cell); [|done].
           by apply list_elem_of_further.
Qed.

Lemma drop_cr_sub l : drop_cr l ⊆ l.
Proof.
  unfold drop_cr. destruct (reverse l) as [|a t] eqn:E; [by intros x ?%elem_of_nil|].
  destruct (decide _); [|done]. intros x Hx.
  rewrite <- (reverse_involutive l), E, reverse_cons.
  apply elem_of_app. by left.
Qed.

Lemma split_lines_sub l line : line ∈ split_lines l → line ⊆ l.
Proof.
  unfold split_lines.
  destruct (reverse (split_on line_feed l)) as [|lst front] eqn:E;
    [by intros ?%elem_of_nil|].
  assert (∀ piece, piece ∈ lst :: front → piece ⊆ l) as Hpieces.
  { intros piece Hp. apply (split_on_sub line_feed).
    rewrite <- (reverse_involutive (split_on _ _)), E.
    by apply elem_of_reverse. }
  intros [Hin| ->%list_elem_of_singleton]%elem_of_app.
  - apply elem_of_reverse, list_elem_of_fmap in Hin as (piece & -> & Hp).
    intros x Hx. apply (Hpieces piece); [by apply list_elem_of_further|].
    by apply drop_cr_sub.
  - apply Hpieces, list_elem_of_here.
Qed.

Lemma find_start_None i lines :
  Forall (λ l, pipe ∉ l) lines → find_start i lines = None.
Proof.
  intros H. revert i. induction H as [|line rest Hl Hrest IH]; intros i; [done|].
  cbn. destruct rest as [|next rest']; [done|].
  unfold is_header.
  assert (includes [pipe] line = false) as ->.
  { apply not_true_iff_false. by rewrite includes_pipe. }
  apply IH.
Qed.

Lemma find_start_Some i lines s :
  find_start i lines = Some s →
  i ≤ s ∧ s + 2 ≤ i + List.length lines
  ∧ ∃ line next, lines !! (s - i) = Some line ∧ lines !! S (s - i) = Some next
                 ∧ is_header line next = true.
Proof.
  revert i. induction lines as [|line rest IH]; intros i; [done|].
  cbn [find_start]. destruct rest as [|next rest']; [done|].
  destruct (is_header line next) eqn:Hh.
  - intros [= <-]. split; [lia|]. split; [cbn; lia|].
    exists line, next. by rewrite Nat.sub_diag.
  - intros (Hle & Hlen & l1 & l2 & H1 & H2 & Hd)%IH.
    split; [lia|]. split; [cbn in *; lia|]. exists l1, l2.
    replace (s - i) with (S (s - S i)) by lia. done.
Qed.

Lemma table_rows_ok lines :
  Forall (λ r, r ≠ [] ∧ Forall cell_ok r) (table_rows lines)
  ∧ List.length (table_rows lines) ≤ List.length lines.
Proof.
  induction lines as [|l rest [IH1 IH2]]; cbn; [by split; [constructor|]|].
  destruct (_ || _); [split; [constructor|cbn; lia]|].
  pose proof (cell_ok_splitRow l) as Hok.
  destruct (splitRow l) as [|c r]; cbn; [split; [done|lia]|].
  split; [|lia]. by constructor.
Qed.

(** X16. [parseMarkdownTable] returns [null] for a falsy text and for a
    text without ["|"].  When it returns a table, the header and the list of
    rows are non-empty, every row is non-empty, every cell is non-empty,
    free of ["|"] and trimmed, and the rows are at most the lines of the text
    less the header line and the separator line.  The text is any sequence
    of UTF-16 code units. *)
Theorem parseMarkdownTable_result :
  parseMarkdownTable None = None
  ∧ (∀ u, pipe ∉ u → parseMarkdownTable (Some u) = None)
  ∧ (∀ u header rows,
       parseMarkdownTable (Some u) = Some (header, rows) →
       header ≠ [] ∧ rows ≠ []
       ∧ Forall cell_ok header
       ∧ Forall (λ r, r ≠ [] ∧ Forall cell_ok r) rows
       ∧ List.length rows + 2 ≤ List.length (split_lines u)).
Proof.
  unfold parseMarkdownTable. split; [done|]. split.
  - intros u Hp.
    rewrite find_start_None; [done|].
    apply Forall_forall. intros line Hin Hpl.
    by apply Hp, (split_lines_sub _ line).
  - intros u header rows.
    set (lines := split_lines _).
    destruct (find_start 0 lines) as [start|] eqn:Hs; [|done].
    apply find_start_Some in Hs as (_ & Hlen & _).
    pose proof (cell_ok_splitRow (default [] (lines !! start))) as Hh.
    destruct (table_rows_ok (drop (start + 2) lines)) as [Hr Hrl].
    rewrite length_drop in Hrl.
    destruct (splitRow _) as [|c h]; [done|].
    destruct (table_rows _) as [|r rs] eqn:Er; [done|].
    intros [= <- <-]. repeat split; try done. lia.
Qed.

(** ** The query form *)

Lemma nonempty_js_trim l : nonempty (js_trim l) = negb (blank l).
Proof.
  destruct (blank l) eqn:Hb.
  - apply js_trim_nil in Hb. by rewrite Hb.
  - destruct (js_trim l) eqn:E; [|done]. apply js_trim_nil in E. congruence.
Qed.

(** X17. [validateQuery] accepts the query of the form exactly when none
    of the five inputs is empty or white space only; when it throws, the
    fields it lists are the blank inputs, in the order of the form. *)
Theorem validateQuery_getQuery f :
  (validateQuery (getQuery f) = None
   ↔ Forall (λ e, blank e.2 = false) (form_fields f))
  ∧ (∀ missing,
       validateQuery (getQuery f) = Some missing →
       missing = fst <$> filter (λ e, blank e.2 = true) (form_fields f)).
Proof.
  unfold validateQuery, getQuery, form_fields.
  rewrite !Forall_cons, Forall_nil, !filter_cons, !filter_nil. cbn [snd].
  rewrite !nonempty_js_trim.
  destruct (blank (in_mnn f)), (blank (in_routes f)), (blank (in_base_form f)),
    (blank (in_release_type f)), (blank (in_dosage f)); cbn;
    (split; [split; [done || intros [=] | intros (?&?&?&?&?&_); done]
            | intros missing; by intros [= <-] || done ]).
Qed.

Lemma drop_leading_slashes_head l :
  head (drop_leading_slashes l) ≠ Some slash.
Proof.
  induction l as [|a l IH]; cbn; [done|].
  destruct (decide (a = slash)) as [->|Hne]; [done|]. cbn. congruence.
Qed.

Lemma drop_leading_slashes_suffix l : drop_leading_slashes l `suffix_of` l.
Proof.
  induction l as [|a l IH]; cbn; [done|].
  destruct (decide (a = slash)); [by apply suffix_cons_r|done].
Qed.

Lemma drop_leading_slashes_keep l :
  head l ≠ Some slash → drop_leading_slashes l = l.
Proof.
  destruct l as [|a l]; cbn; [done|]. intros Hne.
  destruct (decide (a = slash)) as [->|]; [done|done].
Qed.

(** X18. [getApiBase] never ends in ["/"]: it is the trimmed
    address (the page's origin when the input is empty) without the slashes
    at its end, and the trimmed address itself when that does not end in a
    slash. *)
Theorem getApiBase_no_trailing_slash value origin :
  let s := js_trim (if nonempty value then value else origin) in
  (∀ a, last (getApiBase value origin) = Some a → a ≠ slash)
  ∧ getApiBase value origin `prefix_of` s
  ∧ Forall (λ a, a = slash)
      (drop (List.length (getApiBase value origin)) s)
  ∧ ((∀ a, last s = Some a → a ≠ slash) → getApiBase value origin = s).
Proof.
  intros s. unfold getApiBase. fold s.
  split; [|split; [|split]].
  - intros a. rewrite last_reverse. intros Hh ->.
    by apply (drop_leading_slashes_head (reverse s)).
  - destruct (drop_leading_slashes_suffix (reverse s)) as [k Hk].
    exists (reverse k). apply (inj reverse). by rewrite reverse_app, !reverse_involutive.
  - destruct (drop_leading_slashes_suffix (reverse s)) as [k Hk].
    assert (s = reverse (drop_leading_slashes (reverse s)) ++ reverse k) as Hs.
    { apply (inj reverse). by rewrite reverse_app, !reverse_involutive. }
    rewrite Hs at 2. rewrite drop_app_length.
    apply Forall_reverse.
    clear Hs. revert k Hk. generalize (reverse s). clear.
    intros l. induction l as [|a l IH]; intros k Hk; cbn in Hk.
    + by destruct k.
    + destruct (decide (a = slash)) as [->|Hne].
      * destruct k as [|b k]; cbn in Hk.
        { exfalso. pose proof (drop_leading_slashes_suffix l) as Hsuf.
          apply suffix_length in Hsuf. rewrite <- Hk in Hsuf. cbn in Hsuf. lia. }
        injection Hk as <- Hk. constructor; [done|]. by apply IH.
      * destruct k as [|b k]; [constructor|].
        apply (f_equal List.length) in Hk. rewrite length_app in Hk. cbn in Hk. lia.
  - intros Hl. rewrite drop_leading_slashes_keep; [by rewrite reverse_involutive|].
    rewrite head_reverse. intros Hh. by apply (Hl slash).
Qed.

(** X19. [trim(text, n)] for [n >= 1] is never longer than [n] code units: a
    text of at most [n] units is returned as it is, a longer one is cut to
    its first [n - 1] units followed by the ellipsis; the empty string, which
    a falsy text becomes, is returned empty.  Lengths count UTF-16 code
    units, as [length] and [slice] do. *)
Theorem trim_bounded t n :
  (List.length t ≤ n → trim t n = t)
  ∧ (0 < n → n < List.length t →
     trim t n = take (n - 1) t ++ [ellipsis]
     ∧ List.length (trim t n) = n)
  ∧ (0 < n → List.length (trim t n) ≤ n)
  ∧ trim [] n = [].
Proof.
  unfold trim.
  split; [|split; [|split]].
  - intros Hle. rewrite bool_decide_eq_false_2; [done|lia].
  - intros Hn Hlt. rewrite bool_decide_eq_true_2 by done.
    destruct n as [|m]; [lia|]. replace (S m - 1) with m by lia.
    split; [done|]. rewrite length_app, length_take. cbn. lia.
  - intros Hn. destruct (bool_decide (n < List.length t)) eqn:Hb.
    + apply bool_decide_eq_true in Hb. destruct n as [|m]; [lia|].
      rewrite length_app, length_take. cbn. lia.
    + apply bool_decide_eq_false in Hb. lia.
  - by destruct n.
Qed.

(** ** Drawer preferences *)

(** X20. Drawer preferences survive a reload: [loadPrefs] on what
    [savePrefs] stored restores both drawer flags, whatever they were before
    loading; with nothing stored, unparsable text, [null], or an object
    without boolean flags, [loadPrefs] changes nothing.  Toggling the drawer
    twice on the same viewport restores the flags, and [closeDrawerMobile]
    closes the drawer of the current viewport only -- on a desktop viewport
    that is the desktop drawer. *)
Theorem prefs_round_trip pg :
  (∀ pg',
     let pg'' := loadPrefs (set_prefs (prefs (savePrefs true pg)) pg') in
     drawerDesktopOpen pg'' = drawerDesktopOpen pg
     ∧ drawerMobileOpen pg'' = drawerMobileOpen pg)
  ∧ (prefs pg = PrefsMissing ∨ prefs pg = PrefsUnparsable ∨ prefs pg = PrefsNull →
     loadPrefs pg = pg)
  ∧ (∀ p, prefs pg = PrefsFields p →
       (∀ b, p !!! "drawerDesktopOpen" ≠ JBool b) →
       (∀ b, p !!! "drawerMobileOpen" ≠ JBool b) →
       loadPrefs pg = pg)
  ∧ (∀ mobile accepted accepted',
       let pg'' := toggleDrawer mobile accepted' (toggleDrawer mobile accepted pg) in
       drawerDesktopOpen pg'' = drawerDesktopOpen pg
       ∧ drawerMobileOpen pg'' = drawerMobileOpen pg)
  ∧ (∀ mobile accepted,
       let pg' := closeDrawerMobile mobile accepted pg in
       (if mobile then drawerMobileOpen pg' else drawerDesktopOpen pg') = false
       ∧ (if mobile then drawerDesktopOpen pg' else drawerMobileOpen pg')
         = (if mobile then drawerDesktopOpen pg else drawerMobileOpen pg)).
Proof.
  split; [|split; [|split; [|split]]].
  - intros pg'. by destruct pg, pg'.
  - unfold loadPrefs. by intros [->|[->| ->]].
  - intros p Hp Hd Hm. unfold loadPrefs. rewrite Hp.
    destruct (p !!! "drawerDesktopOpen") eqn:E1; try (by destruct (Hd b));
      destruct (p !!! "drawerMobileOpen") eqn:E2; try (by destruct (Hm b));
      done.
  - intros [] [] []; cbn; by rewrite negb_involutive.
  - by intros [] [].
Qed.

(** ** Viewing a record *)

Section PageProofs.
Context {host : Host}.



(** ** Choosing a reference *)

Lemma unmounted_self {A} (n : nat) (l : list (nat * A)) :
  n ∉ (filter (λ e, e.1 ≠ n) l).*1.
Proof.
  rewrite list_elem_of_fmap. intros ([m x] & -> & Hin).
  apply list_elem_of_filter in Hin as [Hne _]. by apply Hne.
Qed.

Lemma unmounted_filter {A} (n : nat) (P : nat * A → Prop)
    `{∀ e, Decision (P e)} (l : list (nat * A)) :
  n ∉ l.*1 → n ∉ (filter P l).*1.
Proof.
  rewrite !list_elem_of_fmap. intros Hn (e & -> & Hin).
  apply list_elem_of_filter in Hin as [_ Hin]. apply Hn. by exists e.
Qed.

Lemma unmounted_snoc {A} (n m : nat) (x : A) (l : list (nat * A)) :
  n ∉ l.*1 → n ≠ m → n ∉ (l ++ [(m, x)]).*1.
Proof.
  intros Hn Hne. rewrite fmap_app, not_elem_of_app. split; [done|].
  cbn. apply not_elem_of_cons. split; [done|apply not_elem_of_nil].
Qed.

Ltac unmounted :=
  repeat first
    [ apply unmounted_self
    | apply unmounted_snoc; [|lia]
    | apply unmounted_filter ].

(** X22. One choice at a time.  A click while a choice is pending
    is ignored.  Otherwise the handler mounts a loading node, sets the guard,
    issues one request and, in pipeline mode with a non-empty session,
    records the session as pending; until the request settles every further
    click is ignored.  When the request settles, however it does, the guard
    is cleared, the loading node is unmounted, no status request was started,
    the number of records is unchanged, no session was added to the pending
    ones, and in pipeline mode the session of the click is no longer
    pending. *)
Theorem chooseReference_lifecycle mode sessionId optionIndex saveJson saveRouter pg :
  (actionPending pg = true →
     chooseReference mode sessionId optionIndex saveJson saveRouter pg = (None, pg))
  ∧ (actionPending pg = false →
     ∃ pg1,
       chooseReference mode sessionId optionIndex saveJson saveRouter pg
       = (Some (nodes (core pg)), pg1)
       ∧ actionPending pg1 = true
       ∧ (∃ r, sent pg1 = sent pg ++ [r])
       ∧ nodes (core pg) ∈ mounted pg1
       ∧ history (core pg1) = history (core pg)
       ∧ activeHistoryId (core pg1) = activeHistoryId (core pg)
       ∧ pendingSessions (core pg1)
         = (if mode is Pipeline
            then if negb (String.eqb sessionId "")
                 then {[JStr sessionId]} ∪ pendingSessions (core pg)
                 else pendingSessions (core pg)
            else pendingSessions (core pg))
       ∧ ∀ mode' sessionId' optionIndex' saveJson' saveRouter',
           chooseReference mode' sessionId' optionIndex' saveJson' saveRouter' pg1
           = (None, pg1))
  ∧ (∀ loading now o pg1,
       let pg2 := chooseReference_resume mode sessionId loading now o pg1 in
       actionPending pg2 = false
       ∧ sent pg2 = sent pg1
       ∧ requests (core pg2) = requests (core pg1)
       ∧ inflight (core pg2) = inflight (core pg1)
       ∧ timers (core pg2) = timers (core pg1)
       ∧ List.length (history (core pg2)) = List.length (history (core pg1))
       ∧ pendingSessions (core pg2) ⊆ pendingSessions (core pg1)
       ∧ (mode = Pipeline → sessionId ≠ "" →
          JStr sessionId ∉ pendingSessions (core pg2))
       ∧ (mode = ChooseOnly →
          pendingSessions (core pg2) = pendingSessions (core pg1))
       ∧ (loading < nodes (core pg1) → loading ∉ mounted pg2)).
Proof.
  split; [|split].
  - intros Hp. unfold chooseReference. by rewrite Hp.
  - intros Hp. unfold chooseReference. rewrite Hp.
    destruct mode; cbn.
    + eexists. split; [reflexivity|]. cbn.
      destruct (negb (String.eqb sessionId "")); cbn;
        (repeat split; try done; try (by eexists));
        unfold mounted; cbn; rewrite ?fmap_app; set_solver.
    + eexists. split; [reflexivity|]. cbn.
      repeat split; try done; try (by eexists).
      unfold mounted; cbn; rewrite ?fmap_app; set_solver.
  - intros loading now o pg1 pg2. subst pg2. unfold chooseReference_resume.
    destruct o as [|result parts], mode.
    + (* failed, pipeline *)
      unfold forget_session, active_in_session.
      destruct (String.eqb_spec sessionId "") as [He|He]; cbn [negb];
        match goal with |- context [getActiveRecord ?s] =>
          destruct (getActiveRecord s) as [r|] end;
        try destruct (strict_eq _ _); cbn;
        (repeat split; try done; try (intros ?; set_unfold; tauto);
         unfold mounted; cbn; rewrite not_elem_of_app; split; unmounted).
    + unfold active_in_session.
      match goal with |- context [getActiveRecord ?s] =>
          destruct (getActiveRecord s) as [r|] end;
        try destruct (strict_eq _ _); cbn;
        (repeat split; try done;
         unfold mounted; cbn; rewrite not_elem_of_app; split; unmounted).
    + (* delivered, pipeline *)
      set (pg0 := unmount loading pg1).
      set (st1 := updateHistoryFromPipeline now parts (core pg0)).
      assert (same_tracking st1 (core pg0)) as Htr
        by apply same_tracking_patchHistory.
      assert (List.length (history st1) = List.length (history (core pg1))) as Hlen
        by exact (length_patchHistory _ _ (core pg0)).
      destruct Htr as (Hk & Hm & Hs & Hr & Hb & Ht & Hn & Hq & Hi & Htm).
      cbn in Hk, Hm, Hs, Hr, Hb, Ht, Hn, Hq, Hi, Htm.
      clearbody st1. unfold forget_session, active_in_session.
      destruct (String.eqb_spec sessionId "") as [He|He]; cbn [negb];
        match goal with |- context [getActiveRecord ?s] =>
          destruct (getActiveRecord s) as [r|] end;
        try destruct (strict_eq _ _); cbn;
        try (destruct (pendingMessage st1); cbn);
        rewrite ?Hs, ?Hq, ?Hi, ?Htm, ?Ht, ?Hn;
        (repeat split; try done; try (intros ?; set_unfold; tauto);
         unfold mounted; cbn; rewrite ?Ht, ?Hn, not_elem_of_app; split; unmounted).
    + set (pg0 := unmount loading pg1).
      set (st1 := updateHistoryFromChoose now result (core pg0)).
      assert (same_tracking st1 (core pg0)) as Htr
        by apply same_tracking_patchHistory.
      assert (List.length (history st1) = List.length (history (core pg1))) as Hlen
        by exact (length_patchHistory _ _ (core pg0)).
      destruct Htr as (Hk & Hm & Hs & Hr & Hb & Ht & Hn & Hq & Hi & Htm).
      cbn in Hk, Hm, Hs, Hr, Hb, Ht, Hn, Hq, Hi, Htm.
      clearbody st1. unfold active_in_session.
      match goal with |- context [getActiveRecord ?s] =>
          destruct (getActiveRecord s) as [r|] end;
        try destruct (strict_eq _ _); cbn;
        rewrite ?Hs, ?Hq, ?Hi, ?Htm, ?Ht, ?Hn;
        (repeat split; try done;
         unfold mounted; cbn; rewrite ?Ht, ?Hn, not_elem_of_app; split; unmounted).
Qed.

(** ** Searching *)

(** X23. One search at a time.  A submit while a search is pending is
    ignored; a submit with a blank field mounts an error and issues no request,
    leaving history, active record and stored copy alone.  A valid submit
    issues one search request with the trimmed inputs, sets the guard and
    clears the active record while leaving timeline and indicator in place;
    further submits are ignored until the request settles.  Settling clears
    the guard and unmounts the loading node; a failure leaves the history
    alone, a result with matches puts its record in front and makes it
    active. *)
Theorem onSearch_lifecycle f xls mobile accepted pg :
  (searchPending pg = true → onSearch f xls mobile accepted pg = (None, pg))
  ∧ (∀ missing,
       searchPending pg = false →
       validateQuery (getQuery f) = Some missing →
       let r := onSearch f xls mobile accepted pg in
       r.1 = None
       ∧ sent r.2 = sent pg
       ∧ searchPending r.2 = false
       ∧ history (core r.2) = history (core pg)
       ∧ activeHistoryId (core r.2) = activeHistoryId (core pg)
       ∧ storage (core r.2) = storage (core pg)
       ∧ notices r.2 = notices pg ++ [(nodes (core pg), NError)])
  ∧ (searchPending pg = false →
     validateQuery (getQuery f) = None →
     ∃ loading pg1,
       onSearch f xls mobile accepted pg = (Some loading, pg1)
       ∧ searchPending pg1 = true
       ∧ sent pg1 = sent pg ++ [ReqSearch (getQuery f) (trimmed xls)]
       ∧ activeHistoryId (core pg1) = JNull
       ∧ historyView pg1 = false
       ∧ history (core pg1) = history (core pg)
       ∧ timeline (core pg1) = timeline (core pg)
       ∧ pendingMessage (core pg1) = pendingMessage (core pg)
       ∧ loading ∈ mounted pg1
       ∧ ∀ f' xls' mobile' accepted',
           onSearch f' xls' mobile' accepted' pg1 = (None, pg1))
  ∧ (∀ loading recordId now1 now2 o pg1,
       let pg2 := onSearch_resume loading recordId now1 now2 o pg1 in
       searchPending pg2 = false
       ∧ sent pg2 = sent pg1
       ∧ requests (core pg2) = requests (core pg1)
       ∧ inflight (core pg2) = inflight (core pg1)
       ∧ timers (core pg2) = timers (core pg1)
       ∧ (loading < nodes (core pg1) → loading ∉ mounted pg2)
       ∧ match o with
         | SearchFailed =>
             history (core pg2) = history (core pg1)
             ∧ activeHistoryId (core pg2) = activeHistoryId (core pg1)
             ∧ storage (core pg2) = storage (core pg1)
         | SearchOk result =>
             if truthy (result !!! "matches_count")
             then history (core pg2)
                  = record_of_search recordId now1 now2 result :: history (core pg1)
                  ∧ activeHistoryId (core pg2) = JStr recordId
             else history (core pg2) = history (core pg1)
                  ∧ activeHistoryId (core pg2) = activeHistoryId (core pg1)
                  ∧ storage (core pg2) = storage (core pg1)
         end).
Proof.
  split; [|split; [|split]].
  - intros Hp. unfold onSearch. by rewrite Hp.
  - intros missing Hp Hv r. subst r. unfold onSearch. rewrite Hp, Hv.
    by repeat split.
  - intros Hp Hv. unfold onSearch. rewrite Hp, Hv.
    destruct mobile, accepted; cbn;
      (eexists _, _; split; [reflexivity|]; cbn; repeat split; try done;
       unfold mounted; cbn; rewrite !fmap_app; cbn;
       rewrite !elem_of_app, !elem_of_cons; tauto).
  - intros loading recordId now1 now2 o pg1 pg2. subst pg2.
    unfold onSearch_resume. destruct o as [|result].
    + cbn. repeat split; try done.
      unfold mounted; cbn. rewrite not_elem_of_app. split; unmounted.
    + unfold handleSearchResult.
      destruct (truthy (result !!! "matches_count")); cbn [negb].
      * set (st0 := set_activeHistoryId _ _).
        set (st1 := saveHistory st0).
        assert (same_tracking st1 st0) as Htr by apply same_tracking_saveHistory.
        assert (history st1
                = record_of_search recordId now1 now2 result :: history (core pg1))
          as Hh by apply history_saveHistory.
        assert (activeHistoryId st1 = JStr recordId) as Ha
          by apply activeHistoryId_saveHistory.
        destruct Htr as (Hk & Hm & Hs & Hr & Hb & Ht & Hn & Hq & Hi & Htm).
        change (timeline st0)
          with (filter (λ e : nat * message, e.1 ≠ loading) (timeline (core pg1)))
          in Ht.
        change (nodes st0) with (nodes (core pg1)) in Hn.
        change (requests st0) with (requests (core pg1)) in Hq.
        change (inflight st0) with (inflight (core pg1)) in Hi.
        change (timers st0) with (timers (core pg1)) in Htm.
        clearbody st1. clear st0 Hk Hm Hs Hr Hb. cbn.
        rewrite Hq, Hi, Htm, Hh, Ha. repeat split; try done.
        unfold mounted. cbn. rewrite Ht, Hn. rewrite not_elem_of_app.
        split; unmounted.
      * cbn. repeat split; try done.
        unfold mounted; cbn. rewrite not_elem_of_app. split; unmounted.
Qed.

(** ** Starting over *)

(** X24. [newChat] empties the timeline and clears the active record and
    the indicator, and nothing else of the run tracking: history, stored
    copy, pending sessions, running marks, requests in flight, armed timers
    and both guards are as before, so a poll loop or a pending choice
    outlives it. *)
Theorem newChat_resets mobile accepted pg :
  let pg' := newChat mobile accepted pg in
  activeHistoryId (core pg') = JNull
  ∧ pendingRunId (core pg') = JNull
  ∧ pendingMessage (core pg') = None
  ∧ mounted pg' = []
  ∧ historyView pg' = false
  ∧ history (core pg') = history (core pg)
  ∧ storage (core pg') = storage (core pg)
  ∧ pendingSessions (core pg') = pendingSessions (core pg)
  ∧ runningRunIds (core pg') = runningRunIds (core pg)
  ∧ runningBySession (core pg') = runningBySession (core pg)
  ∧ requests (core pg') = requests (core pg)
  ∧ inflight (core pg') = inflight (core pg)
  ∧ timers (core pg') = timers (core pg)
  ∧ sent pg' = sent pg
  ∧ searchPending pg' = searchPending pg
  ∧ actionPending pg' = actionPending pg.
Proof.
  unfold newChat. cbn.
  destruct (pendingMessage (core pg)), mobile, accepted; cbn; by repeat split.
Qed.

(** ** Deleting from the history list *)

(** X25. [deleteHistoryItem] issues a delete request unless the
    button has no run id.  A failed request leaves history, active record and
    stored copy alone.  After a successful one with a history id, the first
    record with that id (as a string) is removed, none when no record has it;
    a truthy [activeHistoryId] still designates a record, the first 100
    records are stored when the write is accepted, and the timeline is
    untouched.  Without a history id the removal is by run id.  For a record
    whose id is a string the item's attribute finds a record of that id. *)
Theorem deleteHistoryItem_effect runId historyId pg :
  (deleteHistoryItem runId pg
   = if String.eqb runId "" then (false, pg)
     else (true, send (ReqDelete runId) pg))
  ∧ (let pg' := deleteHistoryItem_resume runId historyId DeleteFailed pg in
     history (core pg') = history (core pg)
     ∧ activeHistoryId (core pg') = activeHistoryId (core pg)
     ∧ storage (core pg') = storage (core pg))
  ∧ (historyId = "" →
     core (deleteHistoryItem_resume runId historyId DeleteOk pg)
     = removeHistoryByRunId (JStr runId) (core pg))
  ∧ (historyId ≠ "" →
     let pg' := deleteHistoryItem_resume runId historyId DeleteOk pg in
     (Forall (λ h : obj, h !!! "id" ≠ JStr historyId) (history (core pg)) →
        history (core pg') = history (core pg))
     ∧ (∀ idx h,
          findIndex (λ h, strict_eq (h !!! "id") (JStr historyId))
            (history (core pg)) = Some (idx, h) →
          history (core pg') = delete idx (history (core pg))
          ∧ S (List.length (history (core pg'))) = List.length (history (core pg)))
     ∧ (truthy (activeHistoryId (core pg')) = true →
        is_Some (getActiveRecord (core pg')))
     ∧ (activeHistoryId (core pg') = activeHistoryId (core pg)
        ∨ activeHistoryId (core pg') = JNull)
     ∧ (storage_accepts (take 100 (history (core pg'))) = true →
        storage (core pg') = Some (take 100 (history (core pg'))))
     ∧ sent pg' = sent pg ∧ mounted pg' = mounted pg)
  ∧ (∀ h s,
       h ∈ history (core pg) → h !!! "id" = JStr s →
       item_historyId h = s
       ∧ ∃ idx h',
           findIndex (λ x, strict_eq (x !!! "id") (JStr (item_historyId h)))
             (history (core pg)) = Some (idx, h')
           ∧ h' !!! "id" = h !!! "id").
Proof.
  split; [done|]. split; [done|]. split; [|split].
  - intros ->. done.
  - intros Hne pg'. subst pg'. unfold deleteHistoryItem_resume.
    destruct (String.eqb_spec historyId "") as [He|_]; [done|]. cbn [negb].
    set (p := λ h : obj, strict_eq (h !!! "id") (JStr historyId)).
    set (st1 := match findIndex p (history (core pg)) with
                | Some (idx, _) => set_history (delete idx (history (core pg))) (core pg)
                | None => core pg
                end).
    cbn [core set_core sent].
    assert (activeHistoryId st1 = activeHistoryId (core pg)) as Ha1.
    { subst st1. by destruct (findIndex p _) as [[idx h]|]. }
    rewrite !history_saveHistory, !history_clear_missing_active,
      !activeHistoryId_saveHistory.
    repeat split.
    + intros Hall. subst st1. rewrite findIndex_None; [done|].
      intros h Hh. rewrite Forall_forall in Hall. specialize (Hall h Hh).
      subst p. unfold strict_eq. by apply bool_decide_eq_false.
    + subst st1. by rewrite H.
    + subst st1. rewrite H. cbn. apply findIndex_Some in H as (Hl & _).
      rewrite length_delete by (by eexists).
      apply lookup_lt_Some in Hl. lia.
    + intros Ht.
      pose proof (getActiveRecord_clear_missing_active st1 Ht) as Hs.
      erewrite getActiveRecord_frame; [exact Hs| |].
      * by rewrite history_saveHistory.
      * by rewrite activeHistoryId_saveHistory.
    + rewrite activeHistoryId_clear_missing_active, Ha1.
      destruct (_ && _); [by right|by left].
    + intros Hacc. rewrite <- (history_clear_missing_active st1) in Hacc |- *.
      by apply storage_saveHistory.
    + unfold mounted. cbn [core set_core notices].
      assert (timeline (saveHistory (clear_missing_active st1))
              = timeline (core pg)) as ->; [|done].
      destruct (same_tracking_saveHistory (clear_missing_active st1))
        as (_ & _ & _ & _ & _ & -> & _).
      unfold clear_missing_active. destruct (_ && _); cbn;
        subst st1; by destruct (findIndex p _) as [[idx h]|].
  - intros h s Hin Hid. unfold item_historyId. rewrite Hid. cbn. split; [done|].
    destruct (findIndex (λ h0 : obj, strict_eq (h0 !!! "id") (JStr s))
                (history (core pg))) as [[idx h']|] eqn:Hf.
    + exists idx, h'. split; [done|].
      apply findIndex_Some in Hf as (_ & Hp & _).
      apply strict_eq_true in Hp. by rewrite Hp.
    + apply findIndex_None_iff in Hf. rewrite Forall_forall in Hf.
      specialize (Hf h Hin). cbn in Hf. rewrite Hid in Hf.
      unfold strict_eq in Hf. by rewrite bool_decide_eq_false in Hf.
Qed.

(** X26. [deleteRun] issues a delete request unless the button has no run
    id.  A failed request mounts an error and leaves every mounted node and
    the history in place.  After a successful one the message of the button
    is unmounted and the history loses at most one record, the first whose
    [runId] is the button's run id as a string: none when no record carries
    that string. *)
Theorem deleteRun_effect runId msg pg :
  (deleteRun runId pg
   = if String.eqb runId "" then (false, pg)
     else (true, send (ReqDelete runId) pg))
  ∧ (let pg' := deleteRun_resume runId msg DeleteFailed pg in
     core pg' = set_timeline (timeline (core pg)) (S (nodes (core pg))) (core pg)
     ∧ ∀ node, node ∈ mounted pg → node ∈ mounted pg')
  ∧ (let pg' := deleteRun_resume runId msg DeleteOk pg in
     (∀ node, msg = Some node → node < nodes (core pg) → node ∉ mounted pg')
     ∧ history (core pg') `sublist_of` history (core pg)
     ∧ List.length (history (core pg)) ≤ S (List.length (history (core pg')))
     ∧ (Forall (λ h : obj, h !!! "runId" ≠ JStr runId) (history (core pg)) →
        history (core pg') = history (core pg)
        ∧ activeHistoryId (core pg') = activeHistoryId (core pg)
        ∧ storage (core pg') = storage (core pg))
     ∧ (∀ idx h,
          findIndex (λ h, strict_eq (h !!! "runId") (JStr runId))
            (history (core pg)) = Some (idx, h) →
          history (core pg') = delete idx (history (core pg)))
     ∧ sent pg' = sent pg).
Proof.
  split; [done|]. split.
  - cbn. split; [done|]. intros node. unfold mounted. cbn.
    rewrite fmap_app, !elem_of_app. tauto.
  - cbn zeta. unfold deleteRun_resume.
    set (pg0 := match msg with Some node => unmount node pg | None => pg end).
    assert (history (core pg0) = history (core pg)
            ∧ activeHistoryId (core pg0) = activeHistoryId (core pg)
            ∧ storage (core pg0) = storage (core pg)
            ∧ sent pg0 = sent pg ∧ nodes (core pg0) = nodes (core pg)) as (Hh & Ha & Hs & Hse & Hn).
    { subst pg0. by destruct msg. }
    cbn [core set_core sent].
    assert (∀ idx h,
      findIndex (λ h, strict_eq (h !!! "runId") (JStr runId)) (history (core pg))
      = Some (idx, h) →
      history (removeHistoryByRunId (JStr runId) (core pg0))
      = delete idx (history (core pg))) as Hdel.
    { intros idx h Hf. rewrite <- Hh in Hf |- *.
      by apply (history_removeHistoryByRunId _ _ _ h). }
    assert (Forall (λ h : obj, h !!! "runId" ≠ JStr runId) (history (core pg)) →
            removeHistoryByRunId (JStr runId) (core pg0) = core pg0) as Hno.
    { intros Hall. unfold removeHistoryByRunId. rewrite Hh.
      rewrite findIndex_None; [done|]. intros h Hin.
      rewrite Forall_forall in Hall. specialize (Hall h Hin).
      unfold strict_eq. by apply bool_decide_eq_false. }
    repeat split.
    + intros node -> Hlt. unfold mounted. cbn [core set_core notices].
      assert (timeline (removeHistoryByRunId (JStr runId) (core pg0))
              = timeline (core pg0)) as ->.
      { unfold removeHistoryByRunId. destruct (findIndex _ _) as [[idx h]|]; [|done].
        destruct (same_tracking_saveHistory
          (clear_missing_active (set_history (delete idx (history (core pg0))) (core pg0))))
          as (_ & _ & _ & _ & _ & -> & _).
        unfold clear_missing_active. by destruct (_ && _). }
      subst pg0. cbn. rewrite not_elem_of_app. split.
      * apply (unmounted_self node (timeline (core pg))).
      * apply (unmounted_self node (notices pg)).
    + destruct (findIndex (λ h, strict_eq (h !!! "runId") (JStr runId))
                  (history (core pg))) as [[idx h]|] eqn:Hf.
      * rewrite (Hdel _ _ eq_refl). apply sublist_delete.
      * apply findIndex_None_iff in Hf. rewrite Hno, Hh; [done|].
        eapply Forall_impl; [exact Hf|]. intros h Hp. cbn in Hp.
        unfold strict_eq in Hp. by apply bool_decide_eq_false in Hp.
    + destruct (findIndex (λ h, strict_eq (h !!! "runId") (JStr runId))
                  (history (core pg))) as [[idx h]|] eqn:Hf.
      * rewrite (Hdel _ _ eq_refl). apply findIndex_Some in Hf as (Hl & _).
        rewrite length_delete by (by eexists). lia.
      * apply findIndex_None_iff in Hf. rewrite Hno, Hh; [lia|].
        eapply Forall_impl; [exact Hf|]. intros h Hp. cbn in Hp.
        unfold strict_eq in Hp. by apply bool_decide_eq_false in Hp.
    + by rewrite Hno, Hh.
    + by rewrite Hno, Ha.
    + by rewrite Hno, Hs.
    + apply Hdel.
    + done.
Qed.

End PageProofs.

(** ** Synopsis *)

Section SynopsisProofs.
Context {host : Host}.

Lemma js_or_again v : js_or (js_or v JNull) JNull = js_or v JNull.
Proof. unfold js_or. destruct (truthy v) eqn:Hv; [by rewrite Hv|done]. Qed.

Lemma saveHistory_set_history_again st l :
  saveHistory (set_history l (saveHistory (set_history l st)))
  = saveHistory (set_history l st).
Proof.
  unfold saveHistory. cbn [history set_history].
  destruct (storage_accepts (take 100 l)) eqn:Hacc; cbn [history set_storage];
    rewrite ?Hacc; by destruct st.
Qed.

Lemma findIndex_insert_same p (l : list obj) idx h h' :
  findIndex p l = Some (idx, h) → p h' = true →
  findIndex p (<[idx := h']> l) = Some (idx, h').
Proof.
  intros Hf Hp. apply findIndex_Some in Hf as (Hl & _ & Hlt).
  unfold findIndex. apply list_find_Some. split; [|split; [done|]].
  - apply list_lookup_insert_eq. by eapply lookup_lt_Some.
  - intros j y Hj Hji. rewrite list_lookup_insert_ne in Hj by lia.
    rewrite (Hlt j y Hj Hji). done.
Qed.

Lemma patchHistoryByRunId_again rid (p : obj) st :
  p !! "runId" = None →
  patchHistoryByRunId rid p (patchHistoryByRunId rid p st)
  = patchHistoryByRunId rid p st.
Proof.
  intros Hp.
  destruct (findIndex (λ h, strict_eq (h !!! "runId") rid) (history st))
    as [[idx h]|] eqn:Hf.
  - rewrite (patchHistoryByRunId_found _ _ _ _ _ Hf).
    set (l' := <[idx := p ∪ h]> (history st)).
    assert (findIndex (λ h, strict_eq (h !!! "runId") rid) l'
            = Some (idx, p ∪ h)) as Hf'.
    { apply (findIndex_insert_same _ _ _ h); [done|].
      rewrite (lookup_total_union_unnamed _ _ _ Hp).
      by apply findIndex_Some in Hf as (_ & ? & _). }
    rewrite (patchHistoryByRunId_found _ _ _ idx (p ∪ h));
      [|by rewrite history_saveHistory].
    rewrite history_saveHistory. cbn [history set_history]. subst l'.
    rewrite list_insert_insert_eq, patch_union_idemp.
    apply saveHistory_set_history_again.
  - unfold patchHistoryByRunId. by rewrite !Hf.
Qed.

(** X27. A synopsis fetch that fails, delivers no synopsis, is made
    for a falsy run id or for a run id that no record carries leaves the state
    as it was.  Otherwise the first record with that [runId] gets the three
    synopsis fields of the response ([null] for a falsy one) in place: every
    other field, the position and the active record are unchanged.  Handling
    the same response twice gives the state that handling it once gives. *)
Theorem hydrateSynopsisSection_effect runId st :
  hydrateSynopsisSection runId SynopsisFailed st = st
  ∧ hydrateSynopsisSection runId (SynopsisOk None) st = st
  ∧ (∀ o, truthy runId = false → hydrateSynopsisSection runId o st = st)
  ∧ (∀ o, Forall (λ h : obj, h !!! "runId" ≠ runId) (history st) →
          hydrateSynopsisSection runId o st = st)
  ∧ (∀ syn idx h,
       truthy runId = true →
       findIndex (λ h, strict_eq (h !!! "runId") runId) (history st)
       = Some (idx, h) →
       let st' := hydrateSynopsisSection runId (SynopsisOk (Some syn)) st in
       ∃ h',
         history st' = <[idx := h']> (history st)
         ∧ h' !!! "synopsisRunId" = js_or (syn !!! "id") JNull
         ∧ h' !!! "synopsisDocxUrl" = js_or (syn !!! "download_url") JNull
         ∧ h' !!! "synopsisStatus" = js_or (syn !!! "status") JNull
         ∧ (∀ f, f ∉ ["synopsisRunId"; "synopsisDocxUrl"; "synopsisStatus"] →
                 h' !! f = h !! f)
         ∧ activeHistoryId st' = activeHistoryId st)
  ∧ (∀ o,
       hydrateSynopsisSection runId o (hydrateSynopsisSection runId o st)
       = hydrateSynopsisSection runId o st).
Proof.
  unfold hydrateSynopsisSection.
  split; [by destruct (truthy runId)|].
  split; [by destruct (truthy runId)|].
  split; [by intros o ->|].
  split; [|split].
  - intros o Hall. destruct (truthy runId); cbn [negb]; [|done].
    destruct o as [|[syn|]]; try done. unfold updateHistoryWithSynopsis.
    cbn [negb]. unfold patchHistoryByRunId.
    rewrite findIndex_None; [by destruct (negb _)|].
    intros h Hin. rewrite Forall_forall in Hall. specialize (Hall h Hin).
    unfold strict_eq. by apply bool_decide_eq_false.
  - intros syn idx h Ht Hf. unfold updateHistoryWithSynopsis.
    rewrite Ht. cbn [negb].
    rewrite (patchHistoryByRunId_found _ _ _ _ _ Hf).
    eexists. split; [by rewrite history_saveHistory|].
    split; [by apply lookup_total_union_named|].
    split; [by apply lookup_total_union_named|].
    split; [by apply lookup_total_union_named|].
    split; [|by rewrite activeHistoryId_saveHistory].
    intros f Hnot. apply union_lookup_unnamed.
    rewrite !not_elem_of_cons in Hnot. destruct Hnot as (H1 & H2 & H3 & _).
    cbn [list_to_map foldr uncurry fst snd curry].
    rewrite !lookup_insert_ne by done. done.
  - intros o. destruct (truthy runId) eqn:Ht; cbn [negb]; [|done].
    destruct o as [|[syn|]]; try done. unfold updateHistoryWithSynopsis.
    rewrite Ht. cbn [negb]. by apply patchHistoryByRunId_again.
Qed.

(** X28. A failed synopsis build leaves history and stored copy alone.
    A successful one changes neither the active record nor the number of
    records nor the timeline; it leaves the state as it was when no record
    carries the button's run id as a string, and otherwise marks the first
    such record in place with [synopsisStatus] ["done"] and the link and id of
    the result, [runId] and [id] unchanged. *)
Theorem buildSynopsis_effect runId result pg :
  (let pg' := buildSynopsis_resume runId BuildFailed pg in
   history (core pg') = history (core pg) ∧ storage (core pg') = storage (core pg)
   ∧ sent pg' = sent pg)
  ∧ (let pg' := buildSynopsis_resume runId (BuildOk result) pg in
     sent pg' = sent pg
     ∧ notices pg' = notices pg
     ∧ activeHistoryId (core pg') = activeHistoryId (core pg)
     ∧ List.length (history (core pg')) = List.length (history (core pg))
     ∧ (Forall (λ h : obj, h !!! "runId" ≠ JStr runId) (history (core pg)) →
        core pg' = core pg)
     ∧ (∀ idx h,
          runId ≠ "" →
          findIndex (λ h, strict_eq (h !!! "runId") (JStr runId))
            (history (core pg)) = Some (idx, h) →
          ∃ h',
            history (core pg') = <[idx := h']> (history (core pg))
            ∧ h' !!! "synopsisStatus" = JStr "done"
            ∧ h' !!! "synopsisDocxUrl" = js_or (result !!! "download_url") JNull
            ∧ h' !!! "synopsisRunId" = js_or (result !!! "synopsis_run_id") JNull
            ∧ h' !!! "runId" = h !!! "runId"
            ∧ h' !!! "id" = h !!! "id")).
Proof.
  split; [done|]. cbn zeta. unfold buildSynopsis_resume.
  cbn [core set_core sent notices].
  split; [done|]. split; [done|].
  split; [|split; [|split]].
  - unfold updateHistoryWithSynopsis. destruct (negb _); [done|].
    apply activeHistoryId_patchHistoryByRunId.
  - unfold updateHistoryWithSynopsis. destruct (negb _); [done|].
    apply length_patchHistoryByRunId.
  - intros Hall. unfold updateHistoryWithSynopsis. destruct (negb _); [done|].
    unfold patchHistoryByRunId. rewrite findIndex_None; [done|].
    intros h Hin. rewrite Forall_forall in Hall. specialize (Hall h Hin).
    unfold strict_eq. by apply bool_decide_eq_false.
  - intros idx h Hne Hf. unfold updateHistoryWithSynopsis.
    assert (truthy (JStr runId) = true) as ->.
    { cbn. by destruct (String.eqb_spec runId ""). }
    cbn [negb]. rewrite (patchHistoryByRunId_found _ _ _ _ _ Hf).
    eexists. split; [by rewrite history_saveHistory|].
    split; [by apply lookup_total_union_named|].
    split; [erewrite lookup_total_union_named; [apply js_or_again|done]|].
    split; [erewrite lookup_total_union_named; [apply js_or_again|done]|].
    split; by apply lookup_total_union_unnamed.
Qed.

(** X29. A refresh forgets the synopsis: after
    [loadHistoryFromServer], every record with a truthy [runId] that is the
    id of a listed run has [synopsisRunId], [synopsisDocxUrl] and
    [synopsisStatus] [null], whatever the local record of that run held. *)
Theorem refresh_forgets_synopsis clock R st (h : obj) :
  h ∈ history (loadHistoryFromServer clock (ListOk (Some R)) st) →
  truthy (h !!! "runId") = true →
  Exists (λ run : obj, run !!! "id" = h !!! "runId") R →
  h !!! "synopsisRunId" = JNull
  ∧ h !!! "synopsisDocxUrl" = JNull
  ∧ h !!! "synopsisStatus" = JNull.
Proof.
  cbn. unfold reconcile. rewrite elem_of_app. intros [Hin|Hin] Ht Hex.
  - unfold serverItems in Hin. apply elem_of_lookup_imap in Hin as (i & run & -> & _).
    by repeat split.
  - apply list_elem_of_filter in Hin as [Hkeep _].
    apply localOnly_keeps_runs in Hkeep as [[Hf|Hall] _]; [congruence|].
    apply Exists_exists in Hex as (run & Hrun & Heq).
    rewrite Forall_forall in Hall. by destruct (Hall run Hrun).
Qed.

End SynopsisProofs.

(** ** The further properties at concrete inputs *)

Lemma removeHistoryByRunId_effect_witness :
  removeHistoryByRunId (host := plain_host) (JStr "r9") two_runs = two_runs
  ∧ history (removeHistoryByRunId (host := plain_host) (JStr "r1") two_runs)
    = [listed_record "r0" "s0" "running"]
  ∧ getRecordByRunId (JStr "r1")
      (removeHistoryByRunId (host := plain_host) (JStr "r1") two_runs) = None.
Proof.
  split.
  - apply (proj1 (removeHistoryByRunId_effect (host := plain_host) (JStr "r9")
                    two_runs)).
    by_evaluation.
  - destruct (proj2 (removeHistoryByRunId_effect (host := plain_host) (JStr "r1")
                       two_runs) 1 (listed_record "r1" "s1" "running") eq_refl)
      as (Hh & _ & _ & _ & Hg).
    split; [exact Hh|]. apply Hg; [reflexivity|]. unfold unique_truthy.
    by_evaluation.
Defined.

Lemma removal_keeps_active_valid_witness :
  activeHistoryId
    (removeHistoryByRunId (host := plain_host) (JStr "r1") second_active) = JNull
  ∧ activeHistoryId
      (removeHistoryByRunId (host := plain_host) (JStr "r0") second_active)
    = JStr "r1".
Proof.
  split.
  - apply (proj2 (proj2 (removal_keeps_active_valid (host := plain_host)
                           (JStr "r1") second_active 1
                           (listed_record "r1" "s1" "running") eq_refl)));
      [reflexivity|by_evaluation].
  - apply (proj1 (proj2 (removal_keeps_active_valid (host := plain_host)
                           (JStr "r0") second_active 0
                           (listed_record "r0" "s0" "running") eq_refl))).
    by_evaluation.
Defined.

Lemma removeHistoryByRunId_unique_witness :
  unique_truthy "sessionId"
    (history (removeHistoryByRunId (host := plain_host) (JStr "r1") two_runs)).
Proof.
  apply (removeHistoryByRunId_unique (host := plain_host)).
  unfold unique_truthy. by_evaluation.
Defined.

Lemma ensureHistoryFromRun_once_witness :
  history (ensureHistoryFromRun (host := plain_host) "u1" "t1" "t2"
             (sample_run "r9" "s9" "done") two_runs)
  = record_of_run (host := plain_host) "u1" "t1" "t2" (sample_run "r9" "s9" "done")
    :: history two_runs
  ∧ ensureHistoryFromRun (host := plain_host) "u1" "t1" "t2"
      (sample_run "r1" "s1" "done") two_runs = two_runs
  ∧ ensureHistoryFromRun (host := plain_host) "u2" "t3" "t4"
      (sample_run "r9" "s9" "done")
      (ensureHistoryFromRun (host := plain_host) "u1" "t1" "t2"
         (sample_run "r9" "s9" "running") two_runs)
    = ensureHistoryFromRun (host := plain_host) "u1" "t1" "t2"
        (sample_run "r9" "s9" "running") two_runs.
Proof.
  split; [|split].
  - apply (proj1 (ensureHistoryFromRun_once (host := plain_host) _ _ _ _ _)).
    by_evaluation.
  - apply (proj1 (proj2 (ensureHistoryFromRun_once (host := plain_host) _ _ _ _ _))).
    by_evaluation.
  - apply (proj2 (proj2 (proj2 (ensureHistoryFromRun_once (host := plain_host)
                                  _ _ _ _ _)))).
    reflexivity.
Defined.

Lemma patch_keeps_records_witness :
  key_values "id"
    (history (patchHistory (host := plain_host) (JStr "s1") synopsis_patch two_runs))
  ≡ₚ key_values "id" (history two_runs)
  ∧ key_values "id"
      (history (patchHistoryByRunId (host := plain_host) (JStr "r1")
                  synopsis_patch two_runs))
    = key_values "id" (history two_runs).
Proof.
  split.
  - apply (proj1 (proj2 (proj2 (patch_keeps_records (host := plain_host)
                                  (JStr "s1") synopsis_patch two_runs)))).
    reflexivity.
  - apply (proj1 (proj2 (proj2 (patch_keeps_records (host := plain_host)
                                  (JStr "r1") synopsis_patch two_runs)))).
    reflexivity.
Defined.

Lemma reconcile_again_witness :
  reconcile (host := plain_host) (λ _, "t9") runs_distinct
    (reconcile (host := plain_host) constant_clock runs_distinct
       [searched_record 1; listed_record "r1" "s1" "done"])
  = reconcile (host := plain_host) (λ _, "t9") runs_distinct
      [searched_record 1; listed_record "r1" "s1" "done"].
Proof.
  apply (proj1 (reconcile_again (host := plain_host) constant_clock (λ _, "t9")
                  runs_distinct
                  [searched_record 1; listed_record "r1" "s1" "done"]
                  ltac:(by_evaluation))).
Defined.

Lemma running_after_load_witness :
  getRunningRunIdForRecord
    (Some (mapRunToHistory (host := plain_host) "t0"
             (sample_run "r2" "s2" "running")))
    (loadHistoryFromServer (host := plain_host) constant_clock
       (ListOk (Some runs_distinct)) init)
  = JStr "r2".
Proof.
  apply (proj2 (proj2 (running_after_load (host := plain_host) constant_clock
                         runs_distinct init)));
    [by_evaluation|reflexivity|reflexivity].
Defined.


Lemma done_step_materialises_witness :
  Exists (λ h : obj, h !!! "runId" = JStr "r9")
    (history (pollRun_resume (host := plain_host) "u1" "t1" "t2" "t3" (JStr "r9")
                (RunOk (Some (sample_run "r9" "s9" "done"))) two_runs)).
Proof.
  apply (done_step_materialises (host := plain_host) "u1" "t1" "t2" "t3"
           (JStr "r9") (sample_run "r9" "s9" "done") two_runs); reflexivity.
Defined.

Lemma done_step_again_witness :
  history
    (pollRun_resume (host := plain_host) "u2" "t4" "t5" "t6" (JStr "r9")
       (RunOk (Some (sample_run "r9" "s9" "done")))
       (pollRun_resume (host := plain_host) "u1" "t1" "t2" "t3" (JStr "r9")
          (RunOk (Some (sample_run "r9" "s9" "done"))) two_runs))
  = history
      (pollRun_resume (host := plain_host) "u1" "t1" "t2" "t6" (JStr "r9")
         (RunOk (Some (sample_run "r9" "s9" "done"))) two_runs).
Proof.
  apply (done_step_again (host := plain_host)); reflexivity.
Defined.

Lemma done_step_activates_witness :
  (∃ r,
     head (history (pollRun_resume (host := one_row_host) "u1" "t1" "t2" "t3"
                      (JStr "r1") (RunOk (Some (run_with_rows "r1" "s1")))
                      two_runs)) = Some r
     ∧ getActiveRecord
         (pollRun_resume (host := one_row_host) "u1" "t1" "t2" "t3" (JStr "r1")
            (RunOk (Some (run_with_rows "r1" "s1"))) two_runs) = Some r
     ∧ r !!! "sessionId" = JStr "s1"
     ∧ timeline
         (pollRun_resume (host := one_row_host) "u1" "t1" "t2" "t3" (JStr "r1")
            (RunOk (Some (run_with_rows "r1" "s1"))) two_runs)
       = [(0, MPipeline (JStr "r1"))])
  ∧ timers
      (pollRun_resume (host := null_row_host) "u1" "t1" "t2" "t3" (JStr "r1")
         (RunOk (Some (run_with_rows "r1" "s1"))) two_runs)
    = [(RUN_POLL_MS, JStr "r1")].
Proof.
  split.
  - destruct (done_step_activates (host := one_row_host) "u1" "t1" "t2" "t3"
                (JStr "r1") (run_with_rows "r1" "s1") two_runs)
      as (r & Hh & Ha & Hs & _ & Hm & _).
    + reflexivity.
    + reflexivity.
    + right. by_evaluation.
    + exists r. split; [exact Hh|]. split; [exact Ha|]. split; [exact Hs|].
      apply Hm. reflexivity.
  - destruct (done_step_activates (host := null_row_host) "u1" "t1" "t2" "t3"
                (JStr "r1") (run_with_rows "r1" "s1") two_runs)
      as (r & _ & _ & _ & _ & _ & He).
    + reflexivity.
    + reflexivity.
    + right. by_evaluation.
    + apply He. reflexivity.
Defined.

Lemma search_result_effect_witness :
  getActiveRecord
    (handleSearchResult (host := plain_host) "u2" "t1" "t2" (sample_result "s7")
       two_runs)
  = Some (record_of_search "u2" "t1" "t2" (sample_result "s7"))
  ∧ history
      (handleSearchResult (host := plain_host) "u2" "t1" "t2"
         (list_to_map [("matches_count", JNum 0)]) two_runs)
    = history two_runs.
Proof.
  split.
  - apply (proj2 (search_result_effect (host := plain_host) "u2" "t1" "t2"
                    (sample_result "s7") two_runs)).
    reflexivity.
  - apply (proj1 (search_result_effect (host := plain_host) "u2" "t1" "t2"
                    (list_to_map [("matches_count", JNum 0)]) two_runs)).
    reflexivity.
Defined.

Lemma splitRow_cells_witness :
  splitRow text_ibuprofen_padded
  = if blank text_ibuprofen_padded then [] else [js_trim text_ibuprofen_padded].
Proof.
  apply (proj2 (splitRow_cells text_ibuprofen_padded)). by_evaluation.
Defined.

Lemma parseMarkdownTable_result_witness :
  parseMarkdownTable (Some text_no_table) = None
  ∧ parseMarkdownTable (Some sample_table)
    = Some ([text_drug; text_dose_header], [[text_nurofen; text_dose]])
  ∧ Forall (λ r, r ≠ [] ∧ Forall cell_ok r) [[text_nurofen; text_dose]].
Proof.
  destruct parseMarkdownTable_result as (_ & H2 & H3).
  assert (parseMarkdownTable (Some sample_table)
          = Some ([text_drug; text_dose_header], [[text_nurofen; text_dose]]))
    as Ht by (vm_compute; reflexivity).
  split; [apply H2; by_evaluation|]. split; [exact Ht|].
  apply (H3 sample_table _ _ Ht).
Defined.

Lemma validateQuery_getQuery_witness :
  validateQuery (getQuery filled_form) = None
  ∧ ["routes"; "base_form"]
    = (fst <$> filter (λ e, blank e.2 = true) (form_fields blank_form)).
Proof.
  split.
  - apply (proj1 (validateQuery_getQuery filled_form)). by_evaluation.
  - apply (proj2 (validateQuery_getQuery blank_form)). vm_compute. reflexivity.
Defined.

Lemma getApiBase_no_trailing_slash_witness :
  getApiBase text_address_padded [] = text_address.
Proof.
  apply (proj2 (proj2 (proj2 (getApiBase_no_trailing_slash
                                text_address_padded [])))).
  intros a Hl. vm_compute in Hl. injection Hl as <-. discriminate.
Defined.

Lemma trim_bounded_witness :
  trim text_nurofen 4 = take 3 text_nurofen ++ [ellipsis]
  ∧ List.length (trim text_nurofen 4) = 4.
Proof.
  apply (proj1 (proj2 (trim_bounded text_nurofen 4))); vm_compute; lia.
Defined.

Lemma prefs_round_trip_witness :
  drawerDesktopOpen
    (loadPrefs
       (set_prefs (prefs (savePrefs true (toggleDrawer false true first_page)))
          first_page))
  = false
  ∧ loadPrefs first_page = first_page
  ∧ loadPrefs (set_prefs (PrefsFields ∅) first_page)
    = set_prefs (PrefsFields ∅) first_page.
Proof.
  split; [|split].
  - apply (proj1 (proj1 (prefs_round_trip (toggleDrawer false true first_page))
                    first_page)).
  - apply (proj1 (proj2 (prefs_round_trip first_page))). left. reflexivity.
  - apply (proj1 (proj2 (proj2 (prefs_round_trip
                                  (set_prefs (PrefsFields ∅) first_page)))) ∅);
      [reflexivity|intros b; discriminate|intros b; discriminate].
Defined.


Lemma chooseReference_lifecycle_witness :
  (∃ pg1,
     chooseReference Pipeline "s0" 1 [] [] sample_page = (Some 0, pg1)
     ∧ actionPending pg1 = true
     ∧ chooseReference ChooseOnly "s1" 2 [] [] pg1 = (None, pg1))
  ∧ chooseReference Pipeline "s0" 1 [] [] (set_actionPending true sample_page)
    = (None, set_actionPending true sample_page)
  ∧ JStr "s0"
    ∉ pendingSessions
        (core (chooseReference_resume (host := plain_host) Pipeline "s0" 0 "t5"
                PickFailed
                (chooseReference Pipeline "s0" 1 [] [] sample_page).2)).
Proof.
  destruct (chooseReference_lifecycle (host := plain_host) Pipeline "s0" 1 [] []
              sample_page) as (_ & H2 & H3).
  split; [|split].
  - destruct (H2 eq_refl) as (pg1 & Hc & Hp & _ & _ & _ & _ & _ & Hi).
    exists pg1. split; [exact Hc|]. split; [exact Hp|apply Hi].
  - apply (proj1 (chooseReference_lifecycle (host := plain_host) Pipeline "s0" 1
                    [] [] (set_actionPending true sample_page))).
    reflexivity.
  - apply (H3 0 "t5" PickFailed); [reflexivity|discriminate].
Defined.

Lemma onSearch_lifecycle_witness :
  (onSearch blank_form [] false true sample_page).1 = None
  ∧ sent (onSearch blank_form [] false true sample_page).2 = []
  ∧ ∃ loading pg1,
      onSearch filled_form [] false true sample_page = (Some loading, pg1)
      ∧ searchPending pg1 = true
      ∧ sent pg1 = [ReqSearch (getQuery filled_form) None].
Proof.
  destruct (onSearch_lifecycle (host := plain_host) blank_form [] false true
              sample_page) as (_ & H2 & _).
  destruct (onSearch_lifecycle (host := plain_host) filled_form [] false true
              sample_page) as (_ & _ & H3 & _).
  destruct (H2 ["routes"; "base_form"] eq_refl) as (Hn & Hs & _);
    [vm_compute; reflexivity|].
  split; [exact Hn|]. split; [exact Hs|].
  destruct (H3 eq_refl) as (loading & pg1 & Ho & Hp & Hse & _);
    [vm_compute; reflexivity|].
  exists loading, pg1. split; [exact Ho|]. split; [exact Hp|exact Hse].
Defined.

Lemma deleteHistoryItem_effect_witness :
  history (core (deleteHistoryItem_resume (host := plain_host) "r1" "r1" DeleteOk
                  sample_page))
  = [listed_record "r0" "s0" "running"]
  ∧ history (core (deleteHistoryItem_resume (host := plain_host) "r1" "r7" DeleteOk
                    sample_page))
    = history two_runs
  ∧ core (deleteHistoryItem_resume (host := plain_host) "r1" "" DeleteOk sample_page)
    = removeHistoryByRunId (host := plain_host) (JStr "r1") two_runs.
Proof.
  split; [|split].
  - destruct (proj1 (proj2 (proj2 (proj2 (deleteHistoryItem_effect
                (host := plain_host) "r1" "r1" sample_page)))))
      as (_ & Hd & _); [discriminate|].
    apply (Hd 1 (listed_record "r1" "s1" "running")). reflexivity.
  - destruct (proj1 (proj2 (proj2 (proj2 (deleteHistoryItem_effect
                (host := plain_host) "r1" "r7" sample_page)))))
      as (Hn & _); [discriminate|].
    apply Hn. by_evaluation.
  - apply (proj1 (proj2 (proj2 (deleteHistoryItem_effect (host := plain_host)
                                  "r1" "" sample_page)))).
    reflexivity.
Defined.

Lemma deleteRun_effect_witness :
  history (core (deleteRun_resume (host := plain_host) "r7" None DeleteOk
                  sample_page))
  = history two_runs
  ∧ history (core (deleteRun_resume (host := plain_host) "r1" None DeleteOk
                    sample_page))
    = [listed_record "r0" "s0" "running"].
Proof.
  split.
  - destruct (proj2 (proj2 (deleteRun_effect (host := plain_host) "r7" None
                              sample_page))) as (_ & _ & _ & Hn & _).
    apply Hn. by_evaluation.
  - destruct (proj2 (proj2 (deleteRun_effect (host := plain_host) "r1" None
                              sample_page))) as (_ & _ & _ & _ & Hd & _).
    apply (Hd 1 (listed_record "r1" "s1" "running")). reflexivity.
Defined.

Lemma hydrateSynopsisSection_effect_witness :
  hydrateSynopsisSection (host := plain_host) (JStr "r9")
    (SynopsisOk (Some sample_synopsis)) two_runs = two_runs
  ∧ ∃ h',
      history (hydrateSynopsisSection (host := plain_host) (JStr "r1")
                 (SynopsisOk (Some sample_synopsis)) two_runs)
      = <[1 := h']> (history two_runs)
      ∧ h' !!! "synopsisDocxUrl" = JStr "/files/syn1.docx".
Proof.
  split.
  - apply (proj1 (proj2 (proj2 (proj2 (hydrateSynopsisSection_effect
                                         (host := plain_host) (JStr "r9")
                                         two_runs))))).
    by_evaluation.
  - destruct (proj1 (proj2 (proj2 (proj2 (proj2 (hydrateSynopsisSection_effect
                (host := plain_host) (JStr "r1") two_runs)))))
                sample_synopsis 1 (listed_record "r1" "s1" "running")
                eq_refl eq_refl)
      as (h' & Hh & _ & Hu & _).
    exists h'. split; [exact Hh|exact Hu].
Defined.

Lemma buildSynopsis_effect_witness :
  core (buildSynopsis_resume (host := plain_host) "r9" (BuildOk sample_build)
         sample_page) = two_runs
  ∧ ∃ h',
      history (core (buildSynopsis_resume (host := plain_host) "r1"
                      (BuildOk sample_build) sample_page))
      = <[1 := h']> (history two_runs)
      ∧ h' !!! "synopsisStatus" = JStr "done".
Proof.
  destruct (proj2 (buildSynopsis_effect (host := plain_host) "r9" sample_build
                     sample_page)) as (_ & _ & _ & _ & Hn & _).
  destruct (proj2 (buildSynopsis_effect (host := plain_host) "r1" sample_build
                     sample_page)) as (_ & _ & _ & _ & _ & Hf).
  split.
  - apply Hn. by_evaluation.
  - destruct (Hf 1 (listed_record "r1" "s1" "running")) as (h' & Hh & Hs & _);
      [discriminate|reflexivity|].
    exists h'. split; [exact Hh|exact Hs].
Defined.

Lemma refresh_forgets_synopsis_witness :
  synopsis_patch ∪ listed_record "r1" "s1" "done" ∈ history synopsis_known
  ∧ (synopsis_patch ∪ listed_record "r1" "s1" "done") !!! "synopsisStatus"
    = JStr "done"
  ∧ listed_record "r1" "s1" "done"
    ∈ history (loadHistoryFromServer (host := plain_host) constant_clock
                 (ListOk (Some runs_distinct)) synopsis_known)
  ∧ listed_record "r1" "s1" "done" !!! "synopsisStatus" = JNull.
Proof.
  assert (listed_record "r1" "s1" "done"
          ∈ history (loadHistoryFromServer (host := plain_host) constant_clock
                       (ListOk (Some runs_distinct)) synopsis_known)) as Hin
    by by_evaluation.
  split; [by_evaluation|]. split; [reflexivity|]. split; [exact Hin|].
  apply (proj2 (proj2 (refresh_forgets_synopsis (host := plain_host)
                         constant_clock runs_distinct synopsis_known
                         (listed_record "r1" "s1" "done") Hin eq_refl
                         ltac:(by_evaluation)))).
Defined.
